(** * Incident lifecycle, visibility and audit rules of the campus alert backend

    A shallow embedding of the permission helpers, the status transitions,
    the timestamp normalisers, the resolution-report builder and the
    incident archiver of [src/app.py], with the properties the
    specification states about them.

    Conventions of the embedding.
    - A Python [str] is a Rocq [string] holding its code points, all below
      256 (Latin-1 text).
    - A row of the data store is a Python [dict]: a finite map from column
      names to values.  A column the map lacks reads as [None], as a null
      column does.
    - The data store is reached through [supabase.table(..)...execute()].
      Every [execute()] may raise; the outcomes of the coming calls are a
      schedule carried by the world, consumed one entry per call.  State
      written before an exception stays written: nothing is transactional.
    - Python converts between text and integers of at most 4300 digits:
      [int] and the integer formats raise [ValueError] beyond that.
    - [PHILIPPINES_TZ] is Asia/Manila as pytz has it: +08:00 from 1991 on.
      Its earlier offsets, and what its [localize] does before 1991-01-02
      and in the last day of the range of [datetime], are parameters. *)

From Stdlib Require Import ZArith String Ascii List Bool Lia.
From Stdlib Require Import Decimal DecimalString DecimalFacts DecimalPos DecimalN.
From stdpp Require Import base option list gmap strings.

Open Scope string_scope.
Open Scope Z_scope.

(** ** Python values and the string operations the code uses *)

Module Py.

Inductive pyval : Type :=
| PyNone
| PyStr (s : string)
| PyInt (n : Z).

Definition pyval_eqb (a b : pyval) : bool :=
  match a, b with
  | PyNone, PyNone => true
  | PyStr s, PyStr t => String.eqb s t
  | PyInt m, PyInt n => Z.eqb m n
  | _, _ => false
  end.

(** [bool(v)]: [None], the empty string and zero are falsy. *)
Definition truthy (v : pyval) : bool :=
  match v with
  | PyNone => false
  | PyStr s => negb (String.eqb s "")
  | PyInt n => negb (Z.eqb n 0)
  end.

(** [str(v)], also what an f-string prints. *)
Definition str (v : pyval) : string :=
  match v with
  | PyNone => "None"
  | PyStr s => s
  | PyInt n => NilZero.string_of_int (Z.to_int n)
  end.

(** [v or d] *)
Definition or_else (v d : pyval) : pyval := if truthy v then v else d.

(** [v in [s1; ..; sn]] for a list of string literals. *)
Definition in_strs (v : pyval) (l : list string) : bool :=
  existsb (fun s => pyval_eqb v (PyStr s)) l.

Definition code (c : ascii) : N := N_of_ascii c.

Definition between (lo hi : N) (c : ascii) : bool :=
  (N.leb lo (code c) && N.leb (code c) hi)%bool.

(** [ch.isspace()] on code points below 256. *)
Definition isspace (c : ascii) : bool :=
  (between 9 13 c || between 28 32 c
   || N.eqb (code c) 133 || N.eqb (code c) 160)%bool.

(** [ch.isdigit()] on code points below 256: the ten decimal digits and
    the superscripts one, two and three. *)
Definition isdecimal (c : ascii) : bool := between 48 57 c.

Definition isdigit (c : ascii) : bool :=
  (isdecimal c || N.eqb (code c) 178 || N.eqb (code c) 179
   || N.eqb (code c) 185)%bool.

Definition upper_char (c : ascii) : ascii :=
  if between 97 122 c then ascii_of_N (code c - 32) else c.

Definition lower_char (c : ascii) : ascii :=
  if (between 65 90 c
      || (between 192 222 c && negb (N.eqb (code c) 215)))%bool
  then ascii_of_N (code c + 32) else c.

Fixpoint smap (f : ascii -> ascii) (s : string) : string :=
  match s with
  | EmptyString => EmptyString
  | String c s' => String (f c) (smap f s')
  end.

Fixpoint sfilter (p : ascii -> bool) (s : string) : string :=
  match s with
  | EmptyString => EmptyString
  | String c s' => if p c then String c (sfilter p s') else sfilter p s'
  end.

Fixpoint sforall (p : ascii -> bool) (s : string) : bool :=
  match s with
  | EmptyString => true
  | String c s' => (p c && sforall p s')%bool
  end.

(** [s.upper()], used by the code only to compare against the ASCII prefix
    [RSV] and to pick out digits; the letters a..z are the only code
    points whose image matters for either. *)
Definition upper (s : string) : string := smap upper_char s.
Definition lower (s : string) : string := smap lower_char s.

Fixpoint lstrip (s : string) : string :=
  match s with
  | EmptyString => EmptyString
  | String c s' => if isspace c then lstrip s' else s
  end.

Fixpoint rstrip (s : string) : string :=
  match s with
  | EmptyString => EmptyString
  | String c s' =>
      match rstrip s' with
      | EmptyString => if isspace c then EmptyString else String c EmptyString
      | t => String c t
      end
  end.

Definition strip (s : string) : string := rstrip (lstrip s).

Definition startswith (s p : string) : bool := String.prefix p s.

(** [needle in s] *)
Fixpoint contains (needle s : string) : bool :=
  (String.prefix needle s
   || match s with
      | EmptyString => false
      | String _ s' => contains needle s'
      end)%bool.

(** [s[n:]] *)
Fixpoint drop_chars (n : nat) (s : string) : string :=
  match n, s with
  | O, _ => s
  | S _, EmptyString => EmptyString
  | S n', String _ s' => drop_chars n' s'
  end.

(** Python converts between text and integers of at most 4300 digits
    ([sys.get_int_max_str_digits()]): beyond that [int(s)] and the format
    [d] raise [ValueError]. *)
Definition MAX_STR_DIGITS : nat := 4300.
Global Arguments MAX_STR_DIGITS : simpl never.

(** [int(s)] for a string of digits: [None] stands for the [ValueError]
    raised for text that is empty, has a character that is not a decimal
    digit, or has more than 4300 digits, leading zeros counted. *)
Definition int_of_string (s : string) : option Z :=
  if (sforall isdecimal s && (String.length s <=? MAX_STR_DIGITS)%nat)%bool
  then option_map (fun u => Z.of_N (N.of_uint u)) (NilZero.uint_of_string s)
  else None.

Fixpoint zeros (n : nat) : string :=
  match n with
  | O => EmptyString
  | S n' => String "0" (zeros n')
  end.

(** The digits of [n >= 0] with zeros in front up to [w] characters. *)
Definition padded_digits (w : nat) (n : Z) : string :=
  let s := str (PyInt n) in
  zeros (w - String.length s) ++ s.

(** [f"{n:0{w}d}"] for [n >= 0]: [None] stands for the [ValueError] raised
    when [n] has more than 4300 digits. *)
Definition zero_pad (w : nat) (n : Z) : option string :=
  if (String.length (str (PyInt n)) <=? MAX_STR_DIGITS)%nat
  then Some (padded_digits w n)
  else None.

(** The text of that [ValueError]. *)
Definition EXCEEDS_LIMIT : string :=
  "Exceeds the limit (4300 digits) for integer string conversion; use sys.set_int_max_str_digits() to increase the limit".

End Py.
Export Py.

(** ** The data store and the exception monad *)

Module Db.

Abbreviation row := (gmap string pyval).

(** [r.get(k)] and [r[k]] on a row the store returned. *)
Definition get (r : row) (k : string) : pyval := default PyNone (r !! k).

Inductive result (A : Type) : Type :=
| Ok (a : A)
| Raise (msg : string).
Arguments Ok {A} a.
Arguments Raise {A} msg.

Record world : Type := World {
  tables : gmap string (list row);
  faults : list (option string);
}.

Definition M (A : Type) : Type := world -> result A * world.

Definition ret {A} (a : A) : M A := fun w => (Ok a, w).

Definition raise {A} (msg : string) : M A := fun w => (Raise msg, w).

Definition bind {A B} (m : M A) (k : A -> M B) : M B :=
  fun w =>
    match m w with
    | (Ok a, w') => k a w'
    | (Raise e, w') => (Raise e, w')
    end.

(** [try: m except Exception as e: h e] *)
Definition try_catch {A} (m : M A) (h : string -> M A) : M A :=
  fun w =>
    match m w with
    | (Ok a, w') => (Ok a, w')
    | (Raise e, w') => h e w'
    end.

Definition rows_of (w : world) (t : string) : list row :=
  default [] (tables w !! t).

Definition set_rows (t : string) (rs : list row) (w : world) : world :=
  World (<[t := rs]> (tables w)) (faults w).

(** One [execute()]: the head of the schedule decides whether the call
    raises; an exhausted schedule means no further failure. *)
Definition advance (w : world) : world := World (tables w) (tl (faults w)).

Definition execute {A} (op : world -> A * world) : M A :=
  fun w =>
    match faults w with
    | Some msg :: _ => (Raise msg, advance w)
    | _ => let '(a, w') := op (advance w) in (Ok a, w')
    end.

(** [.eq(col, v)]: the store compares the column with the text of [v]; a
    null column matches nothing. *)
Definition eq_filter (col : string) (v : pyval) (r : row) : bool :=
  match get r col with
  | PyNone => false
  | x => String.eqb (str x) (str v)
  end.

(** [table(t).select(..).eq(..).execute().data] *)
Definition select (t : string) (p : row -> bool) : M (list row) :=
  execute (fun w => (List.filter p (rows_of w t), w)).

(** [table(t).insert(r).execute().data] *)
Definition insert (t : string) (r : row) : M (list row) :=
  execute (fun w => ([r], set_rows t (rows_of w t ++ [r]) w)).

(** [table(t).update(patch).eq(..).execute().data]: the listed columns are
    overwritten in every matching row, the other columns are kept. *)
Definition update (t : string) (patch : row) (p : row -> bool) : M (list row) :=
  execute (fun w =>
    let rs := rows_of w t in
    (List.map (fun r => patch ∪ r) (List.filter p rs),
     set_rows t (List.map (fun r => if p r then patch ∪ r else r) rs) w)).

(** [table(t).delete().eq(..).execute().data] *)
Definition delete (t : string) (p : row -> bool) : M (list row) :=
  execute (fun w =>
    let rs := rows_of w t in
    (List.filter p rs, set_rows t (List.filter (fun r => negb (p r)) rs) w)).

End Db.
Export Db.

Notation "'do' x <- c1 ; c2" := (bind c1 (fun x => c2))
  (at level 10, x name, c1 at level 100, c2 at level 200).

Definition INCIDENTS : string := "alert_incidents".
Definition ARCHIVE : string := "incident_archive".
Definition RESOLUTION_REPORTS_TABLE : string := "incident_resolution_reports".
Definition ACTIVITY_LOGS : string := "admin_activity_logs".
Definition AUDIT_TRAIL : string := "incident_audit_trail".
Definition STUDENTS : string := "accounts_student".
Definition ADMINS : string := "accounts_admin".

(** ** Permission helpers *)

(** [(v or '').strip()]; a truthy value that is not a string has no
    [strip], which Python reports as an [AttributeError]. *)
Definition stripped_text (v : pyval) : result string :=
  match or_else v (PyStr "") with
  | PyStr s => Ok (strip s)
  | _ => Raise "'int' object has no attribute 'strip'"
  end.

Definition lift_result {A} (r : result A) : M A := fun w => (r, w).

Definition can_admin_edit_incident (incident_id admin_id : pyval)
  : M (bool * string) :=
  try_catch
    (do rows <- select INCIDENTS (eq_filter "icd_id" incident_id) ;
     match rows with
     | [] => ret (false, "Incident not found")
     | incident :: _ =>
         let status := get incident "icd_status" in
         let assigned_responder_id := get incident "assigned_responder_id" in
         if in_strs status ["Resolved"; "Cancelled"] then
           ret (false, "Incident is " ++ str status ++ " and cannot be modified")
         else if negb (truthy assigned_responder_id) then
           ret (true, "No responder assigned - available for assignment")
         else if String.eqb (str assigned_responder_id) (str admin_id) then
           ret (true, "You are the assigned responder")
         else
           ret (false, "Incident is assigned to another responder (ID: "
                       ++ str assigned_responder_id ++ ")")
     end)
    (fun e => ret (false, "Error checking permissions: " ++ e)).

Definition can_admin_view_incident (incident_id admin_id : pyval)
  : M (bool * string) :=
  try_catch
    (do rows <- select INCIDENTS (eq_filter "icd_id" incident_id) ;
     match rows with
     | [] => ret (false, "Incident not found")
     | incident :: _ =>
         do status <- lift_result (stripped_text (get incident "icd_status")) ;
         let assigned_responder_id := get incident "assigned_responder_id" in
         if (in_strs (PyStr status) ["Active"; "Pending"]
             && truthy assigned_responder_id
             && negb (String.eqb (str assigned_responder_id) (str admin_id)))%bool
         then ret (false, "This incident is assigned to another responder")
         else ret (true, "Incident is viewable")
     end)
    (fun e => ret (false, "Error checking permissions: " ++ e)).

(** The loop of [filter_incidents_for_admin]: [filtered] grows by
    [append]; it has no [try], so a status without [strip] raises. *)
Fixpoint filter_loop (admin_id_str : string) (incidents filtered : list row)
  : result (list row) :=
  match incidents with
  | [] => Ok filtered
  | incident :: rest =>
      match stripped_text (get incident "icd_status") with
      | Raise e => Raise e
      | Ok status =>
          let assigned_responder_id := get incident "assigned_responder_id" in
          if (in_strs (PyStr status) ["Active"; "Pending"]
              && truthy assigned_responder_id
              && negb (String.eqb (str assigned_responder_id) admin_id_str))%bool
          then filter_loop admin_id_str rest filtered
          else filter_loop admin_id_str rest (filtered ++ [incident])
      end
  end.

Definition filter_incidents_for_admin (incidents : list row) (admin_id : pyval)
  : result (list row) :=
  if negb (truthy admin_id) then Ok incidents
  else filter_loop (str admin_id) incidents [].

(** The first row the store returns for an incident id. *)
Definition incident_of (w : world) (incident_id : pyval) : option row :=
  head (List.filter (eq_filter "icd_id" incident_id) (rows_of w INCIDENTS)).

(** ** Vocabulary of the permission properties *)

(** The next call to the store does not raise. *)
Definition next_ok (w : world) : Prop :=
  match faults w with
  | Some _ :: _ => False
  | _ => True
  end.

(** The status of the incident, read as the view check and the filter read
    it, is Active or Pending. *)
Definition is_open (incident : row) : bool :=
  match stripped_text (get incident "icd_status") with
  | Ok status => in_strs (PyStr status) ["Active"; "Pending"]
  | Raise _ => false
  end.

(** The incident has a responder whose id, as text, is not [admin_id]'s. *)
Definition assigned_to_other (admin_id : pyval) (incident : row) : bool :=
  (truthy (get incident "assigned_responder_id")
   && negb (String.eqb (str (get incident "assigned_responder_id"))
                       (str admin_id)))%bool.

(** An Active or Pending incident assigned to another admin. *)
Definition hidden_from (admin_id : pyval) (incident : row) : bool :=
  (is_open incident && assigned_to_other admin_id incident)%bool.

(** The status column holds text or null. *)
Definition text_status (incident : row) : Prop :=
  match get incident "icd_status" with
  | PyInt _ => False
  | _ => True
  end.

(** The status of the incident is Resolved or Cancelled. *)
Definition is_closed (incident : row) : Prop :=
  get incident "icd_status" = PyStr "Resolved"
  \/ get incident "icd_status" = PyStr "Cancelled".

(** *** Sample data *)

Definition mk_incident (id status : string) (assigned : pyval) : row :=
  <["icd_id" := PyStr id]>
    (<["icd_status" := PyStr status]>
       (<["assigned_responder_id" := assigned]> ∅)).

Definition icd_active_free : row := mk_incident "ICD001" "Active" PyNone.
Definition icd_pending_x : row := mk_incident "ICD002" "Pending" (PyStr "ADM-X").
Definition icd_resolved_x : row := mk_incident "ICD003" "Resolved" (PyStr "ADM-X").
Definition icd_cancelled_free : row := mk_incident "ICD004" "Cancelled" PyNone.

Definition sample_incidents : list row :=
  [icd_active_free; icd_pending_x; icd_resolved_x; icd_cancelled_free].

Definition sample_world : world :=
  World (<[INCIDENTS := sample_incidents]> ∅) [].

(** ** The request context *)

(** What the Flask session holds once an admin is logged in. *)
Record session : Type := Session {
  admin_id : pyval;
  admin_name : pyval;
}.

(** One reading of the clocks a request consults:
    [get_philippines_time().isoformat()], its
    [strftime('%Y%m%d%H%M%S')] form, and [datetime.now().isoformat()]. *)
Record clock : Type := Clock {
  now_iso : string;
  now_stamp : string;
  server_now_iso : string;
}.

Definition mk_row (l : list (string * pyval)) : row := list_to_map l.

(** ** Audit logging *)

Definition log_admin_activity (clk : clock)
    (admin_id admin_name : pyval) (action_type : string)
    (incident_id old_status new_status : pyval) : M (option (list row)) :=
  try_catch
    (do result <- insert ACTIVITY_LOGS (mk_row [
         ("admin_id", admin_id);
         ("admin_name", admin_name);
         ("action_type", PyStr action_type);
         ("incident_id", incident_id);
         ("old_status", old_status);
         ("new_status", new_status);
         ("action_timestamp", PyStr (server_now_iso clk))]) ;
     ret (Some result))
    (fun _ => ret None).

Definition log_incident_change (incident_id : pyval) (action_type : string)
    (old_status new_status admin_id reason : pyval) : M bool :=
  try_catch
    (do _ <- insert AUDIT_TRAIL (mk_row [
         ("icd_id", incident_id);
         ("action_type", PyStr action_type);
         ("old_status", old_status);
         ("new_status", new_status);
         ("changed_by", admin_id);
         ("change_reason", reason)]) ;
     ret true)
    (fun _ => ret false).

(** ** Archiving an incident *)

Definition ARCHIVED_COLUMNS : list string :=
  ["icd_timestamp"; "resolved_timestamp"; "pending_timestamp";
   "cancelled_timestamp"; "icd_status"; "icd_lat"; "icd_lng";
   "assigned_responder_id"; "status_updated_at"; "status_updated_by";
   "icd_category"; "icd_medical_type"; "icd_security_type";
   "icd_university_type"; "icd_description"; "icd_image"; "user_id"].

Definition copy_columns (cols : list string) (r : row) : list (string * pyval) :=
  List.map (fun c => (c, get r c)) cols.

Definition archive_incident (clk : clock) (incident_id admin_id reason : pyval)
  : M (bool * string) :=
  try_catch
    (do incident_result <- select INCIDENTS (eq_filter "icd_id" incident_id) ;
     match incident_result with
     | [] => ret (false, "Incident not found")
     | incident :: _ =>
         let original_icd_id := get incident "icd_id" in
         do existing_archive <-
           select ARCHIVE (eq_filter "icd_id" original_icd_id) ;
         let archive_icd_id :=
           match existing_archive with
           | [] => original_icd_id
           | _ :: _ =>
               PyStr (str original_icd_id ++ "_ARCHIVED_" ++ now_stamp clk)
           end in
         let archive_data :=
           mk_row ([("icd_id", archive_icd_id)]
                   ++ copy_columns ARCHIVED_COLUMNS incident
                   ++ [("archived_by", admin_id);
                       ("archive_reason",
                        or_else reason (PyStr "Archived by administrator"));
                       ("archived_at", PyStr (now_iso clk))]) in
         do _ <- insert ARCHIVE archive_data ;
         do _ <- try_catch
                   (do _ <- delete RESOLUTION_REPORTS_TABLE
                              (eq_filter "icd_id" incident_id) ;
                    ret tt)
                   (fun _ => ret tt) ;
         do _ <- delete INCIDENTS (eq_filter "icd_id" incident_id) ;
         do _ <- log_incident_change incident_id "archived"
                   (get incident "icd_status") PyNone admin_id reason ;
         ret (true, "Incident archived successfully")
     end)
    (fun e => ret (false, e)).

Record bulk_result : Type := BulkResult {
  b_incident_id : pyval;
  b_success : bool;
  b_message : string;
}.

Fixpoint bulk_archive_incidents (clk : clock) (incident_ids : list pyval)
    (admin_id reason : pyval) : M (list bulk_result) :=
  match incident_ids with
  | [] => ret []
  | incident_id :: rest =>
      do r <- archive_incident clk incident_id admin_id reason ;
      do results <- bulk_archive_incidents clk rest admin_id reason ;
      ret (BulkResult incident_id (fst r) (snd r) :: results)
  end.

(** ** Resolution reports *)

(** How the store orders a timestamp column for [order(.., desc=True)]:
    nulls come first in descending order; the isoformat texts the code
    writes, all of one zone, order as text. *)
Definition key_ltb (a b : pyval) : bool :=
  match a, b with
  | PyNone, _ => false
  | _, PyNone => true
  | PyStr s, PyStr t => String.ltb s t
  | PyInt m, PyInt n => Z.ltb m n
  | PyInt _, PyStr _ => true
  | PyStr _, PyInt _ => false
  end.

(** The first row of [order(col, desc=True)]; among equal keys the store's
    own order decides, here the table's. *)
Fixpoint newest (col : string) (rs : list row) : option row :=
  match rs with
  | [] => None
  | r :: rest =>
      match newest col rest with
      | None => Some r
      | Some r' => if key_ltb (get r col) (get r' col) then Some r' else Some r
      end
  end.

(** [table(t).select(..).order(col, desc=True).limit(1).execute().data] *)
Definition select_newest (t col : string) : M (list row) :=
  execute (fun w => (option_list (newest col (rows_of w t)), w)).

Definition RSV : string := "RSV".

(** The body of the [try] of [generate_resolution_id]: the next number. *)
Definition next_resolution_number : M Z :=
  do result <- select_newest RESOLUTION_REPORTS_TABLE "created_at" ;
  let last_id :=
    match result with
    | [] => PyNone
    | last_record :: _ => get last_record "resolved_id"
    end in
  match last_id with
  | PyStr s =>
      if (truthy last_id && startswith (upper s) RSV)%bool then
        let numeric_part :=
          sfilter isdigit (drop_chars (String.length RSV) (upper s)) in
        if negb (String.eqb numeric_part "") then
          match int_of_string numeric_part with
          | Some n => ret (n + 1)
          | None => raise ("int() does not read '" ++ numeric_part ++ "'")
          end
        else ret 1
      else ret 1
  | _ => ret 1
  end.

(** The module stops at start-up when the client cannot be built, so the
    [supabase is None] branches never run and are not modelled.  The id is
    formatted after the [try]: a number of more than 4300 digits makes the
    function raise. *)
Definition generate_resolution_id : M string :=
  do next_number <- try_catch next_resolution_number (fun _ => ret 1) ;
  match zero_pad 5 next_number with
  | Some digits => ret (RSV ++ digits)
  | None => raise EXCEEDS_LIMIT
  end.

Record incident_details : Type := IncidentDetails {
  d_incident : row;
  d_student_details : option row;
  d_admin_details : option row;
}.

Definition get_incident_details (incident_id : pyval)
  : M (option incident_details) :=
  try_catch
    (do incident_result <- select INCIDENTS (eq_filter "icd_id" incident_id) ;
     match incident_result with
     | [] => ret None
     | incident :: _ =>
         do student <-
           (if truthy (get incident "user_id") then
              do student_result <-
                select STUDENTS (eq_filter "user_id" (get incident "user_id")) ;
              ret (head student_result)
            else ret None) ;
         do admin <-
           (if truthy (get incident "admin_id") then
              do admin_result <-
                select ADMINS (eq_filter "admin_id" (get incident "admin_id")) ;
              ret (head admin_result)
            else ret None) ;
         ret (Some (IncidentDetails incident student admin))
     end)
    (fun _ => ret None).

(** [str.isdigit()] of a whole string. *)
Definition all_digits (s : string) : bool :=
  (negb (String.eqb s "") && sforall isdigit s)%bool.

(** [format_incident_label] for an id that is not [None].  The label is
    display text; [upper] is exact on ASCII ids. *)
Definition format_incident_label (incident_id : pyval) : string :=
  match incident_id with
  | PyNone => "Incident"
  | _ =>
      let incident_str := strip (str incident_id) in
      if String.eqb incident_str "" then "Incident"
      else if startswith (upper incident_str) "ICD" then upper incident_str
      else if all_digits incident_str then "ICD_9100" ++ incident_str
      else "ICD_" ++ incident_str
  end.

(** What [create_incident_resolution_report] hands back for display.  The
    date, duration, key-point and metric entries of the source's payload are
    presentation of clock readings and are not carried. *)
Record payload : Type := Payload {
  p_resolved_id : string;
  p_icd_id : pyval;
  p_incident_label : string;
  p_headline : string;
  p_student_name : pyval;
  p_category : pyval;
  p_summary_text : string;
  p_stored : bool;
  p_submitted_summary : option string;
  p_storage_warning : option string;
}.

Definition set_resolved_id (id : string) (p : payload) : payload :=
  Payload id (p_icd_id p) (p_incident_label p) (p_headline p)
    (p_student_name p) (p_category p) (p_summary_text p) (p_stored p)
    (p_submitted_summary p) (p_storage_warning p).

Definition set_stored (b : bool) (p : payload) : payload :=
  Payload (p_resolved_id p) (p_icd_id p) (p_incident_label p) (p_headline p)
    (p_student_name p) (p_category p) (p_summary_text p) b
    (p_submitted_summary p) (p_storage_warning p).

(** [if storage_error:] on the error the report step handed back: [None]
    and the empty text both count as no error. *)
Definition raised_error (storage_error : option string) : option string :=
  match storage_error with
  | Some text => if String.eqb text "" then None else Some text
  | None => None
  end.

Definition set_submitted (summary : string) (storage_error : option string)
    (p : payload) : payload :=
  Payload (p_resolved_id p) (p_icd_id p) (p_incident_label p) (p_headline p)
    (p_student_name p) (p_category p) (p_summary_text p) (p_stored p)
    (Some summary)
    (match raised_error storage_error with
     | Some warning => Some warning
     | None => p_storage_warning p
     end).

Definition DUPLICATE_KEY : string :=
  "duplicate key value violates unique constraint".

(** The error text decides whether the insert is tried again. *)
Definition duplicate_error (storage_error : string) : bool :=
  (contains DUPLICATE_KEY (lower storage_error)
   || contains "resolved_id" (lower storage_error))%bool.

(** The persistence step at the end of [create_incident_resolution_report].
    The payload is a dict the code mutates in place: once the id has been
    regenerated the payload carries the new id, whether or not the second
    insert succeeds. *)
Definition store_report (report_record : row) (summary_payload : payload)
  : M (payload * option string) :=
  try_catch
    (do _ <- insert RESOLUTION_REPORTS_TABLE report_record ;
     ret (set_stored true summary_payload, None))
    (fun storage_error =>
       if duplicate_error storage_error then
         try_catch
           (do resolved_id_retry <- generate_resolution_id ;
            let retried := set_resolved_id resolved_id_retry summary_payload in
            try_catch
              (do _ <- insert RESOLUTION_REPORTS_TABLE
                         (<["resolved_id" := PyStr resolved_id_retry]>
                            report_record) ;
               ret (set_stored true retried, None))
              (fun retry_error => ret (retried, Some retry_error)))
           (fun retry_error => ret (summary_payload, Some retry_error))
       else ret (summary_payload, Some storage_error)).

(** [create_incident_resolution_report].  The stored record keeps the
    identifying columns; its date, duration and description columns are
    presentation of clock readings and free text and are not carried, so
    the description is taken to be text or null (its [strip] cannot fail). *)
Definition create_incident_resolution_report (clk : clock)
    (incident_id admin_id admin_name previous_status summary_text : pyval)
  : M (option payload * option string) :=
  do details <- get_incident_details incident_id ;
  match details with
  | None => ret (None, Some "Incident details could not be retrieved.")
  | Some d =>
      let incident := d_incident d in
      let admin_name := or_else admin_name (PyStr "Administrator") in
      let student_details : row := default ∅ (d_student_details d) in
      let student_name :=
        or_else (get student_details "full_name")
          (or_else (get student_details "student_name")
             (or_else (get incident "student_name") (PyStr "N/A"))) in
      let category :=
        or_else (get incident "icd_category") (PyStr "Uncategorized") in
      let incident_label := format_incident_label incident_id in
      do summary_text <- lift_result (stripped_text summary_text) ;
      let summary_headline :=
        incident_label ++ " resolved by " ++ str admin_name in
      let incident_id_str :=
        match incident_id with
        | PyNone => PyNone
        | _ => PyStr (strip (str incident_id))
        end in
      do resolved_id <- generate_resolution_id ;
      let report_record :=
        mk_row [
          ("resolved_id", PyStr resolved_id);
          ("icd_id", incident_id_str);
          ("incident_label", PyStr incident_label);
          ("student_id", get incident "user_id");
          ("student_name", student_name);
          ("resolved_by",
           match admin_id with PyNone => PyNone | _ => PyStr (str admin_id) end);
          ("resolved_by_name", admin_name);
          ("summary_headline", PyStr summary_headline);
          ("category", category);
          ("status_before", previous_status);
          ("status_after", PyStr "Resolved");
          ("created_at", PyStr (now_iso clk))] in
      let summary_payload :=
        Payload resolved_id incident_id_str incident_label summary_headline
          student_name category summary_text false None None in
      do stored <- store_report report_record summary_payload ;
      ret (Some (fst stored), snd stored)
  end.

(** ** Responses of the request handlers *)

Inductive flash : Type :=
| Flash (message category : string)
| FlashSummary (summary : payload).

Inductive json : Type :=
| JFailure (error : string)
| JFailureMessage (message : string)
| JError (error : string)
| JResolvedNoSummary (message warning : string)
| JResolved (message : string) (summary : option payload)
    (storage_warning : option string)
| JResults (results : list bulk_result) (message : string).

Inductive response : Type :=
| RedirectLogin
| RedirectDashboard (flashes : list flash)
| Json (status : Z) (body : json).

(** ** Status transitions *)

Definition old_status_or_unknown (current_result : list row) : pyval :=
  match current_result with
  | [] => PyStr "Unknown"
  | r :: _ => get r "icd_status"
  end.

(** The part of [mark_resolved] that follows a successful update. *)
Definition after_resolved (clk : clock) (s : session)
    (incident_id old_status : pyval) (summary_text incident_label : string)
    (wants_json : bool) : M response :=
  do _ <- log_admin_activity clk (admin_id s) (admin_name s) "status_change"
            incident_id old_status (PyStr "Resolved") ;
  do report <-
    try_catch
      (create_incident_resolution_report clk incident_id (admin_id s)
         (admin_name s) old_status (PyStr summary_text))
      (fun summary_exception =>
         ret (None,
              Some ("Failed to assemble resolution summary: "
                    ++ summary_exception))) ;
  let '(summary_payload, storage_error) := report in
  let success_message :=
    incident_label ++ " has been marked as resolved!"
    ++ match summary_payload with
       | Some p => if p_stored p then " Resolution summary archived." else ""
       | None => ""
       end in
  match summary_payload, raised_error storage_error with
  | None, Some warning =>
      if wants_json then
        ret (Json 200 (JResolvedNoSummary success_message warning))
      else
        ret (RedirectDashboard
               [Flash (incident_label
                       ++ " resolved, but summary storage failed: " ++ warning)
                  "error"])
  | _, _ =>
      let summary_payload :=
        option_map (set_submitted summary_text storage_error) summary_payload in
      if wants_json then
        ret (Json 200 (JResolved success_message summary_payload storage_error))
      else
        ret (RedirectDashboard
               (Flash success_message "success"
                :: match summary_payload with
                   | Some p => [FlashSummary p]
                   | None => []
                   end))
  end.

Definition mark_resolved (clk : clock) (sess : option session)
    (incident_id resolution_summary : pyval) (wants_json : bool) : M response :=
  match sess with
  | None => ret RedirectLogin
  | Some s =>
      match stripped_text resolution_summary with
      | Raise e => raise e
      | Ok summary_text =>
          let fail (code : Z) (message : string) : M response :=
            if wants_json then ret (Json code (JFailure message))
            else ret (RedirectDashboard [Flash message "error"]) in
          if negb (truthy incident_id) then fail 400 "Incident ID is required"
          else if String.eqb summary_text "" then
            fail 400 "Resolution summary is required."
          else
            do permission <- can_admin_edit_incident incident_id (admin_id s) ;
            let '(can_edit, edit_message) := permission in
            if negb can_edit then
              fail 403 ("Permission denied: " ++ edit_message)
            else
              let incident_label := format_incident_label incident_id in
              try_catch
                (do current_result <-
                   select INCIDENTS (eq_filter "icd_id" incident_id) ;
                 let old_status := old_status_or_unknown current_result in
                 let update_data :=
                   mk_row [
                     ("icd_status", PyStr "Resolved");
                     ("resolved_timestamp", PyStr (now_iso clk));
                     ("status_updated_at", PyStr (now_iso clk));
                     ("status_updated_by", admin_id s)] in
                 do result <-
                   update INCIDENTS update_data (eq_filter "icd_id" incident_id) ;
                 match result with
                 | _ :: _ =>
                     after_resolved clk s incident_id old_status summary_text
                       incident_label wants_json
                 | [] => fail 500 "Failed to update incident status"
                 end)
                (fun e =>
                   if wants_json then ret (Json 500 (JFailure e))
                   else
                     ret (RedirectDashboard
                            [Flash "An error occurred while updating the incident"
                               "error"]))
      end
  end.

(** [s[:n]] *)
Fixpoint take_chars (n : nat) (s : string) : string :=
  match n, s with
  | O, _ => EmptyString
  | S _, EmptyString => EmptyString
  | S n', String c s' => String c (take_chars n' s')
  end.

Definition error_flash (message : string) : response :=
  RedirectDashboard [Flash message "error"].

(** What Python says when a local name is read before it is bound. *)
Definition UNBOUND_TRACEBACK : string :=
  "cannot access local variable 'traceback' where it is not associated with a value".

(** [mark_pending].  After the audit entry the source looks up the admin's
    full name and sends the reporter a chat message, each inside its own
    [try]; they write only to the chat table, which the model does not
    carry, and their calls are not drawn from the schedule.  The handler of
    the outer [try] reads [traceback], which the [import] inside the chat
    handler makes a local name of the function; when the outer handler runs
    that import has not run, so the read raises [UnboundLocalError] before
    either message is flashed. *)
Definition mark_pending (clk : clock) (sess : option session)
    (incident_id : pyval) : M response :=
  match sess with
  | None => ret RedirectLogin
  | Some s =>
      if negb (truthy incident_id) then
        ret (error_flash "Incident ID is required")
      else
        do permission <- can_admin_edit_incident incident_id (admin_id s) ;
        let '(can_edit, edit_message) := permission in
        if negb can_edit then
          ret (error_flash ("Permission denied: " ++ edit_message))
        else
          try_catch
            (do current_result <-
               select INCIDENTS (eq_filter "icd_id" incident_id) ;
             match current_result with
             | [] => ret (error_flash "Incident not found")
             | current :: _ =>
                 let old_status := get current "icd_status" in
                 let update_data :=
                   mk_row [
                     ("icd_status", PyStr "Pending");
                     ("pending_timestamp", PyStr (now_iso clk));
                     ("status_updated_at", PyStr (now_iso clk));
                     ("status_updated_by", admin_id s);
                     ("assigned_responder_id", admin_id s)] in
                 do result <-
                   update INCIDENTS update_data (eq_filter "icd_id" incident_id) ;
                 match result with
                 | _ :: _ =>
                     do _ <- log_admin_activity clk (admin_id s) (admin_name s)
                               "status_change" incident_id old_status
                               (PyStr "Pending") ;
                     ret (RedirectDashboard
                            [Flash ("Incident ICD_9100" ++ str incident_id
                                    ++ " has been set to pending!") "success"])
                 | [] =>
                     ret (error_flash
                            "Failed to update incident status - no data returned")
                 end
             end)
            (fun error_msg =>
               do _ <- raise (A := unit) UNBOUND_TRACEBACK ;
               if (contains "column" (lower error_msg)
                   || contains "does not exist" (lower error_msg))%bool
               then ret (error_flash
                           "Database schema error. Please contact administrator.")
               else ret (error_flash
                           ("An error occurred while updating the incident: "
                            ++ take_chars 100 error_msg)))
  end.

Definition mark_cancelled (clk : clock) (sess : option session)
    (incident_id : pyval) : M response :=
  match sess with
  | None => ret RedirectLogin
  | Some s =>
      if negb (truthy incident_id) then
        ret (error_flash "Incident ID is required")
      else
        do permission <- can_admin_edit_incident incident_id (admin_id s) ;
        let '(can_edit, edit_message) := permission in
        if negb can_edit then
          ret (error_flash ("Permission denied: " ++ edit_message))
        else
          try_catch
            (do current_result <-
               select INCIDENTS (eq_filter "icd_id" incident_id) ;
             let old_status := old_status_or_unknown current_result in
             let update_data :=
               mk_row [
                 ("icd_status", PyStr "Cancelled");
                 ("cancelled_timestamp", PyStr (now_iso clk));
                 ("status_updated_at", PyStr (now_iso clk));
                 ("status_updated_by", admin_id s)] in
             do result <-
               update INCIDENTS update_data (eq_filter "icd_id" incident_id) ;
             match result with
             | _ :: _ =>
                 do _ <- log_admin_activity clk (admin_id s) (admin_name s)
                           "status_change" incident_id old_status
                           (PyStr "Cancelled") ;
                 ret (RedirectDashboard
                        [Flash ("Incident ICD_9100" ++ str incident_id
                                ++ " has been cancelled!") "success"])
             | [] => ret (error_flash "Failed to update incident status")
             end)
            (fun _ =>
               ret (error_flash "An error occurred while updating the incident"))
  end.

(** The permission block of [dispatch_team]: either the response that ends
    the request, or the incident row it read. *)
Definition dispatch_check (s : session) (incident_id responder_id : pyval)
  : M (response + row) :=
  try_catch
    (do incident_result <- select INCIDENTS (eq_filter "icd_id" incident_id) ;
     match incident_result with
     | [] => ret (inl (error_flash "Incident not found"))
     | incident :: _ =>
         let current_assigned := get incident "assigned_responder_id" in
         if (truthy current_assigned
             && negb (String.eqb (str current_assigned) (str (admin_id s)))
             && negb (String.eqb (str responder_id) (str (admin_id s))))%bool
         then
           do permission <- can_admin_edit_incident incident_id (admin_id s) ;
           let '(can_edit, edit_message) := permission in
           if negb can_edit then
             ret (inl (error_flash ("Permission denied: " ++ edit_message)))
           else ret (inr incident)
         else ret (inr incident)
     end)
    (fun e => ret (inl (error_flash ("Error checking permissions: " ++ e)))).

Definition dispatch_team (clk : clock) (sess : option session)
    (incident_id responder_id : pyval) : M response :=
  match sess with
  | None => ret RedirectLogin
  | Some s =>
      if (negb (truthy incident_id) || negb (truthy responder_id))%bool then
        ret (error_flash "Error: Missing incident ID or responder ID")
      else
        do checked <- dispatch_check s incident_id responder_id ;
        match checked with
        | inl denied => ret denied
        | inr incident =>
            try_catch
              (let old_status := get incident "icd_status" in
               do result <-
                 update INCIDENTS
                   (mk_row [
                      ("icd_status", PyStr "Pending");
                      ("pending_timestamp", PyStr (now_iso clk));
                      ("assigned_responder_id", responder_id)])
                   (eq_filter "icd_id" incident_id) ;
               match result with
               | _ :: _ =>
                   do _ <- log_admin_activity clk (admin_id s) (admin_name s)
                             "dispatch_team" incident_id old_status
                             (PyStr "Pending") ;
                   ret (RedirectDashboard
                          [Flash "Responder assigned and incident set to pending successfully!"
                             "success"])
               | [] => ret (error_flash "Error assigning responder")
               end)
              (fun e => ret (error_flash ("Error assigning responder: " ++ e)))
        end
  end.

(** The dict the bulk path sends to the store for one incident. *)
Definition bulk_update_data (clk : clock) (s : session) (new_status : pyval)
  : row :=
  let update_data :=
    mk_row [
      ("icd_status", new_status);
      ("status_updated_at", PyStr (now_iso clk));
      ("status_updated_by", admin_id s)] in
  let update_data := <["resolved_timestamp" := PyNone]> update_data in
  let update_data := <["pending_timestamp" := PyNone]> update_data in
  let update_data := <["cancelled_timestamp" := PyNone]> update_data in
  if pyval_eqb new_status (PyStr "Resolved") then
    <["resolved_timestamp" := PyStr (now_iso clk)]> update_data
  else if pyval_eqb new_status (PyStr "Pending") then
    <["pending_timestamp" := PyStr (now_iso clk)]> update_data
  else if pyval_eqb new_status (PyStr "Cancelled") then
    <["cancelled_timestamp" := PyStr (now_iso clk)]> update_data
  else update_data.

(** One turn of the loop of the bulk [status_update]. *)
Definition bulk_status_update_one (clk : clock) (s : session)
    (new_status incident_id : pyval) : M bulk_result :=
  try_catch
    (do permission <- can_admin_edit_incident incident_id (admin_id s) ;
     let '(can_edit, edit_message) := permission in
     if negb can_edit then
       ret (BulkResult incident_id false ("Permission denied: " ++ edit_message))
     else
       do _ <- update INCIDENTS (bulk_update_data clk s new_status)
                 (eq_filter "icd_id" incident_id) ;
       do _ <- log_incident_change incident_id "status_updated"
                 PyNone new_status (admin_id s) PyNone ;
       ret (BulkResult incident_id true "Status updated successfully"))
    (fun e => ret (BulkResult incident_id false e)).

Fixpoint bulk_status_update (clk : clock) (s : session) (new_status : pyval)
    (incident_ids : list pyval) : M (list bulk_result) :=
  match incident_ids with
  | [] => ret []
  | incident_id :: rest =>
      do r <- bulk_status_update_one clk s new_status incident_id ;
      do results <- bulk_status_update clk s new_status rest ;
      ret (r :: results)
  end.

Definition count_text {A} (l : list A) : string :=
  str (PyInt (Z.of_nat (List.length l))).

(** [api_bulk_action], for a JSON body that is an object. *)
Definition api_bulk_action (clk : clock) (sess : option session)
    (action : pyval) (incident_ids : list pyval) (reason new_status : pyval)
  : M response :=
  match sess with
  | None => ret (Json 401 (JError "Unauthorized"))
  | Some s =>
      try_catch
        (match incident_ids with
         | [] => ret (Json 400 (JFailureMessage "No incidents selected"))
         | _ :: _ =>
             if pyval_eqb action (PyStr "archive") then
               do results <-
                 bulk_archive_incidents clk incident_ids (admin_id s) reason ;
               ret (Json 200 (JResults results
                                ("Processed " ++ count_text results
                                 ++ " incidents")))
             else if pyval_eqb action (PyStr "status_update") then
               if negb (truthy new_status) then
                 ret (Json 400 (JFailureMessage "New status required"))
               else
                 do results <- bulk_status_update clk s new_status incident_ids ;
                 ret (Json 200 (JResults results
                                  ("Updated " ++ count_text results
                                   ++ " incidents")))
             else ret (Json 400 (JFailureMessage "Unknown action"))
         end)
        (fun e => ret (Json 500 (JError e)))
  end.

(** ** Timestamps *)

Module Timestamps.

(** A [datetime]: the reading of its own clock face, in microseconds since
    0001-01-01T00:00:00, and the offset of that clock from UTC when the value
    is aware ([tzinfo] is not [None]). *)
Record datetime : Type := Datetime {
  wall : Z;
  tzinfo : option Z;
}.

Definition SECOND : Z := 1000000.
Definition HOUR : Z := 3600 * SECOND.
Definition DAY : Z := 24 * HOUR.

(** [datetime.max] is 9999-12-31T23:59:59.999999, 3652059 days after
    [datetime.min]. *)
Definition MAX_WALL : Z := 3652059 * DAY - 1.

Definition in_range (t : Z) : bool := (0 <=? t) && (t <=? MAX_WALL).

Definition UTC : Z := 0.

(** The offset Asia/Manila has had since its last daylight-saving period
    ended in July 1990. *)
Definition PHILIPPINES_TZ : Z := 8 * HOUR.

(** 1991-01-01T00:00:00, 726832 days after 0001-01-01: from here on the
    zone database has no further transition for Asia/Manila. *)
Definition MANILA_SETTLED : Z := 726832 * DAY.

(** The instant an aware value denotes, on the UTC clock face. *)
Definition instant (d : datetime) : option Z :=
  option_map (fun off => wall d - off) (tzinfo d).

Section Zone.

(** The offset of Asia/Manila at a UTC instant before 1991, as the zone
    database of pytz has it (local mean time, the daylight-saving periods,
    +09:00 from 1942 to 1944). *)
Variable early_offset : Z -> Z.

(** What [PHILIPPINES_TZ.localize] does with a naive reading within a day
    of the end of the range of [datetime], or before 1991-01-02. *)
Variable edge_localize : datetime -> result datetime.

(** The offset of [PHILIPPINES_TZ] at a UTC instant. *)
Definition manila_offset (utc : Z) : Z :=
  if MANILA_SETTLED <=? utc then PHILIPPINES_TZ else early_offset utc.

(** [dt.astimezone(PHILIPPINES_TZ)] for an aware [dt] whose zone is not the
    object [PHILIPPINES_TZ] itself: arithmetic that leaves the range of
    [datetime] raises [OverflowError]. *)
Definition astimezone (d : datetime) : result datetime :=
  match tzinfo d with
  | None => Raise "astimezone() of a naive value is not used"
  | Some off =>
      let utc := wall d - off in
      let tz := manila_offset utc in
      if in_range utc && in_range (utc + tz)
      then Ok (Datetime (utc + tz) (Some tz))
      else Raise "date value out of range"
  end.

(** [PHILIPPINES_TZ.localize(dt)] of pytz for a naive [dt]: pytz looks up
    the offset a day before and a day after the reading; from 1991-01-02 on
    both are +08:00, the reading is kept and that offset attached. *)
Definition localize (d : datetime) : result datetime :=
  match tzinfo d with
  | Some _ => Raise "Not naive datetime (tzinfo is already set)"
  | None =>
      if (MANILA_SETTLED + DAY <=? wall d) && (wall d + DAY <=? MAX_WALL)
      then Ok (Datetime (wall d) (Some PHILIPPINES_TZ))
      else edge_localize d
  end.

End Zone.

(** What reaches a parser: a value read from a row, or a [datetime]. *)
Inductive tsval : Type :=
| TsVal (v : pyval)
| TsDatetime (d : datetime).

Definition ts_truthy (t : tsval) : bool :=
  match t with
  | TsVal v => truthy v
  | TsDatetime _ => true
  end.

Fixpoint endswith_char (c : ascii) (s : string) : bool :=
  match s with
  | EmptyString => false
  | String a EmptyString => Ascii.eqb a c
  | String _ s' => endswith_char c s'
  end.

(** [s.replace('Z', '+00:00')] *)
Fixpoint replace_Z (s : string) : string :=
  match s with
  | EmptyString => EmptyString
  | String c s' =>
      if Ascii.eqb c "Z" then "+00:00" ++ replace_Z s'
      else String c (replace_Z s')
  end.

Definition rtry {A} (r : result A) (h : string -> result A) : result A :=
  match r with
  | Ok a => Ok a
  | Raise e => h e
  end.

Definition rbind {A B} (r : result A) (k : A -> result B) : result B :=
  match r with
  | Ok a => k a
  | Raise e => Raise e
  end.

Section Parsers.

(** The two parsers of Python's library, [datetime.fromisoformat] and
    [datetime.strptime(.., '%Y-%m-%d %H:%M:%S')]: [None] stands for the
    [ValueError] they raise on text they do not accept. *)
Variable fromisoformat : string -> option datetime.
Variable strptime : string -> option datetime.

(** The history of Asia/Manila, as in [manila_offset] and [localize]. *)
Variable early_offset : Z -> Z.
Variable edge_localize : datetime -> result datetime.

Definition parse_with (parser : string -> option datetime) (text : string)
  : result datetime :=
  match parser text with
  | Some d => Ok d
  | None => Raise "Invalid isoformat string"
  end.

(** [_parse_datetime], the shared normaliser. *)
Definition _parse_datetime (value : tsval) : result (option datetime) :=
  if negb (ts_truthy value) then Ok None
  else
    let parsed : result (option datetime) :=
      match value with
      | TsDatetime d => Ok (Some d)
      | TsVal v =>
          rtry
            (let text := str v in
             let text := if endswith_char "Z" text then replace_Z text else text in
             rbind (parse_with fromisoformat text) (fun d => Ok (Some d)))
            (fun _ => Ok None)
      end in
    rbind parsed (fun parsed =>
      match parsed with
      | None => Ok None
      | Some dt_obj =>
          let dt_obj :=
            match tzinfo dt_obj with
            | None => Datetime (wall dt_obj) (Some UTC)
            | Some _ => dt_obj
            end in
          rtry (rbind (astimezone early_offset dt_obj) (fun d => Ok (Some d)))
               (fun _ => Ok (Some dt_obj))
      end).

(** [parse_timestamp], the helper nested in [get_recent_activities]. *)
Definition parse_timestamp (ts : tsval) : result (option datetime) :=
  if negb (ts_truthy ts) then Ok None
  else
    rtry
      (rbind
         (match ts with
          | TsVal (PyStr s) =>
              if contains "T" s then parse_with fromisoformat (replace_Z s)
              else parse_with strptime (take_chars 19 s)
          | TsVal _ => Raise "'int' object has no attribute 'tzinfo'"
          | TsDatetime d => Ok d
          end)
         (fun dt =>
            rbind
              (match tzinfo dt with
               | None => localize edge_localize dt
               | Some _ => astimezone early_offset dt
               end)
              (fun dt => Ok (Some dt))))
      (fun _ => Ok None).

End Parsers.

End Timestamps.
Export Timestamps.

(** *** Sample requests *)

Definition sample_clock : clock :=
  Clock "2024-05-01T18:00:00+08:00" "20240501180000" "2024-05-01T10:00:00".

Definition admin_x : session := Session (PyStr "ADM-X") (PyStr "Xavier").
Definition admin_y : session := Session (PyStr "ADM-Y") (PyStr "Yolanda").

Definition status_of (w : world) (incident_id : pyval) : option pyval :=
  option_map (fun r => get r "icd_status") (incident_of w incident_id).

(** What an audit row says about a transition: old status, new status and
    actor, read from the columns of [admin_activity_logs] or of
    [incident_audit_trail]. *)
Definition activity_entries (w : world) : list (pyval * pyval * pyval) :=
  List.map (fun r => (get r "old_status", get r "new_status", get r "admin_id"))
    (rows_of w ACTIVITY_LOGS).

Definition audit_entries (w : world) : list (pyval * pyval * pyval) :=
  List.map (fun r => (get r "old_status", get r "new_status", get r "changed_by"))
    (rows_of w AUDIT_TRAIL).

(** The same store with the outcomes of its coming calls fixed. *)
Definition with_faults (fs : list (option string)) (w : world) : world :=
  World (tables w) fs.

(** ** Vocabulary for the frame properties *)

(** A computation keeps a relation between the world it starts in and the
    world it leaves, whether it returns or raises. *)
Definition keeps (R : world -> world -> Prop) {A} (m : M A) : Prop :=
  forall w, R w (snd (m w)).

(** The incidents table is the same. *)
Definition same_incidents (w w' : world) : Prop :=
  rows_of w' INCIDENTS = rows_of w INCIDENTS.

(** Row by row, the incidents table is what it was, or what it was with the
    columns of [patch] overwritten. *)
Definition patched_by (patch : row) (w w' : world) : Prop :=
  Forall2 (fun r r' => r' = r \/ r' = patch ∪ r)
    (rows_of w INCIDENTS) (rows_of w' INCIDENTS).

(** The dicts the single-incident transitions send to the store. *)
Definition resolved_update_data (clk : clock) (s : session) : row :=
  mk_row [
    ("icd_status", PyStr "Resolved");
    ("resolved_timestamp", PyStr (now_iso clk));
    ("status_updated_at", PyStr (now_iso clk));
    ("status_updated_by", admin_id s)].

Definition pending_update_data (clk : clock) (s : session) : row :=
  mk_row [
    ("icd_status", PyStr "Pending");
    ("pending_timestamp", PyStr (now_iso clk));
    ("status_updated_at", PyStr (now_iso clk));
    ("status_updated_by", admin_id s);
    ("assigned_responder_id", admin_id s)].

Definition cancelled_update_data (clk : clock) (s : session) : row :=
  mk_row [
    ("icd_status", PyStr "Cancelled");
    ("cancelled_timestamp", PyStr (now_iso clk));
    ("status_updated_at", PyStr (now_iso clk));
    ("status_updated_by", admin_id s)].

Definition STATUS_TIMESTAMPS : list string :=
  ["pending_timestamp"; "resolved_timestamp"; "cancelled_timestamp"].

(** The timestamp column that belongs to a status, if it has one. *)
Definition timestamp_column (status : pyval) : option string :=
  if pyval_eqb status (PyStr "Resolved") then Some "resolved_timestamp"
  else if pyval_eqb status (PyStr "Pending") then Some "pending_timestamp"
  else if pyval_eqb status (PyStr "Cancelled") then Some "cancelled_timestamp"
  else None.

(** Of the three status timestamps of [r'], the one of [status] holds [now]
    and the others are null. *)
Definition timestamps_reset (status : pyval) (now : string) (r' : row) : Prop :=
  forall c, In c STATUS_TIMESTAMPS ->
    get r' c = if decide (timestamp_column status = Some c)
               then PyStr now else PyNone.

(** The status timestamps other than [own] are in [r'] what they were in
    [r]. *)
Definition siblings_kept (own : string) (r r' : row) : Prop :=
  forall c, In c STATUS_TIMESTAMPS -> c <> own -> get r' c = get r c.

Definition rows_after {A} (m : M A) (w : world) : list row :=
  rows_of (snd (m w)) INCIDENTS.

Definition incident_after {A} (m : M A) (w : world) (incident_id : pyval)
  : option row :=
  incident_of (snd (m w)) incident_id.

(** A store in which ICD001 is live and an archive copy of an earlier
    ICD001 already exists. *)
Definition archived_icd001 : row :=
  <["archived_by" := PyStr "ADM-Y"]> (mk_incident "ICD001" "Resolved" PyNone).

Definition collision_world : world :=
  World (<[ARCHIVE := [archived_icd001]]>
           (<[INCIDENTS := sample_incidents]> ∅)) [].

Definition archive_ids (w : world) : list pyval :=
  List.map (fun r => get r "icd_id") (rows_of w ARCHIVE).

(** *** Sample timestamps *)

(** 2024-05-01T10:00:00 without zone: 739006 days after 0001-01-01, ten
    hours into the day. *)
Definition naive_text : string := "2024-05-01T10:00:00".

Definition naive_10am : datetime := Datetime (739006 * DAY + 10 * HOUR) None.

(** A stand-in for [datetime.fromisoformat] that reads the sample text. *)
Definition sample_fromisoformat (text : string) : option datetime :=
  if String.eqb text naive_text then Some naive_10am else None.

Definition no_parser (text : string) : option datetime := None.

(** Stand-ins for the history of the zone: +08:00 throughout, and a
    [localize] that refuses the readings at the ends of the range. *)
Definition sample_early_offset (utc : Z) : Z := PHILIPPINES_TZ.

Definition sample_edge_localize (d : datetime) : result datetime :=
  Raise "date value out of range".

(** *** Vocabulary for resolution ids *)

(** The row [order('created_at', desc=True).limit(1)] returns. *)
Definition latest_report (w : world) : option row :=
  newest "created_at" (rows_of w RESOLUTION_REPORTS_TABLE).

(** The digits the code picks out of a last id, after the prefix. *)
Definition suffix_digits (s : string) : string :=
  sfilter isdigit (drop_chars (String.length RSV) (upper s)).

Definition mk_report (resolved_id created_at : string) : row :=
  mk_row [("resolved_id", PyStr resolved_id); ("created_at", PyStr created_at)].

(** A store whose reports are the given (id, creation time) pairs. *)
Definition reports_world (reports : list (string * string)) : world :=
  World (<[RESOLUTION_REPORTS_TABLE :=
             List.map (fun r => mk_report (fst r) (snd r)) reports]> ∅) [].

Definition two_reports : world :=
  reports_world [("RSV00007", "2024-04-30T09:00:00+08:00");
                 ("RSV00042", "2024-05-01T09:00:00+08:00")].

Definition two_reports_newest_first : world :=
  reports_world [("RSV00042", "2024-05-01T09:00:00+08:00");
                 ("RSV00007", "2024-04-30T09:00:00+08:00")].

Definition one_report (resolved_id : string) : world :=
  reports_world [(resolved_id, "2024-05-01T09:00:00+08:00")].

(** *** Vocabulary for the outcome of a resolution *)

(** The JSON answer says [success: True]. *)
Definition resolved_ok (r : response) : bool :=
  match r with
  | Json code (JResolved _ _ _) => Z.eqb code 200
  | Json code (JResolvedNoSummary _ _) => Z.eqb code 200
  | _ => false
  end.


(** The warning a successful answer carries, under [warning] or
    [storage_warning]. *)
Definition warning_of (r : response) : option string :=
  match r with
  | Json _ (JResolved _ _ storage_warning) => storage_warning
  | Json _ (JResolvedNoSummary _ warning) => Some warning
  | _ => None
  end.

Definition report_ids (w : world) : list pyval :=
  List.map (fun r => get r "resolved_id") (rows_of w RESOLUTION_REPORTS_TABLE).


Definition resolved_id_violation : string :=
  "duplicate key value violates unique constraint reports_resolved_id_key".


(** [mark_resolved] of ICD002 by its responder, asking for JSON, when the
    seventh call to the store, the insert of the report, raises [e]. *)
Definition resolve_with_insert_failure (e : string) (more : list (option string))
  : result response * world :=
  mark_resolved sample_clock (Some admin_x) (PyStr "ICD002")
    (PyStr "Handled on site") true
    (with_faults ([None; None; None; None; None; None; Some e] ++ more)
       sample_world).

Definition sample_payload : payload :=
  Payload "RSV00043" (PyStr "ICD002") "ICD002" "ICD002 resolved by Xavier"
    (PyStr "N/A") (PyStr "Uncategorized") "Handled on site" false None None.

Definition sample_report_record : row :=
  mk_row [("resolved_id", PyStr "RSV00043"); ("icd_id", PyStr "ICD002");
          ("status_before", PyStr "Pending"); ("status_after", PyStr "Resolved")].

(** ** Vocabulary for further properties of the permission helpers *)

(** The status column, as the edit check reads it, is Resolved or
    Cancelled. *)
Definition closed_status (incident : row) : bool :=
  in_strs (get incident "icd_status") ["Resolved"; "Cancelled"].

(** What the edit check decides for an incident it found. *)
Definition editable_by (admin_id : pyval) (incident : row) : bool :=
  (negb (closed_status incident)
   && negb (assigned_to_other admin_id incident))%bool.

(** ** Restoring an incident *)

Definition restore_incident (clk : clock) (archive_id admin_id : pyval)
  : M (bool * string) :=
  try_catch
    (do archive_result <- select ARCHIVE (eq_filter "archive_id" archive_id) ;
     match archive_result with
     | [] => ret (false, "Archived incident not found")
     | archive_record :: _ =>
         let original_icd_id := get archive_record "icd_id" in
         do existing_incident <-
           select INCIDENTS (eq_filter "icd_id" original_icd_id) ;
         do restored_icd_id <-
           match existing_incident with
           | [] => ret original_icd_id
           | _ :: _ =>
               let new_icd_id :=
                 PyStr (str original_icd_id ++ "_ARCHIVED_" ++ str archive_id) in
               do check_new_id <-
                 select INCIDENTS (eq_filter "icd_id" new_icd_id) ;
               match check_new_id with
               | [] => ret new_icd_id
               | _ :: _ =>
                   ret (PyStr (str original_icd_id ++ "_ARCHIVED_"
                               ++ str archive_id ++ "_" ++ now_stamp clk))
               end
           end ;
         let incident_data :=
           mk_row ([("icd_id", restored_icd_id)]
                   ++ copy_columns ARCHIVED_COLUMNS archive_record) in
         do _ <- insert INCIDENTS incident_data ;
         do _ <- delete ARCHIVE (eq_filter "archive_id" archive_id) ;
         do _ <- log_incident_change restored_icd_id "restored" PyNone
                   (get archive_record "icd_status") admin_id
                   (PyStr ("Restored from archive (original ID: "
                           ++ str original_icd_id ++ ")")) ;
         if negb (pyval_eqb restored_icd_id original_icd_id) then
           ret (true,
                "Incident restored successfully with new ID: "
                ++ str restored_icd_id ++ " (original ID "
                ++ str original_icd_id ++ " was already in use)")
         else ret (true, "Incident restored successfully")
     end)
    (fun e => ret (false, e)).

(** ** JSON endpoints for one incident *)

Inductive api_reply : Type :=
| ApiMessage (status : Z) (success : bool) (message : string)
| ApiArchived (message archived_at : string)
| ApiAssigned (message : string)
    (assigned_responder_id assigned_responder_name : pyval)
| ApiPermissions (can_edit : bool) (edit_message : string)
    (status assigned_responder_id assigned_responder_name : pyval)
    (is_assigned_to_me is_resolved_or_cancelled : bool).

(** [api_archive_incident]; [reason] is the [reason] entry of the JSON body,
    if the body has one. *)
Definition api_archive_incident (clk : clock) (sess : option session)
    (incident_id : pyval) (reason : option pyval) : M api_reply :=
  match sess with
  | None => ret (ApiMessage 401 false "Unauthorized")
  | Some s =>
      do permission <- can_admin_edit_incident incident_id (admin_id s) ;
      let '(can_edit, edit_message) := permission in
      if negb can_edit then
        ret (ApiMessage 403 false ("Permission denied: " ++ edit_message))
      else
        try_catch
          (let reason := default (PyStr "Archived by administrator") reason in
           do archived <- archive_incident clk incident_id (admin_id s) reason ;
           let '(success, message) := archived in
           if success then ret (ApiArchived message (now_iso clk))
           else ret (ApiMessage 500 false message))
          (fun e => ret (ApiMessage 500 false e))
  end.

(** The dict [api_assign_incident] sends to the store. *)
Definition assign_update_data (clk : clock) (status new_responder_id : pyval)
    (set_pending : bool) : row :=
  let update_data := mk_row [("assigned_responder_id", new_responder_id)] in
  if (pyval_eqb status (PyStr "Active") && set_pending)%bool then
    <["pending_timestamp" := PyStr (now_iso clk)]>
      (<["icd_status" := PyStr "Pending"]> update_data)
  else update_data.

(** [api_assign_incident]; [new_responder_id] is the [responder_id] entry of
    the JSON body ([None] when absent) and [set_pending] tells whether its
    [set_pending] entry is there and truthy. *)
Definition api_assign_incident (clk : clock) (sess : option session)
    (incident_id new_responder_id : pyval) (set_pending : bool)
  : M api_reply :=
  match sess with
  | None => ret (ApiMessage 401 false "Unauthorized")
  | Some s =>
      try_catch
        (let current_admin_id := admin_id s in
         if negb (truthy new_responder_id) then
           ret (ApiMessage 400 false "Responder ID is required")
         else
           do incident_result <-
             select INCIDENTS (eq_filter "icd_id" incident_id) ;
           match incident_result with
           | [] => ret (ApiMessage 404 false "Incident not found")
           | incident :: _ =>
               let current_assigned := get incident "assigned_responder_id" in
               let status := get incident "icd_status" in
               if in_strs status ["Resolved"; "Cancelled"] then
                 ret (ApiMessage 400 false
                        ("Cannot assign " ++ str status ++ " incidents"))
               else
                 do allowed <-
                   (if (truthy current_assigned
                        && negb (String.eqb (str current_assigned)
                                   (str current_admin_id))
                        && negb (String.eqb (str new_responder_id)
                                   (str current_admin_id)))%bool
                    then can_admin_edit_incident incident_id current_admin_id
                    else ret (true, "")) ;
                 let '(can_edit, edit_message) := allowed in
                 if negb can_edit then
                   ret (ApiMessage 403 false
                          ("Permission denied: " ++ edit_message))
                 else
                   do result <-
                     update INCIDENTS
                       (assign_update_data clk status new_responder_id
                          set_pending)
                       (eq_filter "icd_id" incident_id) ;
                   match result with
                   | [] => ret (ApiMessage 500 false "Failed to assign incident")
                   | _ :: _ =>
                       do responder_name <-
                         try_catch
                           (do responder_result <-
                              select ADMINS
                                (eq_filter "admin_id" new_responder_id) ;
                            match responder_result with
                            | [] => ret new_responder_id
                            | r :: _ => ret (get r "admin_fullname")
                            end)
                           (fun _ => ret new_responder_id) ;
                       do _ <- log_admin_activity clk current_admin_id
                                 (admin_name s) "assign_incident" incident_id
                                 (or_else current_assigned (PyStr "Unassigned"))
                                 new_responder_id ;
                       ret (ApiAssigned "Incident assigned successfully"
                              new_responder_id responder_name)
                   end
           end)
        (fun e => ret (ApiMessage 500 false e))
  end.

(** ** The status form of the incident-management page *)

Inductive page_reply : Type :=
| PageLogin
| PageIncidentManagement (flashes : list flash).

(** [incident_management] for a POST whose form carries [update] and none of
    [delete_incident], [archive_incident] and [bulk_archive].  The route
    first reads the admin's account row to refresh the name and picture kept
    in the session, which this branch does not use; the dict it sends to the
    store is built as in the bulk path.  The reply is the redirect to the
    page with the messages flashed; the filters copied into its address are
    not carried. *)
Definition incident_management_update (clk : clock) (sess : option session)
    (incident_id new_status : pyval) : M page_reply :=
  match sess with
  | None => ret PageLogin
  | Some s =>
      do _ <- try_catch
                (do _ <- select ADMINS (eq_filter "admin_id" (admin_id s)) ;
                 ret tt)
                (fun _ => ret tt) ;
      do permission <- can_admin_edit_incident incident_id (admin_id s) ;
      let '(can_edit, edit_message) := permission in
      if negb can_edit then
        ret (PageIncidentManagement
               [Flash ("Permission denied: " ++ edit_message) "error"])
      else
        try_catch
          (do incident_check <-
             select INCIDENTS (eq_filter "icd_id" incident_id) ;
           match incident_check with
           | [] => ret (PageIncidentManagement
                          [Flash "Incident not found." "error"])
           | current :: _ =>
               let old_status := get current "icd_status" in
               do _ <- update INCIDENTS (bulk_update_data clk s new_status)
                         (eq_filter "icd_id" incident_id) ;
               do _ <- log_incident_change incident_id "status_updated"
                         old_status new_status (admin_id s)
                         (PyStr ("Status changed from " ++ str old_status
                                 ++ " to " ++ str new_status)) ;
               ret (PageIncidentManagement
                      [Flash ("Incident " ++ str incident_id
                              ++ " status has been successfully updated to "
                              ++ str new_status ++ "!") "success"])
           end)
          (fun e =>
             ret (PageIncidentManagement
                    [Flash ("Error updating incident status: " ++ e) "error"]))
  end.

(** The dict [dispatch_team] sends to the store. *)
Definition dispatch_update_data (clk : clock) (responder_id : pyval) : row :=
  mk_row [
    ("icd_status", PyStr "Pending");
    ("pending_timestamp", PyStr (now_iso clk));
    ("assigned_responder_id", responder_id)].

(** ** Vocabulary for archiving and restoring *)

(** Table [t] is the same. *)
Definition same_table (t : string) (w w' : world) : Prop :=
  rows_of w' t = rows_of w t.

(** The record [restore_incident] works on: the first archive row with this
    [archive_id]. *)
Definition archived_record (w : world) (archive_id : pyval) : option row :=
  head (List.filter (eq_filter "archive_id" archive_id) (rows_of w ARCHIVE)).

(** Row [copy] has in every archived column what [original] has. *)
Definition carries_columns (original copy : row) : Prop :=
  forall c, In c ARCHIVED_COLUMNS -> get copy c = get original c.

(** The row [archive_incident] writes for [incident] under the id
    [archive_icd_id]. *)
Definition archive_data (clk : clock) (archive_icd_id admin_id reason : pyval)
    (incident : row) : row :=
  mk_row ([("icd_id", archive_icd_id)]
          ++ copy_columns ARCHIVED_COLUMNS incident
          ++ [("archived_by", admin_id);
              ("archive_reason",
               or_else reason (PyStr "Archived by administrator"));
              ("archived_at", PyStr (now_iso clk))]).

(** The row [restore_incident] writes for [archive_record] under the id
    [restored_icd_id]. *)
Definition incident_data (restored_icd_id : pyval) (archive_record : row)
  : row :=
  mk_row ([("icd_id", restored_icd_id)]
          ++ copy_columns ARCHIVED_COLUMNS archive_record).

(** The rows of [rs] that [.eq(col, v)] does not select. *)
Definition without (col : string) (v : pyval) (rs : list row) : list row :=
  List.filter (fun r => negb (eq_filter col v r)) rs.

(** A store with two archive records: record 7 is an earlier ICD001, whose
    id is in use again, and record 8 is ICD000, whose id is free. *)
Definition archive_record_7 : row :=
  <["archive_id" := PyInt 7]> archived_icd001.

Definition archive_record_8 : row :=
  <["archive_id" := PyInt 8]> (mk_incident "ICD000" "Cancelled" PyNone).

Definition archive_world : world :=
  World (<[ARCHIVE := [archive_record_7; archive_record_8]]>
           (<[INCIDENTS := sample_incidents]> ∅)) [].

(** The id [restore_incident] tries first when the original is taken. *)
Definition archived_suffix_id (original_icd_id archive_id : pyval) : pyval :=
  PyStr (str original_icd_id ++ "_ARCHIVED_" ++ str archive_id).

(** The text has no [Z] for [replace] to rewrite. *)
Definition no_Z (s : string) : bool :=
  sforall (fun c => negb (Ascii.eqb c "Z")) s.

(** 2024-05-01T10:00:00+00:00: the same reading on the UTC clock. *)
Definition utc_text : string := "2024-05-01T10:00:00Z".

Definition utc_10am : datetime :=
  Datetime (739006 * DAY + 10 * HOUR) (Some UTC).

(** A stand-in for [datetime.fromisoformat] that reads the sample text with
    its zone spelled out. *)
Definition zoned_fromisoformat (text : string) : option datetime :=
  if String.eqb text "2024-05-01T10:00:00+00:00" then Some utc_10am else None.

(** ** Admin ids *)

(** One turn of the loop of [generate_next_admin_id]: the running maximum
    after looking at one account row. *)
Definition max_admin_number_step (max_number : Z) (admin : row) : Z :=
  match get admin "admin_id" with
  | PyStr admin_id =>
      if (truthy (PyStr admin_id) && startswith (upper admin_id) "ADM-")%bool
      then
        let numeric_part := drop_chars 4 admin_id in
        if all_digits numeric_part then
          match int_of_string numeric_part with
          | Some n => Z.max max_number n
          | None => max_number
          end
        else max_number
      else max_number
  | _ => max_number
  end.

Definition max_admin_number (admins : list row) : Z :=
  fold_left max_admin_number_step admins 0.

(** [s.ljust(n, '0')] *)
Definition ljust_zeros (n : nat) (s : string) : string :=
  s ++ zeros (n - String.length s).

Definition generate_next_admin_id : M string :=
  try_catch
    (do admins <- select ADMINS (fun _ => true) ;
     let next_number := max_admin_number admins + 1 in
     match zero_pad 4 next_number with
     | None => raise EXCEEDS_LIMIT
     | Some digits =>
         let generated_id := "ADM-" ++ digits in
         if negb (Nat.eqb (String.length generated_id) 8) then
           if (String.length generated_id <? 8)%nat
           then ret (ljust_zeros 8 generated_id)
           else ret (take_chars 8 generated_id)
         else ret generated_id
     end)
    (fun _ => ret "ADM-0001").

(** [format_admin_id_filter].  The second [int()] is reached only for text
    without a digit, on which it fails whatever sign or blanks the text
    has. *)
Definition format_admin_id_filter (admin_id : pyval) : string :=
  if negb (truthy admin_id) then "ADM-0000"
  else
    let admin_id_str := strip (str admin_id) in
    let admin_id_str :=
      if startswith (upper admin_id_str) "ADM-" then drop_chars 4 admin_id_str
      else if startswith (upper admin_id_str) "ADM"
           then drop_chars 3 admin_id_str
           else admin_id_str in
    let numeric_part := sfilter isdigit admin_id_str in
    match (if negb (String.eqb numeric_part "")
           then int_of_string numeric_part
           else int_of_string admin_id_str) with
    | Some n =>
        match zero_pad 5 n with
        | Some digits => "ADM-" ++ digits
        | None => "ADM-" ++ str admin_id
        end
    | None => "ADM-" ++ str admin_id
    end.

(** ** Passwords and uploads *)

(** [re.search] for a pattern that is one character class. *)
Definition search (class : ascii -> bool) (s : string) : bool :=
  negb (sforall (fun c => negb (class c)) s).

(** [c in chars] *)
Fixpoint one_of (chars : string) (c : ascii) : bool :=
  match chars with
  | EmptyString => false
  | String a rest => (Ascii.eqb c a || one_of rest c)%bool
  end.

Definition DOUBLE_QUOTE : ascii := ascii_of_N 34.

(** The characters of the class [validate_password] asks for. *)
Definition SPECIAL_CHARACTERS : string :=
  "!@#$%^&*(),.?" ++ String DOUBLE_QUOTE ":{}|<>".

(** The characters of the class [validate_password_for_request] asks for. *)
Definition REQUEST_SPECIAL_CHARACTERS : string :=
  "!@#$%^&*()_+-=[]{};:,.<>?".

(** [validate_password]; on code points below 256 the class [\d] is the
    ten decimal digits. *)
Definition validate_password (password : string) : bool * string :=
  if (String.length password <? 8)%nat then
    (false, "Password must be at least 8 characters long")
  else if negb (search (between 65 90) password) then
    (false, "Password must contain at least one uppercase letter")
  else if negb (search (between 97 122) password) then
    (false, "Password must contain at least one lowercase letter")
  else if negb (search isdecimal password) then
    (false, "Password must contain at least one number")
  else if negb (search (one_of SPECIAL_CHARACTERS) password) then
    (false,
     "Password must contain at least one special character (!@#$%^&* etc.)")
  else (true, "Password is valid").

(** [validate_password_for_request]; [None] is an absent password. *)
Definition validate_password_for_request (password : option string)
  : bool * string :=
  match password with
  | None => (false, "Password must be at least 8 characters long")
  | Some password =>
      if (String.eqb password "" || (String.length password <? 8)%nat)%bool
      then (false, "Password must be at least 8 characters long")
      else if negb (search (between 97 122) password) then
        (false, "Password must contain at least one lowercase letter")
      else if negb (search (between 65 90) password) then
        (false, "Password must contain at least one uppercase letter")
      else if negb (search isdecimal password) then
        (false, "Password must contain at least one number")
      else if negb (search (one_of REQUEST_SPECIAL_CHARACTERS) password) then
        (false, "Password must contain at least one special character")
      else (true, "Password is valid")
  end.

Section VerifyPassword.

(** The two hash libraries: [bcrypt.checkpw] and werkzeug's
    [check_password_hash], each given the stored hash and the password
    offered; either may raise on a malformed hash. *)
Variable checkpw : string -> string -> result bool.
Variable check_password_hash : string -> string -> result bool.

(** [verify_password] for a stored and an offered password that are text or
    [None]. *)
Definition verify_password (stored_password provided_password : option string)
  : result bool :=
  match stored_password, provided_password with
  | Some stored, Some provided =>
      if (String.eqb stored "" || String.eqb provided "")%bool then Ok false
      else if String.eqb stored provided then Ok true
      else if startswith stored "$2" then
        rtry (checkpw stored provided) (fun _ => Ok false)
      else if startswith stored "pbkdf2:" then
        check_password_hash stored provided
      else Ok (String.eqb stored provided)
  | _, _ => Ok false
  end.

End VerifyPassword.

(** [filename.rsplit('.', 1)[1]] when the name has a dot: what follows the
    last one. *)
Fixpoint after_last_dot (filename : string) : option string :=
  match filename with
  | EmptyString => None
  | String c rest =>
      match after_last_dot rest with
      | Some extension => Some extension
      | None => if Ascii.eqb c "." then Some rest else None
      end
  end.

Definition ALLOWED_EXTENSIONS : list string := ["png"; "jpg"; "jpeg"; "gif"].

Definition allowed_file (filename : option string) : bool :=
  match filename with
  | None => false
  | Some filename =>
      if String.eqb filename "" then false
      else
        match after_last_dot filename with
        | None => false
        | Some extension =>
            existsb (String.eqb (lower extension)) ALLOWED_EXTENSIONS
        end
  end.

(** The number an account row contributes to the maximum, if any. *)
Definition admin_number (admin : row) : option Z :=
  match get admin "admin_id" with
  | PyStr admin_id =>
      if (startswith (upper admin_id) "ADM-"
          && all_digits (drop_chars 4 admin_id))%bool
      then int_of_string (drop_chars 4 admin_id)
      else None
  | _ => None
  end.

(** A store whose accounts are ADM-0007 and ADM-0041. *)
Definition admins_world : world :=
  World (<[ADMINS := [mk_row [("admin_id", PyStr "ADM-0007")];
                      mk_row [("admin_id", PyStr "adm-0041")]]]> ∅) [].

(** The text has no dot. *)
Definition no_dot (s : string) : bool :=
  sforall (fun c => negb (Ascii.eqb c ".")) s.

(** A [bcrypt.checkpw] that finds every hash malformed, and a
    [check_password_hash] that matches nothing. *)
Definition broken_checkpw (stored provided : string) : result bool :=
  Raise "Invalid salt".

Definition strict_check_password_hash (stored provided : string)
  : result bool := Ok false.

(** What both validators ask for besides a special character. *)
Definition basic_strength (password : string) : bool :=
  (negb (String.length password <? 8)%nat
   && search (between 65 90) password
   && search (between 97 122) password
   && search isdecimal password)%bool.

(** ** The column check of [database_column_verification.py] *)

Definition REQUIRED_COLUMNS : list string :=
  ["user_id"; "student_id"; "student_user"; "student_pass"; "student_email";
   "full_name"; "student_yearlvl"; "student_cnum"; "student_emergencycontact";
   "student_contactperson"; "student_medinfo"; "student_address";
   "student_profile"; "student_status"; "student_created_at"].

(** The loop over the required columns: each column is probed with a select
    of its own; a probe that raises puts the column among the missing
    ones.  The lists are returned as (existing, missing). *)
Fixpoint probe_columns (columns existing_columns missing_columns : list string)
  : M (list string * list string) :=
  match columns with
  | [] => ret (existing_columns, missing_columns)
  | column_name :: rest =>
      do found <- try_catch
                    (do _ <- select STUDENTS (fun _ => true) ; ret true)
                    (fun _ => ret false) ;
      if found : bool
      then probe_columns rest (existing_columns ++ [column_name])
             missing_columns
      else probe_columns rest existing_columns
             (missing_columns ++ [column_name])
  end.

(** [verify_accounts_student_columns]; what it prints is not carried. *)
Definition verify_accounts_student_columns : M bool :=
  try_catch
    (do _ <- select STUDENTS (fun _ => true) ;
     do probed <- probe_columns REQUIRED_COLUMNS [] [] ;
     ret (Nat.eqb (List.length (snd probed)) 0))
    (fun _ => ret false).

(** The outcomes scheduled for the next [n] calls hold no failure. *)
Definition calls_succeed (n : nat) (w : world) : bool :=
  forallb (fun outcome => match outcome with
                          | Some _ => false
                          | None => true
                          end) (firstn n (faults w)).

(** The columns whose probe is scheduled to fail. *)
Fixpoint scheduled_missing (columns : list string)
    (outcomes : list (option string)) : list string :=
  match columns, outcomes with
  | [], _ => []
  | column :: rest, Some _ :: later => column :: scheduled_missing rest later
  | _ :: rest, None :: later => scheduled_missing rest later
  | _ :: _, [] => []
  end.

(** Every table is the same. *)
Definition same_tables (w w' : world) : Prop := tables w' = tables w.

Definition api_get_incident_permissions (sess : option session)
    (incident_id : pyval) : M api_reply :=
  match sess with
  | None => ret (ApiMessage 401 false "Unauthorized")
  | Some s =>
      try_catch
        (do incident_result <-
           select INCIDENTS (eq_filter "icd_id" incident_id) ;
         match incident_result with
         | [] => ret (ApiMessage 404 false "Incident not found")
         | incident :: _ =>
             let status := get incident "icd_status" in
             let assigned_responder_id :=
               get incident "assigned_responder_id" in
             let current_admin_id := admin_id s in
             do permission <-
               can_admin_edit_incident incident_id current_admin_id ;
             let '(can_edit, edit_message) := permission in
             do assigned_responder_name <-
               (if truthy assigned_responder_id then
                  try_catch
                    (do responder_result <-
                       select ADMINS
                         (eq_filter "admin_id" assigned_responder_id) ;
                     match responder_result with
                     | [] => ret assigned_responder_id
                     | r :: _ => ret (get r "admin_fullname")
                     end)
                    (fun _ => ret assigned_responder_id)
                else ret PyNone) ;
             ret (ApiPermissions can_edit edit_message status
                    assigned_responder_id assigned_responder_name
                    (if truthy assigned_responder_id
                     then String.eqb (str assigned_responder_id)
                            (str current_admin_id)
                     else false)
                    (in_strs status ["Resolved"; "Cancelled"]))
         end)
        (fun e => ret (ApiMessage 500 false e))
  end.

(** ** The delete and archive forms of the incident-management page *)

(** [incident_management] for a POST whose form carries [delete_incident],
    from the session check to the end of the POST block: the messages
    flashed, or [None] for the redirect to the login page.  The request then
    goes on to build the listing, which only reads from the store. *)
Definition incident_management_delete (sess : option session)
    (incident_id : pyval) : M (option (list flash)) :=
  match sess with
  | None => ret None
  | Some s =>
      do _ <- try_catch
                (do _ <- select ADMINS (eq_filter "admin_id" (admin_id s)) ;
                 ret tt)
                (fun _ => ret tt) ;
      try_catch
        (do incident_check <-
           select INCIDENTS (eq_filter "icd_id" incident_id) ;
         match incident_check with
         | _ :: _ =>
             do _ <- log_incident_change incident_id "deleted" PyNone PyNone
                       (admin_id s) (PyStr "Deleted by administrator") ;
             do _ <- delete ACTIVITY_LOGS
                       (eq_filter "incident_id" incident_id) ;
             do _ <- delete INCIDENTS (eq_filter "icd_id" incident_id) ;
             ret (Some [Flash ("Incident " ++ str incident_id
                               ++ " has been successfully deleted.")
                          "success"])
         | [] => ret (Some [Flash "Incident not found." "error"])
         end)
        (fun e => ret (Some [Flash ("Error deleting incident: " ++ e) "error"]))
  end.

(** [incident_management] for a POST whose form carries [archive_incident]
    and not [delete_incident], in the same way; [archive_reason] is the
    field of that name, if the form has one. *)
Definition incident_management_archive (clk : clock) (sess : option session)
    (incident_id : pyval) (archive_reason : option pyval)
  : M (option (list flash)) :=
  match sess with
  | None => ret None
  | Some s =>
      do _ <- try_catch
                (do _ <- select ADMINS (eq_filter "admin_id" (admin_id s)) ;
                 ret tt)
                (fun _ => ret tt) ;
      let archive_reason :=
        default (PyStr "Archived by administrator") archive_reason in
      try_catch
        (do archived <-
           archive_incident clk incident_id (admin_id s) archive_reason ;
         let '(success, message) := archived in
         if success then
           ret (Some [Flash ("Incident " ++ str incident_id
                             ++ " has been successfully archived. " ++ message)
                        "success"])
         else ret (Some [Flash ("Error archiving incident: " ++ message)
                           "error"]))
        (fun e =>
           ret (Some [Flash ("Error archiving incident: " ++ e) "error"]))
  end.

(** The number has at most 4300 digits, so Python prints it. *)
Definition printable (n : Z) : Prop :=
  (String.length (str (PyInt n)) <= MAX_STR_DIGITS)%nat.

(** The largest number Python prints: 4300 nines. *)
Definition LARGEST_PRINTED : Z := Z.of_N (10 ^ N.of_nat MAX_STR_DIGITS) - 1.



(** The outcome the schedule has for the call after the next [k]. *)
Definition outcome (k : nat) (fs : list (option string)) : option string :=
  List.nth k fs None.


(** A store that answers every call still does after the computation. *)
Definition stays_calm (w w' : world) : Prop :=
  faults w = [] -> faults w' = [].

(** * Properties *)

Example strip_example : strip "  Pending " = "Pending".
Proof. reflexivity. Qed.

Example padded_digits_example : padded_digits 5 43 = "00043" /\ padded_digits 5 100000 = "100000".
Proof. split; reflexivity. Qed.

Example int_of_string_example :
  int_of_string "00042" = Some 42 /\ int_of_string "" = None.
Proof. split; reflexivity. Qed.

(** *** The store's calls, when the schedule lets them through *)

Lemma execute_ok {A} (op : world -> A * world) (w : world) :
  next_ok w -> execute op w = (Ok (fst (op (advance w))), snd (op (advance w))).
Proof.
  unfold next_ok, execute. intros H.
  destruct (faults w) as [|[msg|] fs]; try contradiction;
    destruct (op (advance w)); reflexivity.
Qed.

Lemma execute_raise {A} (op : world -> A * world) (w : world) msg fs :
  faults w = Some msg :: fs -> execute op w = (Raise msg, advance w).
Proof. unfold execute. intros ->. reflexivity. Qed.

Lemma select_ok (t : string) (p : row -> bool) (w : world) :
  next_ok w -> select t p w = (Ok (List.filter p (rows_of w t)), advance w).
Proof. intros H. unfold select. rewrite execute_ok by exact H. reflexivity. Qed.

Lemma insert_ok (t : string) (r : row) (w : world) :
  next_ok w ->
  insert t r w = (Ok [r], set_rows t (rows_of w t ++ [r]) (advance w)).
Proof. intros H. unfold insert. rewrite execute_ok by exact H. reflexivity. Qed.

Lemma insert_raise (t : string) (r : row) (w : world) e fs :
  faults w = Some e :: fs -> insert t r w = (Raise e, advance w).
Proof. intros H. unfold insert. erewrite execute_raise by exact H. reflexivity. Qed.

Lemma next_ok_or_fault (w : world) :
  next_ok w \/ exists e fs, faults w = Some e :: fs.
Proof.
  unfold next_ok. destruct (faults w) as [|[e|] fs]; eauto.
Qed.

Lemma select_raise (t : string) (p : row -> bool) (w : world) e fs :
  faults w = Some e :: fs -> select t p w = (Raise e, advance w).
Proof. intros H. unfold select. erewrite execute_raise by exact H. reflexivity. Qed.



Lemma rows_of_advance (w : world) (t : string) :
  rows_of (advance w) t = rows_of w t.
Proof. reflexivity. Qed.

(** *** Closed incidents *)

Lemma incident_of_rows (w : world) (incident_id : pyval) (incident : row) :
  incident_of w incident_id = Some incident ->
  exists rest,
    List.filter (eq_filter "icd_id" incident_id) (rows_of w INCIDENTS)
    = incident :: rest.
Proof.
  unfold incident_of. destruct (List.filter _ _) as [|r rest]; simpl.
  - discriminate.
  - intros [= ->]. eauto.
Qed.

Lemma edit_decision (w : world) (incident_id admin_id : pyval)
    (incident : row) :
  next_ok w ->
  incident_of w incident_id = Some incident ->
  exists reason,
    can_admin_edit_incident incident_id admin_id w
    = (Ok (editable_by admin_id incident, reason), advance w).
Proof.
  intros Hok Hinc.
  destruct (incident_of_rows _ _ _ Hinc) as [rest Hrows].
  unfold can_admin_edit_incident, try_catch, bind, editable_by, closed_status,
    assigned_to_other.
  rewrite select_ok by exact Hok. rewrite Hrows.
  destruct (in_strs (get incident "icd_status") ["Resolved"; "Cancelled"]);
    simpl; [eauto |].
  destruct (truthy (get incident "assigned_responder_id")); simpl; [| eauto].
  destruct (String.eqb _ _); simpl; eauto.
Qed.

Lemma edit_closed (w : world) (incident_id admin_id : pyval) (incident : row)
    (status : string) :
  next_ok w ->
  incident_of w incident_id = Some incident ->
  get incident "icd_status" = PyStr status ->
  status = "Resolved" \/ status = "Cancelled" ->
  can_admin_edit_incident incident_id admin_id w
  = (Ok (false, "Incident is " ++ status ++ " and cannot be modified"),
     advance w).
Proof.
  intros Hok Hinc Hst Hclosed.
  destruct (incident_of_rows _ _ _ Hinc) as [rest Hrows].
  unfold can_admin_edit_incident, try_catch, bind.
  rewrite select_ok by exact Hok. rewrite Hrows, Hst.
  destruct Hclosed as [-> | ->]; reflexivity.
Qed.

Lemma view_closed (w : world) (incident_id admin_id : pyval) (incident : row)
    (status : string) :
  next_ok w ->
  incident_of w incident_id = Some incident ->
  get incident "icd_status" = PyStr status ->
  status = "Resolved" \/ status = "Cancelled" ->
  can_admin_view_incident incident_id admin_id w
  = (Ok (true, "Incident is viewable"), advance w).
Proof.
  intros Hok Hinc Hst Hclosed.
  destruct (incident_of_rows _ _ _ Hinc) as [rest Hrows].
  unfold can_admin_view_incident, try_catch, bind.
  rewrite select_ok by exact Hok. rewrite Hrows, Hst.
  destruct Hclosed as [-> | ->]; reflexivity.
Qed.

(** C1: an incident whose status is Resolved or Cancelled can be edited by
    no admin and viewed by every admin: whatever the admin id (the
    resolver's included) and whatever the assignment,
    [can_admin_edit_incident] answers [(False, reason)] and
    [can_admin_view_incident] answers [(True, reason)]. *)
Theorem C1_closed_incident_is_read_only
    (w : world) (incident_id admin_id : pyval) (incident : row)
    (status : string) :
  next_ok w ->
  incident_of w incident_id = Some incident ->
  get incident "icd_status" = PyStr status ->
  status = "Resolved" \/ status = "Cancelled" ->
  (exists reason,
     fst (can_admin_edit_incident incident_id admin_id w) = Ok (false, reason))
  /\ (exists reason,
     fst (can_admin_view_incident incident_id admin_id w) = Ok (true, reason)).
Proof.
  intros Hok Hinc Hst Hclosed. split.
  - rewrite (edit_closed _ _ _ _ _ Hok Hinc Hst Hclosed). eauto.
  - rewrite (view_closed _ _ _ _ _ Hok Hinc Hst Hclosed). eauto.
Qed.

Lemma C1_closed_incident_is_read_only_witness :
  (exists reason,
     fst (can_admin_edit_incident (PyStr "ICD003") (PyStr "ADM-X") sample_world)
     = Ok (false, reason))
  /\ (exists reason,
     fst (can_admin_view_incident (PyStr "ICD003") (PyStr "ADM-X") sample_world)
     = Ok (true, reason)).
Proof.
  apply (C1_closed_incident_is_read_only sample_world (PyStr "ICD003")
           (PyStr "ADM-X") icd_resolved_x "Resolved").
  - exact I.
  - reflexivity.
  - reflexivity.
  - left. reflexivity.
Defined.

(** *** Open incidents *)

Lemma edit_open (w : world) (incident_id admin_id : pyval) (incident : row)
    (status : string) :
  next_ok w ->
  incident_of w incident_id = Some incident ->
  get incident "icd_status" = PyStr status ->
  status = "Active" \/ status = "Pending" ->
  exists reason,
    can_admin_edit_incident incident_id admin_id w
    = (Ok (negb (assigned_to_other admin_id incident), reason), advance w).
Proof.
  intros Hok Hinc Hst Hopen.
  destruct (incident_of_rows _ _ _ Hinc) as [rest Hrows].
  unfold can_admin_edit_incident, try_catch, bind, assigned_to_other.
  rewrite select_ok by exact Hok. rewrite Hrows, Hst.
  assert (Hno : in_strs (PyStr status) ["Resolved"; "Cancelled"] = false)
    by (destruct Hopen as [-> | ->]; reflexivity).
  rewrite Hno.
  destruct (truthy (get incident "assigned_responder_id")); simpl.
  - destruct (String.eqb _ _); simpl; eauto.
  - eauto.
Qed.

Lemma view_open (w : world) (incident_id admin_id : pyval) (incident : row)
    (status : string) :
  next_ok w ->
  incident_of w incident_id = Some incident ->
  get incident "icd_status" = PyStr status ->
  status = "Active" \/ status = "Pending" ->
  exists reason,
    can_admin_view_incident incident_id admin_id w
    = (Ok (negb (assigned_to_other admin_id incident), reason), advance w).
Proof.
  intros Hok Hinc Hst Hopen.
  destruct (incident_of_rows _ _ _ Hinc) as [rest Hrows].
  unfold can_admin_view_incident, try_catch, bind, lift_result,
    assigned_to_other.
  rewrite select_ok by exact Hok. rewrite Hrows, Hst.
  assert (Hs : stripped_text (PyStr status) = Ok status)
    by (destruct Hopen as [-> | ->]; reflexivity).
  rewrite Hs.
  assert (Hyes : in_strs (PyStr status) ["Active"; "Pending"] = true)
    by (destruct Hopen as [-> | ->]; reflexivity).
  rewrite Hyes.
  destruct (truthy (get incident "assigned_responder_id")); simpl.
  - destruct (String.eqb _ _); simpl; eauto.
  - eauto.
Qed.

Lemma stripped_text_total (incident : row) :
  text_status incident ->
  exists s, stripped_text (get incident "icd_status") = Ok s.
Proof.
  unfold text_status, stripped_text, or_else.
  destruct (get incident "icd_status") as [|s|n]; try contradiction; intros _.
  - simpl. eauto.
  - destruct (truthy (PyStr s)); eauto.
Qed.

Lemma filter_loop_spec (admin_id : pyval) (incidents filtered : list row) :
  Forall text_status incidents ->
  filter_loop (str admin_id) incidents filtered
  = Ok (filtered
        ++ List.filter (fun i => negb (hidden_from admin_id i)) incidents)%list.
Proof.
  intros Htext. revert filtered.
  induction Htext as [|incident rest Hi _ IH]; intros filtered;
    cbn [filter_loop List.filter].
  - rewrite app_nil_r. reflexivity.
  - destruct (stripped_text_total _ Hi) as [s Hs]. rewrite Hs.
    assert (Hh : hidden_from admin_id incident
                 = (in_strs (PyStr s) ["Active"; "Pending"]
                    && truthy (get incident "assigned_responder_id")
                    && negb (String.eqb
                               (str (get incident "assigned_responder_id"))
                               (str admin_id)))%bool).
    { unfold hidden_from, is_open, assigned_to_other. rewrite Hs.
      apply andb_assoc. }
    rewrite <- Hh. destruct (hidden_from admin_id incident); cbn [negb].
    + apply IH.
    + rewrite IH, <- app_assoc. reflexivity.
Qed.

Lemma status_open_exact (incident : row) (status : string) :
  get incident "icd_status" = PyStr status ->
  status = "Active" \/ status = "Pending" ->
  is_open incident = true.
Proof.
  unfold is_open. intros -> [-> | ->]; reflexivity.
Qed.

Lemma assigned_to_other_false (admin_id : pyval) (incident : row) :
  assigned_to_other admin_id incident = false <->
  truthy (get incident "assigned_responder_id") = false
  \/ str (get incident "assigned_responder_id") = str admin_id.
Proof.
  unfold assigned_to_other.
  destruct (truthy (get incident "assigned_responder_id")); simpl.
  - destruct (String.eqb_spec (str (get incident "assigned_responder_id"))
                (str admin_id)) as [Heq | Hne]; simpl.
    + split; auto.
    + split; [discriminate | intros [H | H]; [discriminate | contradiction]].
  - split; auto.
Qed.

(** C2: while an incident is Active or Pending, the view and the edit
    decision agree: both are granted when no responder is assigned, both are
    granted to the assigned responder (ids compared by their text, as the
    code does), and both are refused to every other admin.  Filtering a list
    for an admin [B] keeps, in order, exactly the incidents that are not
    Active/Pending incidents assigned to another admin; an Active/Pending
    incident of the list is kept if and only if it is unassigned or assigned
    to [B]. *)
Theorem C2_open_incident_visibility
    (w : world) (incident_id admin_id : pyval) (incident : row)
    (status : string) (incidents : list row) (B : pyval) :
  next_ok w ->
  incident_of w incident_id = Some incident ->
  get incident "icd_status" = PyStr status ->
  status = "Active" \/ status = "Pending" ->
  truthy B = true ->
  Forall text_status incidents ->
  (exists can reason_edit reason_view,
      fst (can_admin_edit_incident incident_id admin_id w)
      = Ok (can, reason_edit)
      /\ fst (can_admin_view_incident incident_id admin_id w)
         = Ok (can, reason_view)
      /\ (truthy (get incident "assigned_responder_id") = false -> can = true)
      /\ (truthy (get incident "assigned_responder_id") = true ->
          str (get incident "assigned_responder_id") = str admin_id ->
          can = true)
      /\ (truthy (get incident "assigned_responder_id") = true ->
          str (get incident "assigned_responder_id") <> str admin_id ->
          can = false))
  /\ (exists kept,
        filter_incidents_for_admin incidents B = Ok kept
        /\ kept = List.filter (fun i => negb (hidden_from B i)) incidents
        /\ (forall i, In i kept <-> In i incidents /\ hidden_from B i = false)
        /\ (forall i st,
              In i incidents ->
              get i "icd_status" = PyStr st ->
              st = "Active" \/ st = "Pending" ->
              (In i kept <->
               truthy (get i "assigned_responder_id") = false
               \/ str (get i "assigned_responder_id") = str B))).
Proof.
  intros Hok Hinc Hst Hopen HB Htext. split.
  - destruct (edit_open _ _ admin_id _ _ Hok Hinc Hst Hopen) as [re He].
    destruct (view_open _ _ admin_id _ _ Hok Hinc Hst Hopen) as [rv Hv].
    exists (negb (assigned_to_other admin_id incident)), re, rv.
    rewrite He, Hv.
    refine (conj eq_refl (conj eq_refl (conj _ (conj _ _)))).
    + intros Hfree. apply negb_true_iff, assigned_to_other_false. auto.
    + intros _ Hsame. apply negb_true_iff, assigned_to_other_false. auto.
    + intros Hset Hne. apply negb_false_iff.
      unfold assigned_to_other. rewrite Hset. simpl.
      apply negb_true_iff, String.eqb_neq. exact Hne.
  - exists (List.filter (fun i => negb (hidden_from B i)) incidents).
    assert (Hmem : forall i,
               In i (List.filter (fun i => negb (hidden_from B i)) incidents)
               <-> In i incidents /\ hidden_from B i = false).
    { intros i. rewrite filter_In, negb_true_iff. reflexivity. }
    refine (conj _ (conj eq_refl (conj Hmem _))).
    { unfold filter_incidents_for_admin. rewrite HB. simpl.
      rewrite filter_loop_spec by exact Htext. reflexivity. }
    intros i st Hin Hsti Hopeni. split.
    + intros Hkept. apply Hmem in Hkept as [_ Hvis].
      unfold hidden_from in Hvis.
      rewrite (status_open_exact i st) in Hvis by assumption.
      apply assigned_to_other_false. exact Hvis.
    + intros Hmine. apply Hmem. split; [assumption |].
      unfold hidden_from.
      rewrite (status_open_exact i st) by assumption.
      apply assigned_to_other_false. exact Hmine.
Qed.

Lemma C2_open_incident_visibility_witness :
  (exists can reason_edit reason_view,
      fst (can_admin_edit_incident (PyStr "ICD002") (PyStr "ADM-Y") sample_world)
      = Ok (can, reason_edit)
      /\ fst (can_admin_view_incident (PyStr "ICD002") (PyStr "ADM-Y")
                sample_world)
         = Ok (can, reason_view)
      /\ (truthy (get icd_pending_x "assigned_responder_id") = false ->
          can = true)
      /\ (truthy (get icd_pending_x "assigned_responder_id") = true ->
          str (get icd_pending_x "assigned_responder_id") = str (PyStr "ADM-Y") ->
          can = true)
      /\ (truthy (get icd_pending_x "assigned_responder_id") = true ->
          str (get icd_pending_x "assigned_responder_id") <> str (PyStr "ADM-Y") ->
          can = false))
  /\ (exists kept,
        filter_incidents_for_admin sample_incidents (PyStr "ADM-Y") = Ok kept
        /\ kept = List.filter (fun i => negb (hidden_from (PyStr "ADM-Y") i))
                    sample_incidents
        /\ (forall i, In i kept <->
                      In i sample_incidents
                      /\ hidden_from (PyStr "ADM-Y") i = false)
        /\ (forall i st,
              In i sample_incidents ->
              get i "icd_status" = PyStr st ->
              st = "Active" \/ st = "Pending" ->
              (In i kept <->
               truthy (get i "assigned_responder_id") = false
               \/ str (get i "assigned_responder_id") = str (PyStr "ADM-Y")))).
Proof.
  apply (C2_open_incident_visibility sample_world (PyStr "ICD002")
           (PyStr "ADM-Y") icd_pending_x "Pending" sample_incidents
           (PyStr "ADM-Y")).
  - exact I.
  - reflexivity.
  - reflexivity.
  - right. reflexivity.
  - reflexivity.
  - repeat constructor; vm_compute; exact I.
Defined.

Example filter_for_other_admin :
  filter_incidents_for_admin sample_incidents (PyStr "ADM-Y")
  = Ok [icd_active_free; icd_resolved_x; icd_cancelled_free]
  /\ filter_incidents_for_admin sample_incidents (PyStr "ADM-X")
     = Ok sample_incidents.
Proof. split; reflexivity. Qed.

(** C10: when the admin id handed to [filter_incidents_for_admin] is missing
    or falsy ([None], the empty string), the input list comes back
    unchanged: no incident is tested, so an Active or Pending incident
    assigned to another responder stays in the result. *)
Theorem C10_filter_without_admin_id (incidents : list row) (admin_id : pyval) :
  truthy admin_id = false ->
  filter_incidents_for_admin incidents admin_id = Ok incidents
  /\ (forall i other,
        In i incidents -> hidden_from other i = true ->
        exists kept,
          filter_incidents_for_admin incidents admin_id = Ok kept /\ In i kept).
Proof.
  intros Hfalsy. unfold filter_incidents_for_admin. rewrite Hfalsy. simpl.
  split; [reflexivity |]. intros i other Hin _. eauto.
Qed.

Lemma C10_filter_without_admin_id_witness :
  filter_incidents_for_admin sample_incidents PyNone = Ok sample_incidents
  /\ (forall i other,
        In i sample_incidents -> hidden_from other i = true ->
        exists kept,
          filter_incidents_for_admin sample_incidents PyNone = Ok kept
          /\ In i kept).
Proof.
  apply (C10_filter_without_admin_id sample_incidents PyNone). reflexivity.
Defined.

Example filter_with_empty_admin_id :
  filter_incidents_for_admin sample_incidents (PyStr "") = Ok sample_incidents
  /\ hidden_from (PyStr "ADM-Y") icd_pending_x = true.
Proof. split; reflexivity. Qed.

(** *** Closed incidents and the status transitions *)

(** The edit check refuses a closed incident whether or not the store
    answers: a failed lookup is a refusal too. *)
Lemma edit_closed_any_schedule (w : world) (incident_id admin_id : pyval)
    (incident : row) :
  incident_of w incident_id = Some incident ->
  is_closed incident ->
  exists reason,
    can_admin_edit_incident incident_id admin_id w
    = (Ok (false, reason), advance w).
Proof.
  intros Hinc Hclosed.
  destruct (faults w) as [|[msg|] fs] eqn:Hf.
  - assert (Hok : next_ok w) by (unfold next_ok; rewrite Hf; exact I).
    destruct Hclosed as [Hst | Hst];
      erewrite edit_closed by eauto; eauto.
  - unfold can_admin_edit_incident, try_catch, bind, select.
    erewrite execute_raise by eauto. eauto.
  - assert (Hok : next_ok w) by (unfold next_ok; rewrite Hf; exact I).
    destruct Hclosed as [Hst | Hst];
      erewrite edit_closed by eauto; eauto.
Qed.

Lemma mark_pending_keeps_closed (clk : clock) (s : session) (w : world)
    (incident_id : pyval) (incident : row) :
  incident_of w incident_id = Some incident ->
  is_closed incident ->
  tables (snd (mark_pending clk (Some s) incident_id w)) = tables w.
Proof.
  intros Hinc Hclosed. unfold mark_pending.
  destruct (truthy incident_id); simpl; [| reflexivity].
  destruct (edit_closed_any_schedule w incident_id (admin_id s) _ Hinc Hclosed)
    as [reason He].
  unfold bind. rewrite He. reflexivity.
Qed.

Lemma mark_cancelled_keeps_closed (clk : clock) (s : session) (w : world)
    (incident_id : pyval) (incident : row) :
  incident_of w incident_id = Some incident ->
  is_closed incident ->
  tables (snd (mark_cancelled clk (Some s) incident_id w)) = tables w.
Proof.
  intros Hinc Hclosed. unfold mark_cancelled.
  destruct (truthy incident_id); simpl; [| reflexivity].
  destruct (edit_closed_any_schedule w incident_id (admin_id s) _ Hinc Hclosed)
    as [reason He].
  unfold bind. rewrite He. reflexivity.
Qed.

Lemma mark_resolved_keeps_closed (clk : clock) (s : session) (w : world)
    (incident_id summary : pyval) (wants_json : bool) (incident : row) :
  incident_of w incident_id = Some incident ->
  is_closed incident ->
  tables (snd (mark_resolved clk (Some s) incident_id summary wants_json w))
  = tables w.
Proof.
  intros Hinc Hclosed. unfold mark_resolved.
  destruct (stripped_text summary) as [text | e]; [| reflexivity].
  destruct (truthy incident_id); simpl;
    [| destruct wants_json; reflexivity].
  destruct (String.eqb text ""); [destruct wants_json; reflexivity |].
  destruct (edit_closed_any_schedule w incident_id (admin_id s) _ Hinc Hclosed)
    as [reason He].
  unfold bind. rewrite He. simpl. destruct wants_json; reflexivity.
Qed.

Lemma bulk_status_update_one_keeps_closed (clk : clock) (s : session)
    (w : world) (new_status incident_id : pyval) (incident : row) :
  incident_of w incident_id = Some incident ->
  is_closed incident ->
  tables (snd (bulk_status_update_one clk s new_status incident_id w))
  = tables w.
Proof.
  intros Hinc Hclosed. unfold bulk_status_update_one, try_catch.
  destruct (edit_closed_any_schedule w incident_id (admin_id s) _ Hinc Hclosed)
    as [reason He].
  unfold bind. rewrite He. reflexivity.
Qed.

(** C3 (the code departs from it): an incident that is Resolved is set back
    to Pending by [dispatch_team] when the acting admin names themselves as
    responder: the edit check is skipped and the status is never looked at.
    Here admin Y reopens the incident that admin X resolved. *)
Theorem C3_dispatch_team_reopens_closed_incident :
  let w' := snd (dispatch_team sample_clock (Some admin_y) (PyStr "ICD003")
                   (PyStr "ADM-Y") sample_world) in
  status_of sample_world (PyStr "ICD003") = Some (PyStr "Resolved")
  /\ status_of w' (PyStr "ICD003") = Some (PyStr "Pending")
  /\ option_map (fun r => get r "assigned_responder_id")
       (incident_of w' (PyStr "ICD003")) = Some (PyStr "ADM-Y").
Proof. repeat split; reflexivity. Qed.

Example dispatch_team_reopens_unassigned_cancelled :
  status_of (snd (dispatch_team sample_clock (Some admin_y) (PyStr "ICD004")
                    (PyStr "ADM-X") sample_world)) (PyStr "ICD004")
  = Some (PyStr "Pending").
Proof. reflexivity. Qed.

(** *** Audit entries of the transitions *)

Lemma log_admin_activity_never_raises (clk : clock)
    (a n : pyval) (action : string) (i o s : pyval) (w : world) :
  exists r, fst (log_admin_activity clk a n action i o s w) = Ok r.
Proof.
  unfold log_admin_activity, try_catch, bind, insert, execute.
  destruct (faults w) as [|[msg|] fs]; simpl; eauto.
Qed.

Lemma log_incident_change_never_raises
    (i : pyval) (action : string) (o s a r : pyval) (w : world) :
  exists b, fst (log_incident_change i action o s a r w) = Ok b.
Proof.
  unfold log_incident_change, try_catch, bind, insert, execute.
  destruct (faults w) as [|[msg|] fs]; simpl; eauto.
Qed.

(** The single-incident transitions record the status they found. *)
Example mark_pending_logs_old_status :
  let w' := snd (mark_pending sample_clock (Some admin_x) (PyStr "ICD001")
                   sample_world) in
  status_of w' (PyStr "ICD001") = Some (PyStr "Pending")
  /\ activity_entries w' = [(PyStr "Active", PyStr "Pending", PyStr "ADM-X")].
Proof. split; reflexivity. Qed.

(** When the store fails inside the [try] of [mark_pending], the handler
    raises before it flashes anything; the same failure in [mark_cancelled]
    is flashed. *)
Example mark_pending_failure_raises :
  fst (mark_pending sample_clock (Some admin_x) (PyStr "ICD001")
         (with_faults [None; None; Some "timeout"] sample_world))
  = Raise UNBOUND_TRACEBACK
  /\ exists flashes,
       fst (mark_cancelled sample_clock (Some admin_x) (PyStr "ICD001")
              (with_faults [None; None; Some "timeout"] sample_world))
       = Ok (RedirectDashboard flashes).
Proof. split; [reflexivity | eexists; reflexivity]. Qed.

Example mark_cancelled_logs_old_status :
  let w' := snd (mark_cancelled sample_clock (Some admin_x) (PyStr "ICD002")
                   sample_world) in
  status_of w' (PyStr "ICD002") = Some (PyStr "Cancelled")
  /\ activity_entries w' = [(PyStr "Pending", PyStr "Cancelled", PyStr "ADM-X")].
Proof. split; reflexivity. Qed.

Example dispatch_team_logs_old_status :
  let w' := snd (dispatch_team sample_clock (Some admin_x) (PyStr "ICD001")
                   (PyStr "ADM-X") sample_world) in
  status_of w' (PyStr "ICD001") = Some (PyStr "Pending")
  /\ activity_entries w' = [(PyStr "Active", PyStr "Pending", PyStr "ADM-X")].
Proof. split; reflexivity. Qed.

(** A failed audit insert leaves the transition in place and the request
    successful: here the fourth call of [mark_cancelled], the insert into the
    activity log, raises. *)
Example mark_cancelled_survives_audit_failure :
  let run := mark_cancelled sample_clock (Some admin_x) (PyStr "ICD002")
               (with_faults [None; None; None; Some "log table is down"]
                  sample_world) in
  fst run = Ok (RedirectDashboard
                  [Flash "Incident ICD_9100ICD002 has been cancelled!" "success"])
  /\ status_of (snd run) (PyStr "ICD002") = Some (PyStr "Cancelled")
  /\ activity_entries (snd run) = [].
Proof. repeat split; reflexivity. Qed.

Example bulk_status_update_survives_audit_failure :
  let run := api_bulk_action sample_clock (Some admin_x) (PyStr "status_update")
               [PyStr "ICD001"] (PyStr "") (PyStr "Pending")
               (with_faults [None; None; Some "audit table is down"]
                  sample_world) in
  fst run = Ok (Json 200
                  (JResults
                     [BulkResult (PyStr "ICD001") true "Status updated successfully"]
                     "Updated 1 incidents"))
  /\ status_of (snd run) (PyStr "ICD001") = Some (PyStr "Pending")
  /\ audit_entries (snd run) = [].
Proof. repeat split; reflexivity. Qed.

(** C4 (the code departs from it): the bulk [status_update] changes an
    incident from Active to Pending and appends an audit row that carries the
    new status and the acting admin but no old status: [log_incident_change]
    is called without [old_status], and the bulk path never reads the status
    it replaces. *)
Theorem C4_bulk_status_update_audit_lacks_old_status :
  let run := api_bulk_action sample_clock (Some admin_x) (PyStr "status_update")
               [PyStr "ICD001"] (PyStr "") (PyStr "Pending") sample_world in
  status_of sample_world (PyStr "ICD001") = Some (PyStr "Active")
  /\ fst run = Ok (Json 200
                     (JResults
                        [BulkResult (PyStr "ICD001") true
                           "Status updated successfully"]
                        "Updated 1 incidents"))
  /\ status_of (snd run) (PyStr "ICD001") = Some (PyStr "Pending")
  /\ audit_entries (snd run) = [(PyNone, PyStr "Pending", PyStr "ADM-X")]
  /\ activity_entries (snd run) = [].
Proof. repeat split; reflexivity. Qed.

(** *** A small logic of what a computation leaves untouched *)

Section Keeps.

Variable R : world -> world -> Prop.
Hypothesis R_refl : forall w, R w w.
Hypothesis R_trans : forall a b c, R a b -> R b c -> R a c.

Lemma keeps_ret {A} (a : A) : keeps R (ret a).
Proof. intros w. apply R_refl. Qed.

Lemma keeps_raise {A} (e : string) : keeps R (@raise A e).
Proof. intros w. apply R_refl. Qed.

Lemma keeps_lift_result {A} (r : result A) : keeps R (lift_result r).
Proof. intros w. apply R_refl. Qed.

Lemma keeps_bind {A B} (m : M A) (k : A -> M B) :
  keeps R m -> (forall a, keeps R (k a)) -> keeps R (bind m k).
Proof.
  intros Hm Hk w. unfold bind. specialize (Hm w).
  destruct (m w) as [[a | e] w1]; simpl in *.
  - eapply R_trans; [exact Hm | apply Hk].
  - exact Hm.
Qed.

Lemma keeps_try_catch {A} (m : M A) (h : string -> M A) :
  keeps R m -> (forall e, keeps R (h e)) -> keeps R (try_catch m h).
Proof.
  intros Hm Hh w. unfold try_catch. specialize (Hm w).
  destruct (m w) as [[a | e] w1]; simpl in *.
  - exact Hm.
  - eapply R_trans; [exact Hm | apply Hh].
Qed.

Lemma keeps_execute {A} (op : world -> A * world) :
  (forall w, R w (advance w)) ->
  (forall w, R w (snd (op w))) ->
  keeps R (execute op).
Proof.
  intros Hadv Hop w. unfold execute.
  destruct (faults w) as [|[msg|] fs]; simpl.
  - specialize (Hop (advance w)). destruct (op (advance w)) as [a w1].
    simpl in *. eapply R_trans; [apply Hadv | exact Hop].
  - apply Hadv.
  - specialize (Hop (advance w)). destruct (op (advance w)) as [a w1].
    simpl in *. eapply R_trans; [apply Hadv | exact Hop].
Qed.

End Keeps.

Lemma keeps_weaken (R R' : world -> world -> Prop) {A} (m : M A) :
  (forall w w', R w w' -> R' w w') -> keeps R m -> keeps R' m.
Proof. intros Himp Hm w. apply Himp, Hm. Qed.

Lemma same_incidents_refl (w : world) : same_incidents w w.
Proof. reflexivity. Qed.

Lemma same_incidents_trans (a b c : world) :
  same_incidents a b -> same_incidents b c -> same_incidents a c.
Proof. unfold same_incidents. congruence. Qed.

Lemma rows_of_set_rows_ne (t t' : string) (rs : list row) (w : world) :
  t <> t' -> rows_of (set_rows t rs w) t' = rows_of w t'.
Proof.
  intros Hne. unfold rows_of, set_rows. simpl.
  rewrite lookup_insert_ne by exact Hne. reflexivity.
Qed.

Lemma rows_of_set_rows_eq (t : string) (rs : list row) (w : world) :
  rows_of (set_rows t rs w) t = rs.
Proof.
  unfold rows_of, set_rows. simpl. rewrite lookup_insert_eq. reflexivity.
Qed.

Lemma select_same (t : string) (p : row -> bool) :
  keeps same_incidents (select t p).
Proof.
  apply keeps_execute; try exact same_incidents_trans; intros w; reflexivity.
Qed.

Lemma select_newest_same (t col : string) :
  keeps same_incidents (select_newest t col).
Proof.
  apply keeps_execute; try exact same_incidents_trans; intros w; reflexivity.
Qed.

Lemma insert_same (t : string) (r : row) :
  t <> INCIDENTS -> keeps same_incidents (insert t r).
Proof.
  intros Hne. apply keeps_execute; try exact same_incidents_trans; intros w.
  - reflexivity.
  - apply rows_of_set_rows_ne. exact Hne.
Qed.

Lemma delete_same (t : string) (p : row -> bool) :
  t <> INCIDENTS -> keeps same_incidents (delete t p).
Proof.
  intros Hne. apply keeps_execute; try exact same_incidents_trans; intros w.
  - reflexivity.
  - apply rows_of_set_rows_ne. exact Hne.
Qed.

Lemma patched_by_refl (patch : row) (w : world) : patched_by patch w w.
Proof.
  unfold patched_by. induction (rows_of w INCIDENTS); constructor; auto.
Qed.

Lemma patch_twice (patch r : row) : patch ∪ (patch ∪ r) = patch ∪ r.
Proof. rewrite (assoc_L (∪)), (idemp_L (∪)). reflexivity. Qed.

Lemma patched_by_trans (patch : row) (a b c : world) :
  patched_by patch a b -> patched_by patch b c -> patched_by patch a c.
Proof.
  unfold patched_by.
  generalize (rows_of a INCIDENTS) (rows_of b INCIDENTS) (rows_of c INCIDENTS).
  intros la lb lc Hab. revert lc.
  induction Hab as [|r r' la lb Hr _ IH]; intros lc Hbc.
  - inversion Hbc. constructor.
  - inversion Hbc as [|x r'' y lc' Hr' Hrest]; subst. constructor.
    + destruct Hr as [-> | ->]; destruct Hr' as [-> | ->]; auto.
      right. apply patch_twice.
    + apply IH. exact Hrest.
Qed.

Lemma same_incidents_patched (patch : row) (w w' : world) :
  same_incidents w w' -> patched_by patch w w'.
Proof.
  unfold same_incidents, patched_by. intros ->.
  induction (rows_of w INCIDENTS); constructor; auto.
Qed.

Lemma update_patched (patch : row) (p : row -> bool) :
  keeps (patched_by patch) (update INCIDENTS patch p).
Proof.
  apply keeps_execute; try exact (patched_by_trans patch); intros w.
  - apply same_incidents_patched. reflexivity.
  - unfold patched_by. simpl. rewrite rows_of_set_rows_eq.
    induction (rows_of w INCIDENTS) as [|r rs IH]; simpl; constructor.
    + destruct (p r); auto.
    + exact IH.
Qed.

Ltac other_table :=
  let H := fresh in intros H; vm_compute in H; discriminate H.

Ltac case_split_head :=
  match goal with
  | |- keeps _ (match ?x with _ => _ end) => destruct x
  end.

(** One step through a computation that does not write to the incidents. *)
Ltac same_step :=
  first
    [ apply keeps_ret; exact same_incidents_refl
    | apply keeps_raise; exact same_incidents_refl
    | apply keeps_lift_result; exact same_incidents_refl
    | apply select_same
    | apply select_newest_same
    | apply insert_same; other_table
    | apply delete_same; other_table
    | assumption
    | apply keeps_bind; [exact same_incidents_trans | | intros ?]
    | apply keeps_try_catch; [exact same_incidents_trans | | intros ?]
    | case_split_head ].

Lemma can_admin_edit_incident_same (incident_id admin_id : pyval) :
  keeps same_incidents (can_admin_edit_incident incident_id admin_id).
Proof. unfold can_admin_edit_incident. repeat same_step. Qed.

Lemma log_admin_activity_same (clk : clock) (a n : pyval) (action : string)
    (i o s : pyval) :
  keeps same_incidents (log_admin_activity clk a n action i o s).
Proof. unfold log_admin_activity. repeat same_step. Qed.

Lemma log_incident_change_same (i : pyval) (action : string)
    (o s a r : pyval) :
  keeps same_incidents (log_incident_change i action o s a r).
Proof. unfold log_incident_change. repeat same_step. Qed.

Lemma generate_resolution_id_same : keeps same_incidents generate_resolution_id.
Proof.
  unfold generate_resolution_id, next_resolution_number. repeat same_step.
Qed.

Lemma get_incident_details_same (incident_id : pyval) :
  keeps same_incidents (get_incident_details incident_id).
Proof. unfold get_incident_details. repeat same_step. Qed.

Lemma store_report_same (report_record : row) (summary_payload : payload) :
  keeps same_incidents (store_report report_record summary_payload).
Proof.
  pose proof generate_resolution_id_same.
  unfold store_report. repeat same_step.
Qed.

Lemma create_incident_resolution_report_same (clk : clock)
    (i a n p t : pyval) :
  keeps same_incidents (create_incident_resolution_report clk i a n p t).
Proof.
  pose proof generate_resolution_id_same.
  pose proof (get_incident_details_same i).
  unfold create_incident_resolution_report.
  apply keeps_bind; [exact same_incidents_trans | assumption | intros d].
  destruct d as [d |]; [| same_step].
  apply keeps_bind; [exact same_incidents_trans | same_step | intros text].
  apply keeps_bind; [exact same_incidents_trans | assumption | intros id].
  apply keeps_bind; [exact same_incidents_trans | apply store_report_same |].
  intros stored. same_step.
Qed.

Lemma after_resolved_same (clk : clock) (s : session) (i o : pyval)
    (text label : string) (wants_json : bool) :
  keeps same_incidents (after_resolved clk s i o text label wants_json).
Proof.
  unfold after_resolved.
  apply keeps_bind;
    [exact same_incidents_trans | apply log_admin_activity_same | intros _].
  apply keeps_bind; [exact same_incidents_trans | | intros [p e]].
  - apply keeps_try_catch; [exact same_incidents_trans | | intros ?].
    + apply create_incident_resolution_report_same.
    + same_step.
  - destruct p as [p |], (raised_error e), wants_json; same_step.
Qed.

Lemma same_as_patched (patch : row) {A} (m : M A) :
  keeps same_incidents m -> keeps (patched_by patch) m.
Proof. apply keeps_weaken. apply same_incidents_patched. Qed.

(** One step through a transition whose only write to the incidents is an
    update with [patch]. *)
Ltac patched_step patch :=
  lazymatch goal with
  | |- keeps _ (bind _ _) =>
      apply keeps_bind; [exact (patched_by_trans patch) | | intros ?]
  | |- keeps _ (try_catch _ _) =>
      apply keeps_try_catch; [exact (patched_by_trans patch) | | intros ?]
  | |- keeps _ (update _ _ _) => apply update_patched
  | |- keeps _ (can_admin_edit_incident _ _) =>
      apply same_as_patched, can_admin_edit_incident_same
  | |- keeps _ (log_admin_activity _ _ _ _ _ _ _) =>
      apply same_as_patched, log_admin_activity_same
  | |- keeps _ (log_incident_change _ _ _ _ _ _) =>
      apply same_as_patched, log_incident_change_same
  | |- keeps _ (after_resolved _ _ _ _ _ _ _) =>
      apply same_as_patched, after_resolved_same
  | |- keeps _ (select _ _) => apply same_as_patched, select_same
  | |- keeps _ (ret _) => apply keeps_ret; exact (patched_by_refl patch)
  | |- keeps _ (raise _) => apply keeps_raise; exact (patched_by_refl patch)
  | |- keeps _ (match ?x with _ => _ end) => destruct x
  end.

Lemma mark_resolved_patched (clk : clock) (s : session)
    (incident_id summary : pyval) (wants_json : bool) :
  keeps (patched_by (resolved_update_data clk s))
    (mark_resolved clk (Some s) incident_id summary wants_json).
Proof.
  unfold mark_resolved.
  repeat (patched_step (resolved_update_data clk s)).
Qed.

Lemma mark_pending_patched (clk : clock) (s : session) (incident_id : pyval) :
  keeps (patched_by (pending_update_data clk s))
    (mark_pending clk (Some s) incident_id).
Proof.
  unfold mark_pending. repeat (patched_step (pending_update_data clk s)).
Qed.

Lemma mark_cancelled_patched (clk : clock) (s : session) (incident_id : pyval) :
  keeps (patched_by (cancelled_update_data clk s))
    (mark_cancelled clk (Some s) incident_id).
Proof.
  unfold mark_cancelled. repeat (patched_step (cancelled_update_data clk s)).
Qed.

Lemma bulk_status_update_one_patched (clk : clock) (s : session)
    (new_status incident_id : pyval) :
  keeps (patched_by (bulk_update_data clk s new_status))
    (bulk_status_update_one clk s new_status incident_id).
Proof.
  unfold bulk_status_update_one.
  repeat (patched_step (bulk_update_data clk s new_status)).
Qed.

Lemma bulk_status_update_patched (clk : clock) (s : session)
    (new_status : pyval) (incident_ids : list pyval) :
  keeps (patched_by (bulk_update_data clk s new_status))
    (bulk_status_update clk s new_status incident_ids).
Proof.
  induction incident_ids as [|incident_id rest IH]; simpl.
  - apply keeps_ret. apply patched_by_refl.
  - apply keeps_bind;
      [exact (patched_by_trans _) | apply bulk_status_update_one_patched |].
    intros r. apply keeps_bind; [exact (patched_by_trans _) | exact IH |].
    intros results. apply keeps_ret. apply patched_by_refl.
Qed.

(** *** Runs in which the store does not fail *)

Lemma advance_calm (w : world) : faults w = [] -> advance w = w.
Proof. destruct w as [t f]. unfold advance. simpl. intros ->. reflexivity. Qed.

Lemma calm_next_ok (w : world) : faults w = [] -> next_ok w.
Proof. unfold next_ok. intros ->. exact I. Qed.

Lemma select_calm (t : string) (p : row -> bool) (w : world) :
  faults w = [] -> select t p w = (Ok (List.filter p (rows_of w t)), w).
Proof.
  intros Hc. rewrite select_ok by (apply calm_next_ok; exact Hc).
  rewrite advance_calm by exact Hc. reflexivity.
Qed.

Lemma update_calm (t : string) (patch : row) (p : row -> bool) (w : world) :
  faults w = [] ->
  update t patch p w
  = (Ok (List.map (fun r => patch ∪ r) (List.filter p (rows_of w t))),
     set_rows t
       (List.map (fun r => if p r then patch ∪ r else r) (rows_of w t)) w).
Proof.
  intros Hc. unfold update.
  rewrite execute_ok by (apply calm_next_ok; exact Hc).
  rewrite advance_calm by exact Hc. reflexivity.
Qed.

Lemma insert_calm (t : string) (r : row) (w : world) :
  faults w = [] ->
  insert t r w = (Ok [r], set_rows t (rows_of w t ++ [r]) w).
Proof.
  intros Hc. rewrite insert_ok by (apply calm_next_ok; exact Hc).
  rewrite advance_calm by exact Hc. reflexivity.
Qed.

Lemma edit_open_calm (w : world) (incident_id admin_id : pyval)
    (incident : row) (status : string) :
  faults w = [] ->
  incident_of w incident_id = Some incident ->
  get incident "icd_status" = PyStr status ->
  status = "Active" \/ status = "Pending" ->
  assigned_to_other admin_id incident = false ->
  exists reason,
    can_admin_edit_incident incident_id admin_id w = (Ok (true, reason), w).
Proof.
  intros Hc Hinc Hst Hopen Hmine.
  destruct (edit_open w incident_id admin_id incident status
              (calm_next_ok _ Hc) Hinc Hst Hopen) as [reason He].
  rewrite Hmine, advance_calm in He by exact Hc. eauto.
Qed.

(** *** What a patch does to a row *)

Lemma get_patched (patch r : row) (c : string) :
  get (patch ∪ r) c
  = match patch !! c with
    | Some v => v
    | None => get r c
    end.
Proof.
  unfold get. rewrite lookup_union.
  destruct (patch !! c), (r !! c); reflexivity.
Qed.

Lemma eq_filter_patched (patch r : row) (col : string) (v : pyval) :
  patch !! col = None -> eq_filter col v (patch ∪ r) = eq_filter col v r.
Proof. intros Hnone. unfold eq_filter. rewrite get_patched, Hnone. reflexivity. Qed.

Lemma head_filter_patched (patch : row) (col : string) (v : pyval)
    (rs : list row) :
  patch !! col = None ->
  head (List.filter (eq_filter col v)
          (List.map (fun r => if eq_filter col v r then patch ∪ r else r) rs))
  = option_map (fun r => patch ∪ r) (head (List.filter (eq_filter col v) rs)).
Proof.
  intros Hnone. induction rs as [|r rs IH]; simpl; [reflexivity |].
  destruct (eq_filter col v r) eqn:Hr.
  - rewrite eq_filter_patched, Hr by exact Hnone. reflexivity.
  - rewrite Hr. exact IH.
Qed.

Lemma incident_of_same (w w' : world) (incident_id : pyval) :
  same_incidents w w' -> incident_of w' incident_id = incident_of w incident_id.
Proof. unfold same_incidents, incident_of. intros ->. reflexivity. Qed.

Lemma incident_of_updated (patch : row) (incident_id : pyval) (w : world)
    (incident : row) :
  patch !! "icd_id" = None ->
  incident_of w incident_id = Some incident ->
  incident_of
    (set_rows INCIDENTS
       (List.map
          (fun r => if eq_filter "icd_id" incident_id r then patch ∪ r else r)
          (rows_of w INCIDENTS)) w) incident_id
  = Some (patch ∪ incident).
Proof.
  intros Hnone Hinc. unfold incident_of in *.
  rewrite rows_of_set_rows_eq, head_filter_patched, Hinc by exact Hnone.
  reflexivity.
Qed.

Lemma incident_of_logged (t : string) (rs : list row) (w : world)
    (incident_id : pyval) :
  t <> INCIDENTS ->
  incident_of (set_rows t rs w) incident_id = incident_of w incident_id.
Proof.
  intros Hne. unfold incident_of.
  rewrite rows_of_set_rows_ne by exact Hne. reflexivity.
Qed.

Lemma updated_rows_nonempty (patch : row) (p : row -> bool) (rs : list row)
    (r : row) :
  head (List.filter p rs) = Some r ->
  exists r' rest,
    List.map (fun x => patch ∪ x) (List.filter p rs) = r' :: rest.
Proof.
  destruct (List.filter p rs) as [|x xs]; simpl; [discriminate | eauto].
Qed.

Lemma bind_ok {A B} (m : M A) (k : A -> M B) (w w' : world) (a : A) :
  m w = (Ok a, w') -> bind m k w = k a w'.
Proof. unfold bind. intros ->. reflexivity. Qed.

Lemma try_bind_ok {A B} (m : M A) (k : A -> M B) (h : string -> M B)
    (w w' : world) (a : A) :
  m w = (Ok a, w') -> try_catch (bind m k) h w = try_catch (k a) h w'.
Proof. unfold try_catch, bind. intros ->. reflexivity. Qed.

Lemma incident_of_kept {A} (m : M A) (w : world) (incident_id : pyval) :
  keeps same_incidents m ->
  incident_of (snd (m w)) incident_id = incident_of w incident_id.
Proof. intros Hm. apply incident_of_same, Hm. Qed.

Lemma mark_cancelled_updates (clk : clock) (s : session) (w : world)
    (incident_id : pyval) (incident : row) (status : string) :
  faults w = [] ->
  truthy incident_id = true ->
  incident_of w incident_id = Some incident ->
  get incident "icd_status" = PyStr status ->
  status = "Active" \/ status = "Pending" ->
  assigned_to_other (admin_id s) incident = false ->
  incident_of (snd (mark_cancelled clk (Some s) incident_id w)) incident_id
  = Some (cancelled_update_data clk s ∪ incident).
Proof.
  intros Hc Hid Hinc Hst Hopen Hmine.
  destruct (edit_open_calm w incident_id (admin_id s) incident status
              Hc Hinc Hst Hopen Hmine) as [reason He].
  unfold mark_cancelled. rewrite Hid. cbn [negb].
  rewrite (bind_ok _ _ _ _ _ He). cbn [negb].
  rewrite (try_bind_ok _ _ _ _ _ _ (select_calm _ _ _ Hc)).
  rewrite (try_bind_ok _ _ _ _ _ _ (update_calm _ _ _ _ Hc)).
  fold (cancelled_update_data clk s).
  destruct (updated_rows_nonempty (cancelled_update_data clk s) _ _ _ Hinc)
    as (r' & rest & ->).
  rewrite incident_of_kept.
  - apply incident_of_updated; [reflexivity | exact Hinc].
  - pose proof (log_admin_activity_same clk). repeat same_step.
Qed.

Lemma mark_pending_updates (clk : clock) (s : session) (w : world)
    (incident_id : pyval) (incident : row) (status : string) :
  faults w = [] ->
  truthy incident_id = true ->
  incident_of w incident_id = Some incident ->
  get incident "icd_status" = PyStr status ->
  status = "Active" \/ status = "Pending" ->
  assigned_to_other (admin_id s) incident = false ->
  incident_of (snd (mark_pending clk (Some s) incident_id w)) incident_id
  = Some (pending_update_data clk s ∪ incident).
Proof.
  intros Hc Hid Hinc Hst Hopen Hmine.
  destruct (edit_open_calm w incident_id (admin_id s) incident status
              Hc Hinc Hst Hopen Hmine) as [reason He].
  destruct (incident_of_rows _ _ _ Hinc) as [others Hfound].
  unfold mark_pending. rewrite Hid. cbn [negb].
  rewrite (bind_ok _ _ _ _ _ He). cbn [negb].
  rewrite (try_bind_ok _ _ _ _ _ _ (select_calm _ _ _ Hc)).
  rewrite Hfound.
  rewrite (try_bind_ok _ _ _ _ _ _ (update_calm _ _ _ _ Hc)).
  fold (pending_update_data clk s).
  destruct (updated_rows_nonempty (pending_update_data clk s) _ _ _ Hinc)
    as (r' & rest & ->).
  rewrite incident_of_kept.
  - apply incident_of_updated; [reflexivity | exact Hinc].
  - pose proof (log_admin_activity_same clk). repeat same_step.
Qed.

Lemma mark_resolved_updates (clk : clock) (s : session) (w : world)
    (incident_id summary : pyval) (wants_json : bool) (incident : row)
    (status text : string) :
  faults w = [] ->
  truthy incident_id = true ->
  stripped_text summary = Ok text ->
  text <> "" ->
  incident_of w incident_id = Some incident ->
  get incident "icd_status" = PyStr status ->
  status = "Active" \/ status = "Pending" ->
  assigned_to_other (admin_id s) incident = false ->
  incident_of
    (snd (mark_resolved clk (Some s) incident_id summary wants_json w))
    incident_id
  = Some (resolved_update_data clk s ∪ incident).
Proof.
  intros Hc Hid Htext Hnonempty Hinc Hst Hopen Hmine.
  destruct (edit_open_calm w incident_id (admin_id s) incident status
              Hc Hinc Hst Hopen Hmine) as [reason He].
  unfold mark_resolved. rewrite Htext, Hid. cbn [negb].
  apply String.eqb_neq in Hnonempty. rewrite Hnonempty.
  rewrite (bind_ok _ _ _ _ _ He). cbn [negb].
  rewrite (try_bind_ok _ _ _ _ _ _ (select_calm _ _ _ Hc)).
  rewrite (try_bind_ok _ _ _ _ _ _ (update_calm _ _ _ _ Hc)).
  fold (resolved_update_data clk s).
  destruct (updated_rows_nonempty (resolved_update_data clk s) _ _ _ Hinc)
    as (r' & rest & ->).
  rewrite incident_of_kept.
  - apply incident_of_updated; [reflexivity | exact Hinc].
  - apply keeps_try_catch;
      [exact same_incidents_trans | apply after_resolved_same |].
    intros e. destruct wants_json; same_step.
Qed.

Lemma bulk_status_update_one_updates (clk : clock) (s : session) (w : world)
    (new_status incident_id : pyval) (incident : row) (status : string) :
  faults w = [] ->
  incident_of w incident_id = Some incident ->
  get incident "icd_status" = PyStr status ->
  status = "Active" \/ status = "Pending" ->
  assigned_to_other (admin_id s) incident = false ->
  incident_of (snd (bulk_status_update_one clk s new_status incident_id w))
    incident_id
  = Some (bulk_update_data clk s new_status ∪ incident).
Proof.
  intros Hc Hinc Hst Hopen Hmine.
  destruct (edit_open_calm w incident_id (admin_id s) incident status
              Hc Hinc Hst Hopen Hmine) as [reason He].
  unfold bulk_status_update_one.
  rewrite (try_bind_ok _ _ _ _ _ _ He). cbn [negb].
  rewrite (try_bind_ok _ _ _ _ _ _ (update_calm _ _ _ _ Hc)).
  rewrite incident_of_kept.
  - apply incident_of_updated; [| exact Hinc].
    unfold bulk_update_data.
    destruct (pyval_eqb new_status (PyStr "Resolved"));
      [| destruct (pyval_eqb new_status (PyStr "Pending"));
         [| destruct (pyval_eqb new_status (PyStr "Cancelled"))]];
      reflexivity.
  - pose proof (log_incident_change_same incident_id). repeat same_step.
Qed.

(** *** Timestamp columns under the transitions *)

Lemma bulk_update_data_resets (clk : clock) (s : session)
    (new_status : pyval) (r : row) :
  get (bulk_update_data clk s new_status ∪ r) "icd_status" = new_status
  /\ timestamps_reset new_status (now_iso clk)
       (bulk_update_data clk s new_status ∪ r).
Proof.
  unfold timestamps_reset, timestamp_column, bulk_update_data. split.
  - rewrite get_patched.
    destruct (pyval_eqb new_status (PyStr "Resolved"));
      [| destruct (pyval_eqb new_status (PyStr "Pending"));
         [| destruct (pyval_eqb new_status (PyStr "Cancelled"))]];
      reflexivity.
  - intros c Hc. rewrite get_patched.
    destruct (pyval_eqb new_status (PyStr "Resolved"));
      [| destruct (pyval_eqb new_status (PyStr "Pending"));
         [| destruct (pyval_eqb new_status (PyStr "Cancelled"))]];
      simpl in Hc; destruct Hc as [<- | [<- | [<- | []]]]; reflexivity.
Qed.

Lemma single_update_keeps_siblings (patch r : row) (own : string) :
  (forall c, In c STATUS_TIMESTAMPS -> c <> own -> patch !! c = None) ->
  siblings_kept own r (patch ∪ r).
Proof.
  intros Hnone c Hc Hne. rewrite get_patched, (Hnone c Hc Hne). reflexivity.
Qed.

Lemma resolved_update_data_columns (clk : clock) (s : session) (r : row) :
  get (resolved_update_data clk s ∪ r) "icd_status" = PyStr "Resolved"
  /\ get (resolved_update_data clk s ∪ r) "resolved_timestamp"
     = PyStr (now_iso clk)
  /\ siblings_kept "resolved_timestamp" r (resolved_update_data clk s ∪ r).
Proof.
  split; [| split]; try (rewrite get_patched; reflexivity).
  apply single_update_keeps_siblings. intros c Hc Hne. simpl in Hc.
  destruct Hc as [<- | [<- | [<- | []]]]; try reflexivity; contradiction.
Qed.

Lemma pending_update_data_columns (clk : clock) (s : session) (r : row) :
  get (pending_update_data clk s ∪ r) "icd_status" = PyStr "Pending"
  /\ get (pending_update_data clk s ∪ r) "pending_timestamp"
     = PyStr (now_iso clk)
  /\ siblings_kept "pending_timestamp" r (pending_update_data clk s ∪ r).
Proof.
  split; [| split]; try (rewrite get_patched; reflexivity).
  apply single_update_keeps_siblings. intros c Hc Hne. simpl in Hc.
  destruct Hc as [<- | [<- | [<- | []]]]; try reflexivity; contradiction.
Qed.

Lemma cancelled_update_data_columns (clk : clock) (s : session) (r : row) :
  get (cancelled_update_data clk s ∪ r) "icd_status" = PyStr "Cancelled"
  /\ get (cancelled_update_data clk s ∪ r) "cancelled_timestamp"
     = PyStr (now_iso clk)
  /\ siblings_kept "cancelled_timestamp" r (cancelled_update_data clk s ∪ r).
Proof.
  split; [| split]; try (rewrite get_patched; reflexivity).
  apply single_update_keeps_siblings. intros c Hc Hne. simpl in Hc.
  destruct Hc as [<- | [<- | [<- | []]]]; try reflexivity; contradiction.
Qed.

Lemma siblings_kept_refl (own : string) (r : row) : siblings_kept own r r.
Proof. intros c _ _. reflexivity. Qed.

Lemma patched_rows_effect (patch : row) (P : row -> row -> Prop)
    (w w' : world) :
  (forall r, P r r) ->
  (forall r, P r (patch ∪ r)) ->
  patched_by patch w w' ->
  Forall2 P (rows_of w INCIDENTS) (rows_of w' INCIDENTS).
Proof.
  intros Hrefl Hpatch. unfold patched_by. intros H.
  eapply Forall2_impl; [exact H |]. intros r r' [-> | ->]; auto.
Qed.

Lemma bulk_update_data_keeps_id (clk : clock) (s : session)
    (new_status : pyval) :
  bulk_update_data clk s new_status !! "icd_id" = None.
Proof.
  unfold bulk_update_data.
  destruct (pyval_eqb new_status (PyStr "Resolved"));
    [| destruct (pyval_eqb new_status (PyStr "Pending"));
       [| destruct (pyval_eqb new_status (PyStr "Cancelled"))]];
    reflexivity.
Qed.

Lemma guarded_never_raises {A} (m : M A) (f : string -> A) (w : world) :
  exists a, fst (try_catch m (fun e => ret (f e)) w) = Ok a.
Proof.
  unfold try_catch. destruct (m w) as [[a | e] w']; eauto.
Qed.

(** *** The bulk path, incident by incident *)

Lemma stays_calm_refl (w : world) : stays_calm w w.
Proof. intros H. exact H. Qed.

Lemma stays_calm_trans (a b c : world) :
  stays_calm a b -> stays_calm b c -> stays_calm a c.
Proof. unfold stays_calm. auto. Qed.

Lemma execute_stays_calm {A} (op : world -> A * world) :
  (forall w, faults (snd (op w)) = faults w) -> keeps stays_calm (execute op).
Proof.
  intros Hop.
  apply keeps_execute; [exact stays_calm_trans | |].
  - intros w Hc. unfold advance. cbn [faults]. rewrite Hc. reflexivity.
  - intros w Hc. rewrite Hop. exact Hc.
Qed.

Ltac calm_step :=
  first
    [ apply keeps_ret; exact stays_calm_refl
    | apply keeps_raise; exact stays_calm_refl
    | apply execute_stays_calm; intros ?; reflexivity
    | apply keeps_bind; [exact stays_calm_trans | | intros ?]
    | apply keeps_try_catch; [exact stays_calm_trans | | intros ?]
    | case_split_head ].

Lemma bulk_status_update_one_stays_calm (clk : clock) (s : session)
    (new_status incident_id : pyval) :
  keeps stays_calm (bulk_status_update_one clk s new_status incident_id).
Proof.
  unfold bulk_status_update_one, can_admin_edit_incident, log_incident_change,
    select, update, insert.
  repeat calm_step.
Qed.

Lemma bulk_status_update_one_never_raises (clk : clock) (s : session)
    (new_status incident_id : pyval) (w : world) :
  exists r, fst (bulk_status_update_one clk s new_status incident_id w) = Ok r.
Proof. apply guarded_never_raises. Qed.

Lemma incident_of_patched (patch : row) (w w' : world) (incident_id : pyval)
    (r : row) :
  patch !! "icd_id" = None ->
  patched_by patch w w' ->
  incident_of w incident_id = Some r ->
  incident_of w' incident_id = Some r
  \/ incident_of w' incident_id = Some (patch ∪ r).
Proof.
  unfold patched_by, incident_of. intros Hnone H.
  induction H as [|x x' l l' Hx _ IH]; cbn [List.filter]; [discriminate |].
  assert (Hsame : eq_filter "icd_id" incident_id x'
                  = eq_filter "icd_id" incident_id x).
  { destruct Hx as [-> | ->]; [reflexivity |].
    apply eq_filter_patched. exact Hnone. }
  rewrite Hsame. destruct (eq_filter "icd_id" incident_id x); [| exact IH].
  simpl. intros [= <-]. destruct Hx as [-> | ->]; auto.
Qed.

(** One turn of the loop, in a store that answers: the incident is
    overwritten when the admin may edit it and left alone when not. *)
Lemma bulk_status_update_one_calm (clk : clock) (s : session)
    (new_status incident_id : pyval) (w : world) (current : row) :
  faults w = [] ->
  incident_of w incident_id = Some current ->
  incident_of (snd (bulk_status_update_one clk s new_status incident_id w))
    incident_id
  = Some (if editable_by (admin_id s) current
          then bulk_update_data clk s new_status ∪ current
          else current).
Proof.
  intros Hc Hinc.
  destruct (edit_decision w incident_id (admin_id s) current
              (calm_next_ok _ Hc) Hinc) as [reason He].
  rewrite advance_calm in He by exact Hc.
  unfold bulk_status_update_one. rewrite (try_bind_ok _ _ _ _ _ _ He).
  destruct (editable_by (admin_id s) current); cbn [negb].
  - rewrite (try_bind_ok _ _ _ _ _ _ (update_calm _ _ _ _ Hc)).
    rewrite incident_of_kept.
    + apply incident_of_updated;
        [apply bulk_update_data_keeps_id | exact Hinc].
    + pose proof (log_incident_change_same incident_id). repeat same_step.
  - exact Hinc.
Qed.

(** The whole loop: every listed incident the admin may edit ends up
    overwritten with the update dict. *)
Lemma bulk_status_update_resets (clk : clock) (s : session)
    (new_status incident_id : pyval) (incident : row) :
  editable_by (admin_id s) incident = true ->
  forall incident_ids w,
    faults w = [] ->
    In incident_id incident_ids ->
    incident_of w incident_id = Some incident
    \/ incident_of w incident_id
       = Some (bulk_update_data clk s new_status ∪ incident) ->
    incident_of (snd (bulk_status_update clk s new_status incident_ids w))
      incident_id
    = Some (bulk_update_data clk s new_status ∪ incident).
Proof.
  intros Hedit. set (patch := bulk_update_data clk s new_status).
  assert (Hnone : patch !! "icd_id" = None)
    by apply bulk_update_data_keeps_id.
  induction incident_ids as [|id0 rest IH]; intros w Hc Hin Hcur;
    [contradiction |].
  cbn [bulk_status_update]. unfold bind at 1.
  pose proof (bulk_status_update_one_stays_calm clk s new_status id0 w Hc)
    as Hc1.
  pose proof (bulk_status_update_one_patched clk s new_status id0 w) as Hp1.
  pose proof (bulk_status_update_one_calm clk s new_status id0 w) as Hone.
  destruct (bulk_status_update_one_never_raises clk s new_status id0 w)
    as [res Hres].
  destruct (bulk_status_update_one clk s new_status id0 w) as [[res' | e] w1];
    cbn [fst snd] in *; [| discriminate].
  fold patch in Hp1, Hone.
  assert (Hcur1 : incident_of w1 incident_id = Some incident
                  \/ incident_of w1 incident_id = Some (patch ∪ incident)).
  { destruct Hcur as [Hcur | Hcur];
      destruct (incident_of_patched patch w w1 incident_id _ Hnone Hp1 Hcur)
        as [H | H]; auto.
    rewrite patch_twice in H. auto. }
  assert (Hdone : incident_of
                    (snd (bulk_status_update clk s new_status rest w1))
                    incident_id
                  = Some (patch ∪ incident)).
  { destruct Hin as [-> | Hin]; [| apply IH; assumption].
    assert (Hnow : incident_of w1 incident_id = Some (patch ∪ incident)).
    { destruct Hcur as [Hcur | Hcur]; rewrite (Hone _ Hc Hcur).
      - rewrite Hedit. reflexivity.
      - destruct (editable_by (admin_id s) (patch ∪ incident));
          [rewrite patch_twice |]; reflexivity. }
    pose proof (bulk_status_update_patched clk s new_status rest w1) as Hrest.
    fold patch in Hrest.
    destruct (incident_of_patched patch _ _ incident_id _ Hnone Hrest Hnow)
      as [H | H]; [exact H |].
    rewrite patch_twice in H. exact H. }
  unfold bind.
  destruct (bulk_status_update clk s new_status rest w1) as [[results | e] w2];
    exact Hdone.
Qed.

Lemma api_bulk_action_status_update (clk : clock) (s : session)
    (incident_ids : list pyval) (reason new_status : pyval) (w : world) :
  incident_ids <> [] ->
  truthy new_status = true ->
  snd (api_bulk_action clk (Some s) (PyStr "status_update") incident_ids
         reason new_status w)
  = snd (bulk_status_update clk s new_status incident_ids w).
Proof.
  intros Hids Hstatus. unfold api_bulk_action.
  destruct incident_ids as [|id0 rest]; [contradiction |].
  change (pyval_eqb (PyStr "status_update") (PyStr "archive")) with false.
  change (pyval_eqb (PyStr "status_update") (PyStr "status_update")) with true.
  cbv iota. rewrite Hstatus. cbn [negb].
  unfold try_catch, bind.
  destruct (bulk_status_update clk s new_status (id0 :: rest) w)
    as [[results | e] w1]; reflexivity.
Qed.

(** C8: the bulk [status_update] overwrites all three status timestamps:
    the one of the target status receives the current time and the others
    become null.  In a store that answers, [api_bulk_action] with the action
    [status_update] does so to every listed incident the admin may edit;
    with any schedule of store failures each row of the incidents table is
    afterwards either untouched or so overwritten.  [mark_resolved],
    [mark_pending] and [mark_cancelled] write only the timestamp of their
    own status and leave the two sibling timestamps of every row as they
    were, again for every world and every schedule; the statements about
    the incident they act on are for a run in which the store does not fail
    and the admin may edit the incident. *)
Theorem C8_bulk_resets_timestamps_single_actions_keep_siblings
    (clk : clock) (s : session) (w : world)
    (incident_id new_status summary : pyval) (wants_json : bool)
    (incident : row) (status text : string) :
  faults w = [] ->
  truthy incident_id = true ->
  stripped_text summary = Ok text ->
  text <> "" ->
  incident_of w incident_id = Some incident ->
  get incident "icd_status" = PyStr status ->
  status = "Active" \/ status = "Pending" ->
  assigned_to_other (admin_id s) incident = false ->
  (forall w0 incident_ids,
      Forall2 (fun r r' => r' = r \/ timestamps_reset new_status (now_iso clk) r')
        (rows_of w0 INCIDENTS)
        (rows_after (bulk_status_update clk s new_status incident_ids) w0))
  /\ (forall incident_ids reason id0 incident0,
        truthy new_status = true ->
        In id0 incident_ids ->
        incident_of w id0 = Some incident0 ->
        editable_by (admin_id s) incident0 = true ->
        let r' := bulk_update_data clk s new_status ∪ incident0 in
        incident_after
          (api_bulk_action clk (Some s) (PyStr "status_update") incident_ids
             reason new_status) w id0
        = Some r'
        /\ get r' "icd_status" = new_status
        /\ timestamps_reset new_status (now_iso clk) r')
  /\ (exists r',
        incident_after (bulk_status_update_one clk s new_status incident_id) w incident_id
        = Some r'
        /\ get r' "icd_status" = new_status
        /\ timestamps_reset new_status (now_iso clk) r')
  /\ (forall w0 id0 summary0 json0,
        Forall2 (siblings_kept "resolved_timestamp")
          (rows_of w0 INCIDENTS)
          (rows_after (mark_resolved clk (Some s) id0 summary0 json0) w0))
  /\ (exists r',
        incident_after (mark_resolved clk (Some s) incident_id summary wants_json) w incident_id
        = Some r'
        /\ get r' "icd_status" = PyStr "Resolved"
        /\ get r' "resolved_timestamp" = PyStr (now_iso clk)
        /\ siblings_kept "resolved_timestamp" incident r')
  /\ (forall w0 id0,
        Forall2 (siblings_kept "pending_timestamp")
          (rows_of w0 INCIDENTS)
          (rows_after (mark_pending clk (Some s) id0) w0))
  /\ (exists r',
        incident_after (mark_pending clk (Some s) incident_id) w incident_id = Some r'
        /\ get r' "icd_status" = PyStr "Pending"
        /\ get r' "pending_timestamp" = PyStr (now_iso clk)
        /\ siblings_kept "pending_timestamp" incident r')
  /\ (forall w0 id0,
        Forall2 (siblings_kept "cancelled_timestamp")
          (rows_of w0 INCIDENTS)
          (rows_after (mark_cancelled clk (Some s) id0) w0))
  /\ (exists r',
        incident_after (mark_cancelled clk (Some s) incident_id) w incident_id = Some r'
        /\ get r' "icd_status" = PyStr "Cancelled"
        /\ get r' "cancelled_timestamp" = PyStr (now_iso clk)
        /\ siblings_kept "cancelled_timestamp" incident r').
Proof.
  intros Hc Hid Htext Hnonempty Hinc Hst Hopen Hmine.
  unfold rows_after, incident_after.
  refine (conj _ (conj _ (conj _ (conj _ (conj _ (conj _ (conj _ (conj _ _)))))))).
  - intros w0 ids.
    apply (patched_rows_effect (bulk_update_data clk s new_status)).
    + auto.
    + intros r. right. apply bulk_update_data_resets.
    + apply bulk_status_update_patched.
  - intros ids reason id0 incident0 Hstatus Hin Hinc0 Hedit0. cbv zeta.
    rewrite api_bulk_action_status_update;
      [| intros ->; contradiction | exact Hstatus].
    rewrite (bulk_status_update_resets clk s new_status id0 incident0 Hedit0
               ids w Hc Hin (or_introl Hinc0)).
    split; [reflexivity |]. apply bulk_update_data_resets.
  - erewrite bulk_status_update_one_updates by eassumption.
    eexists. split; [reflexivity |]. apply bulk_update_data_resets.
  - intros w0 id0 summary0 json0.
    apply (patched_rows_effect (resolved_update_data clk s)).
    + apply siblings_kept_refl.
    + intros r. apply resolved_update_data_columns.
    + apply mark_resolved_patched.
  - erewrite mark_resolved_updates by eassumption.
    eexists. split; [reflexivity |]. apply resolved_update_data_columns.
  - intros w0 id0.
    apply (patched_rows_effect (pending_update_data clk s)).
    + apply siblings_kept_refl.
    + intros r. apply pending_update_data_columns.
    + apply mark_pending_patched.
  - erewrite mark_pending_updates by eassumption.
    eexists. split; [reflexivity |]. apply pending_update_data_columns.
  - intros w0 id0.
    apply (patched_rows_effect (cancelled_update_data clk s)).
    + apply siblings_kept_refl.
    + intros r. apply cancelled_update_data_columns.
    + apply mark_cancelled_patched.
  - erewrite mark_cancelled_updates by eassumption.
    eexists. split; [reflexivity |]. apply cancelled_update_data_columns.
Qed.

Lemma C8_bulk_resets_timestamps_single_actions_keep_siblings_witness :
  let r' :=
    bulk_update_data sample_clock admin_x (PyStr "Resolved") ∪ icd_pending_x in
  incident_after
    (api_bulk_action sample_clock (Some admin_x) (PyStr "status_update")
       [PyStr "ICD001"; PyStr "ICD002"] PyNone (PyStr "Resolved"))
    sample_world (PyStr "ICD002")
  = Some r'
  /\ get r' "icd_status" = PyStr "Resolved"
  /\ timestamps_reset (PyStr "Resolved") (now_iso sample_clock) r'.
Proof.
  apply (proj1 (proj2
           (C8_bulk_resets_timestamps_single_actions_keep_siblings
              sample_clock admin_x sample_world (PyStr "ICD002")
              (PyStr "Resolved") (PyStr "Handled on site") true icd_pending_x
              "Pending" "Handled on site"
              eq_refl eq_refl eq_refl ltac:(discriminate) eq_refl eq_refl
              (or_intror eq_refl) eq_refl))
           [PyStr "ICD001"; PyStr "ICD002"] PyNone (PyStr "ICD002")
           icd_pending_x eq_refl (or_intror (or_introl eq_refl)) eq_refl
           eq_refl).
Defined.

(** A stale sibling survives the single action and not the bulk path: an
    incident that was Pending keeps its [pending_timestamp] when it is
    resolved by [mark_resolved], and loses it when resolved in bulk. *)
Example stale_pending_timestamp :
  let pending :=
    <["pending_timestamp" := PyStr "2024-04-30T09:00:00+08:00"]> icd_pending_x in
  let w := World (<[INCIDENTS := [pending]]> ∅) [] in
  option_map (fun r => get r "pending_timestamp")
    (incident_after (mark_resolved sample_clock (Some admin_x) (PyStr "ICD002")
                       (PyStr "Handled on site") true) w (PyStr "ICD002"))
  = Some (PyStr "2024-04-30T09:00:00+08:00")
  /\ option_map (fun r => get r "pending_timestamp")
       (incident_after (bulk_status_update sample_clock admin_x
                          (PyStr "Resolved") [PyStr "ICD002"]) w
          (PyStr "ICD002"))
     = Some PyNone.
Proof. split; reflexivity. Qed.

(** *** Archiving *)

Lemma bind_returns {A B} (m : M A) (k : A -> M B) (w : world) (b : B) :
  fst (bind m k w) = Ok b ->
  exists a w', m w = (Ok a, w') /\ fst (k a w') = Ok b.
Proof.
  unfold bind. destruct (m w) as [[a | e] w']; simpl.
  - eauto.
  - discriminate.
Qed.

Lemma try_catch_returns {A} (m : M A) (h : string -> M A) (w : world) (a : A) :
  fst (try_catch m h w) = Ok a ->
  fst (m w) = Ok a
  \/ exists e w', m w = (Raise e, w') /\ fst (h e w') = Ok a.
Proof.
  unfold try_catch. destruct (m w) as [[x | e] w']; simpl; eauto.
Qed.

(** Whenever [archive_incident] reports success its message is the same
    fixed text. *)
Lemma archive_incident_success_message (clk : clock)
    (incident_id admin_id reason : pyval) (w : world) (message : string) :
  fst (archive_incident clk incident_id admin_id reason w) = Ok (true, message) ->
  message = "Incident archived successfully".
Proof.
  unfold archive_incident. intros H.
  apply try_catch_returns in H as [H | (e & w' & _ & H)];
    [| inversion H].
  apply bind_returns in H as (rows & w1 & _ & H).
  destruct rows as [|incident rest]; [inversion H |].
  apply bind_returns in H as (existing & w2 & _ & H).
  apply bind_returns in H as (inserted & w3 & _ & H).
  apply bind_returns in H as (u & w4 & _ & H).
  apply bind_returns in H as (deleted & w5 & _ & H).
  apply bind_returns in H as (logged & w6 & _ & H).
  inversion H. reflexivity.
Qed.

(** C9 (the code departs from it): when the id of the incident is already
    in the archive table, the archive copy is stored under
    [<original>_ARCHIVED_<timestamp>] and the live row is deleted, but the
    message handed back is the one of an archival without any collision: it
    does not say that the id was remapped. *)
Theorem C9_archive_collision_message_is_silent :
  let collided := archive_incident sample_clock (PyStr "ICD001") (PyStr "ADM-X")
                    PyNone collision_world in
  let plain := archive_incident sample_clock (PyStr "ICD001") (PyStr "ADM-X")
                 PyNone sample_world in
  archive_ids collision_world = [PyStr "ICD001"]
  /\ archive_ids (snd collided)
     = [PyStr "ICD001"; PyStr "ICD001_ARCHIVED_20240501180000"]
  /\ incident_of (snd collided) (PyStr "ICD001") = None
  /\ archive_ids (snd plain) = [PyStr "ICD001"]
  /\ fst collided = Ok (true, "Incident archived successfully")
  /\ fst plain = Ok (true, "Incident archived successfully").
Proof. repeat split; reflexivity. Qed.

(** *** Timestamp parsing *)

Section ParserFacts.

Variable fromisoformat : string -> option datetime.
Variable strptime : string -> option datetime.
Variable early_offset : Z -> Z.
Variable edge_localize : datetime -> result datetime.

Lemma _parse_datetime_never_raises (value : tsval) :
  exists r, _parse_datetime fromisoformat early_offset value = Ok r.
Proof.
  unfold _parse_datetime.
  destruct (negb (ts_truthy value)); [eauto |].
  destruct value as [v | d]; simpl.
  - unfold parse_with.
    destruct (fromisoformat _) as [d |]; simpl; [| eauto].
    destruct (astimezone _ _); simpl; eauto.
  - destruct (astimezone _ _); simpl; eauto.
Qed.

Lemma parse_timestamp_never_raises (ts : tsval) :
  exists r, parse_timestamp fromisoformat strptime early_offset edge_localize
              ts = Ok r.
Proof.
  unfold parse_timestamp.
  destruct (negb (ts_truthy ts)); [eauto |].
  unfold rtry.
  destruct (rbind _ _); eauto.
Qed.

Lemma parsers_absent_value (value : tsval) :
  ts_truthy value = false ->
  _parse_datetime fromisoformat early_offset value = Ok None
  /\ parse_timestamp fromisoformat strptime early_offset edge_localize
       value = Ok None.
Proof.
  intros H. unfold _parse_datetime, parse_timestamp. rewrite H. auto.
Qed.

Lemma _parse_datetime_unparseable (v : pyval) :
  fromisoformat (if endswith_char "Z" (str v) then replace_Z (str v)
                 else str v) = None ->
  _parse_datetime fromisoformat early_offset (TsVal v) = Ok None.
Proof.
  intros H. unfold _parse_datetime.
  destruct (negb (ts_truthy (TsVal v))); [reflexivity |].
  unfold parse_with. rewrite H. reflexivity.
Qed.

Lemma parse_timestamp_unparseable (s : string) :
  fromisoformat (replace_Z s) = None ->
  strptime (take_chars 19 s) = None ->
  parse_timestamp fromisoformat strptime early_offset edge_localize
    (TsVal (PyStr s)) = Ok None.
Proof.
  intros Hiso Hstrp. unfold parse_timestamp.
  destruct (negb (ts_truthy (TsVal (PyStr s)))); [reflexivity |].
  unfold parse_with. rewrite Hiso, Hstrp.
  destruct (contains "T" s); reflexivity.
Qed.

(** The shared normaliser reads a naive value on the UTC clock. *)
Lemma _parse_datetime_naive_is_utc (d : datetime) :
  tzinfo d = None ->
  MANILA_SETTLED <= wall d ->
  in_range (wall d) && in_range (wall d + PHILIPPINES_TZ) = true ->
  _parse_datetime fromisoformat early_offset (TsDatetime d)
  = Ok (Some (Datetime (wall d + PHILIPPINES_TZ) (Some PHILIPPINES_TZ)))
  /\ instant (Datetime (wall d + PHILIPPINES_TZ) (Some PHILIPPINES_TZ))
     = Some (wall d).
Proof.
  intros Hnaive Hsettled Hrange. unfold _parse_datetime. simpl.
  rewrite Hnaive. unfold astimezone, manila_offset, instant, UTC. simpl.
  replace (wall d - 0) with (wall d) by lia.
  apply Z.leb_le in Hsettled. rewrite Hsettled, Hrange. simpl.
  split; [reflexivity | f_equal; lia].
Qed.

(** The feed's parser reads a naive value on the Manila clock. *)
Lemma parse_timestamp_naive_is_local (d : datetime) :
  tzinfo d = None ->
  (MANILA_SETTLED + DAY <=? wall d) && (wall d + DAY <=? MAX_WALL) = true ->
  parse_timestamp fromisoformat strptime early_offset edge_localize
    (TsDatetime d)
  = Ok (Some (Datetime (wall d) (Some PHILIPPINES_TZ)))
  /\ instant (Datetime (wall d) (Some PHILIPPINES_TZ))
     = Some (wall d - PHILIPPINES_TZ).
Proof.
  intros Hnaive Hrange. unfold parse_timestamp. simpl. rewrite Hnaive.
  unfold localize. rewrite Hnaive, Hrange. simpl. split; reflexivity.
Qed.

End ParserFacts.

(** C5 (the code departs from it): the two parsers disagree on a timestamp
    without zone.  For the text 2024-05-01T10:00:00, and for the naive
    [datetime] it denotes, [_parse_datetime] takes the reading as UTC and
    answers 18:00 Manila time, while the feed's [parse_timestamp] attaches
    the Manila zone to the reading and answers 10:00 Manila time, an instant
    eight hours earlier. *)
Theorem C5_feed_parser_reads_naive_as_manila_time
    (fromisoformat strptime : string -> option datetime)
    (early_offset : Z -> Z) (edge_localize : datetime -> result datetime) :
  fromisoformat naive_text = Some naive_10am ->
  let as_utc :=
    Datetime (wall naive_10am + PHILIPPINES_TZ) (Some PHILIPPINES_TZ) in
  let as_local := Datetime (wall naive_10am) (Some PHILIPPINES_TZ) in
  _parse_datetime fromisoformat early_offset
    (TsVal (PyStr naive_text)) = Ok (Some as_utc)
  /\ parse_timestamp fromisoformat strptime early_offset edge_localize
       (TsVal (PyStr naive_text))
     = Ok (Some as_local)
  /\ _parse_datetime fromisoformat early_offset
       (TsDatetime naive_10am) = Ok (Some as_utc)
  /\ parse_timestamp fromisoformat strptime early_offset edge_localize
       (TsDatetime naive_10am)
     = Ok (Some as_local)
  /\ instant as_utc = Some (wall naive_10am)
  /\ instant as_local = Some (wall naive_10am - 8 * HOUR).
Proof.
  intros Hparse. cbv zeta. unfold naive_text in *.
  unfold _parse_datetime, parse_timestamp, parse_with. simpl.
  rewrite Hparse. repeat split; reflexivity.
Qed.

Lemma C5_feed_parser_reads_naive_as_manila_time_witness :
  let as_utc :=
    Datetime (wall naive_10am + PHILIPPINES_TZ) (Some PHILIPPINES_TZ) in
  let as_local := Datetime (wall naive_10am) (Some PHILIPPINES_TZ) in
  _parse_datetime sample_fromisoformat sample_early_offset
    (TsVal (PyStr naive_text))
  = Ok (Some as_utc)
  /\ parse_timestamp sample_fromisoformat no_parser sample_early_offset
       sample_edge_localize (TsVal (PyStr naive_text))
     = Ok (Some as_local)
  /\ _parse_datetime sample_fromisoformat sample_early_offset
       (TsDatetime naive_10am)
     = Ok (Some as_utc)
  /\ parse_timestamp sample_fromisoformat no_parser sample_early_offset
       sample_edge_localize (TsDatetime naive_10am)
     = Ok (Some as_local)
  /\ instant as_utc = Some (wall naive_10am)
  /\ instant as_local = Some (wall naive_10am - 8 * HOUR).
Proof.
  apply (C5_feed_parser_reads_naive_as_manila_time sample_fromisoformat
           no_parser sample_early_offset sample_edge_localize).
  reflexivity.
Defined.

(** *** Decimal text *)

Lemma str_nonneg (m : Z) :
  0 <= m -> str (PyInt m) = NilEmpty.string_of_uint (N.to_uint (Z.to_N m)).
Proof.
  intros Hm. unfold str. destruct m as [|p|p]; try lia; simpl.
  - reflexivity.
  - pose proof (DecimalPos.Unsigned.to_uint_nonnil p) as Hnil.
    destruct (Pos.to_uint p); try reflexivity. contradiction.
Qed.

Lemma length_string_of_uint (u : uint) :
  String.length (NilEmpty.string_of_uint u) = nb_digits u.
Proof. induction u; simpl; congruence. Qed.

Lemma string_of_uint_decimal (u : uint) :
  sforall isdecimal (NilEmpty.string_of_uint u) = true.
Proof. induction u; simpl; auto. Qed.

Lemma of_uint_acc_lower (d : uint) (acc : positive) :
  (N.pos acc * 10 ^ N.of_nat (nb_digits d) <= N.pos (Pos.of_uint_acc d acc))%N.
Proof.
  revert acc. induction d; intros acc; simpl nb_digits; simpl Pos.of_uint_acc;
    try (simpl; lia);
    rewrite Nat2N.inj_succ, N.pow_succ_r';
    (etransitivity; [| apply IHd]); nia.
Qed.

Lemma unorm_fixed_head (u : uint) :
  unorm u = u -> u = zero \/ exists l, nb_digits u = S (nb_digits l) /\
     (10 ^ N.of_nat (nb_digits l) <= N.of_uint u)%N.
Proof.
  intros Hfix.
  destruct u as [|l|l|l|l|l|l|l|l|l|l];
    try (right; exists l; split; [reflexivity |];
         simpl; pose proof (of_uint_acc_lower l 1);
         etransitivity; [| apply of_uint_acc_lower]; lia).
  - discriminate.
  - left. unfold unorm in Hfix. simpl in Hfix.
    destruct (nzhead l) eqn:Hnz; try discriminate.
    + exact (eq_sym Hfix).
    + exfalso. apply (nzhead_nonzero l u). exact Hnz.
Qed.

Lemma to_uint_digits (n : N) (k : nat) :
  (n < 10 ^ N.of_nat (S k))%N -> (nb_digits (N.to_uint n) <= S k)%nat.
Proof.
  intros Hlt.
  destruct (unorm_fixed_head (N.to_uint n)) as [Hz | (l & Hlen & Hlow)].
  - rewrite <- DecimalN.Unsigned.to_of, DecimalN.Unsigned.of_to. reflexivity.
  - rewrite Hz. simpl. lia.
  - rewrite DecimalN.Unsigned.of_to in Hlow. rewrite Hlen.
    apply le_n_S.
    destruct (Nat.le_gt_cases (nb_digits l) k) as [H | H];
      [exact H | exfalso].
    assert (10 ^ N.of_nat (S k) <= 10 ^ N.of_nat (nb_digits l))%N.
    { apply N.pow_le_mono_r; lia. }
    lia.
Qed.

Lemma length_zeros (k : nat) : String.length (zeros k) = k.
Proof. induction k as [|k IH]; simpl; [reflexivity | rewrite IH; reflexivity]. Qed.

Lemma length_append (s t : string) :
  String.length (s ++ t) = (String.length s + String.length t)%nat.
Proof.
  induction s as [|c s IH]; [reflexivity |].
  change (String c s ++ t) with (String c (s ++ t)). simpl.
  rewrite IH. reflexivity.
Qed.

Lemma padded_digits_at_least (w : nat) (m : Z) :
  (w <= String.length (padded_digits w m))%nat.
Proof.
  unfold padded_digits. rewrite length_append, length_zeros. lia.
Qed.


Lemma sforall_append (p : ascii -> bool) (s t : string) :
  sforall p (s ++ t) = (sforall p s && sforall p t)%bool.
Proof.
  induction s as [|c s IH]; [reflexivity |].
  change (String c s ++ t) with (String c (s ++ t)). simpl.
  rewrite IH, andb_assoc. reflexivity.
Qed.

Lemma sforall_zeros (k : nat) : sforall isdecimal (zeros k) = true.
Proof. induction k; simpl; auto. Qed.

Lemma uint_of_zeros (k : nat) (s : string) :
  NilEmpty.uint_of_string (zeros k ++ s)
  = option_map (Nat.iter k D0) (NilEmpty.uint_of_string s).
Proof.
  induction k as [|k IH].
  - change (zeros 0 ++ s) with s.
    destruct (NilEmpty.uint_of_string s); reflexivity.
  - change (zeros (S k) ++ s) with (String "0" (zeros k ++ s)).
    cbn [NilEmpty.uint_of_string]. rewrite IH.
    destruct (NilEmpty.uint_of_string s); reflexivity.
Qed.

Lemma of_uint_zeros (k : nat) (u : uint) :
  N.of_uint (Nat.iter k D0 u) = N.of_uint u.
Proof. induction k; simpl; auto. Qed.

(** Reading back what the formatter printed gives the number. *)
Lemma int_of_padded_text (w : nat) (m : Z) :
  0 <= m ->
  (String.length (padded_digits w m) <= MAX_STR_DIGITS)%nat ->
  int_of_string (padded_digits w m) = Some m.
Proof.
  intros Hm Hlen. unfold int_of_string.
  apply Nat.leb_le in Hlen. rewrite Hlen. unfold padded_digits.
  rewrite str_nonneg by exact Hm.
  rewrite sforall_append, sforall_zeros, string_of_uint_decimal.
  cbn [andb].
  set (u := N.to_uint (Z.to_N m)).
  assert (Hne : NilEmpty.string_of_uint u <> "").
  { unfold u. destruct (Z.to_N m) as [|p]; simpl; [discriminate |].
    pose proof (DecimalPos.Unsigned.to_uint_nonnil p).
    destruct (Pos.to_uint p); simpl; try discriminate. contradiction. }
  assert (Hnz : NilZero.uint_of_string
                  (zeros (w - String.length (NilEmpty.string_of_uint u))
                   ++ NilEmpty.string_of_uint u)
                = NilEmpty.uint_of_string
                    (zeros (w - String.length (NilEmpty.string_of_uint u))
                     ++ NilEmpty.string_of_uint u)).
  { destruct (zeros _); simpl; [| reflexivity].
    destruct (NilEmpty.string_of_uint u); [contradiction | reflexivity]. }
  rewrite Hnz, uint_of_zeros, NilEmpty.usu. simpl.
  rewrite of_uint_zeros. unfold u.
  rewrite DecimalN.Unsigned.of_to. f_equal. lia.
Qed.

Lemma decimal_char (c : ascii) (u : uint) :
  isdecimal c = true -> exists u', uint_of_char c (Some u) = Some u'.
Proof.
  destruct c as [[] [] [] [] [] [] [] []]; try discriminate; simpl; eauto.
Qed.

Lemma uint_of_decimal (s : string) :
  sforall isdecimal s = true -> exists u, NilEmpty.uint_of_string s = Some u.
Proof.
  induction s as [|c s IH]; simpl; [eauto |].
  intros H. apply andb_prop in H as [Hc Hs].
  destruct (IH Hs) as [u ->]. apply decimal_char. exact Hc.
Qed.

Lemma int_of_decimal (s : string) :
  s <> "" -> sforall isdecimal s = true ->
  (String.length s <= MAX_STR_DIGITS)%nat ->
  exists n, int_of_string s = Some n /\ 0 <= n.
Proof.
  intros Hne Hdec Hlen. unfold int_of_string. rewrite Hdec.
  apply Nat.leb_le in Hlen. rewrite Hlen. cbn [andb].
  destruct (uint_of_decimal s Hdec) as [u Hu].
  destruct s; [contradiction |]. unfold NilZero.uint_of_string. rewrite Hu.
  simpl. eexists. split; [reflexivity | lia].
Qed.

Lemma int_of_long_text (s : string) :
  (MAX_STR_DIGITS < String.length s)%nat -> int_of_string s = None.
Proof.
  intros Hlen. unfold int_of_string. apply Nat.leb_gt in Hlen.
  rewrite Hlen, andb_false_r. reflexivity.
Qed.

(** *** Resolution ids *)

Lemma select_newest_ok (t col : string) (w : world) :
  next_ok w ->
  select_newest t col w = (Ok (option_list (newest col (rows_of w t))), advance w).
Proof.
  intros H. unfold select_newest. rewrite execute_ok by exact H. reflexivity.
Qed.

(** *** Numbers that Python prints *)

Lemma of_uint_acc_upper (d : uint) (acc : positive) :
  (N.pos (Pos.of_uint_acc d acc)
   < (N.pos acc + 1) * 10 ^ N.of_nat (nb_digits d))%N.
Proof.
  revert acc. induction d; intros acc; simpl nb_digits; simpl Pos.of_uint_acc;
    try (simpl; lia);
    rewrite Nat2N.inj_succ, N.pow_succ_r';
    (eapply N.lt_le_trans; [apply IHd |]); nia.
Qed.

Lemma of_uint_upper (u : uint) :
  (N.of_uint u < 10 ^ N.of_nat (nb_digits u))%N.
Proof.
  induction u as [|l IH|l _|l _|l _|l _|l _|l _|l _|l _|l _];
    simpl nb_digits; try (rewrite Nat2N.inj_succ, N.pow_succ_r');
    try (simpl; lia);
    try (change (N.of_uint (D0 l)) with (N.of_uint l); nia);
    (unfold N.of_uint, Pos.of_uint;
     eapply N.lt_le_trans; [apply of_uint_acc_upper |]; nia).
Qed.


Lemma uint_of_string_digits (s : string) (u : uint) :
  NilEmpty.uint_of_string s = Some u -> nb_digits u = String.length s.
Proof.
  revert u. induction s as [|c s IH]; intros u H; simpl in H.
  - injection H as <-. reflexivity.
  - destruct (NilEmpty.uint_of_string s) as [u' |].
    + specialize (IH u' eq_refl).
      destruct c as [[] [] [] [] [] [] [] []]; try discriminate;
        injection H as <-; simpl; f_equal; exact IH.
    + destruct c as [[] [] [] [] [] [] [] []]; discriminate.
Qed.

(** The number [int] reads from a text has no more digits than the text. *)
Lemma digits_of_int (s : string) (n : Z) :
  int_of_string s = Some n ->
  0 <= n /\ (String.length (str (PyInt n)) <= String.length s)%nat.
Proof.
  unfold int_of_string. intros H.
  destruct (sforall isdecimal s && (String.length s <=? MAX_STR_DIGITS)%nat)%bool;
    [| discriminate].
  destruct s as [|c s]; [discriminate |].
  unfold NilZero.uint_of_string in H.
  destruct (NilEmpty.uint_of_string (String c s)) as [u |] eqn:Hu;
    [| discriminate].
  injection H as <-. split; [lia |].
  rewrite str_nonneg by lia. rewrite N2Z.id, DecimalN.Unsigned.to_of.
  rewrite length_string_of_uint, <- (uint_of_string_digits _ _ Hu).
  apply nb_digits_unorm. intros ->. discriminate (uint_of_string_digits _ _ Hu).
Qed.


Lemma printable_of_int (s : string) (n : Z) :
  int_of_string s = Some n -> printable n.
Proof.
  intros Hint. destruct (digits_of_int s n Hint) as [_ Hd].
  unfold printable. unfold int_of_string in Hint.
  destruct (sforall isdecimal s); [| discriminate]. cbn [andb] in Hint.
  destruct (Nat.leb_spec (String.length s) MAX_STR_DIGITS); [lia | discriminate].
Qed.

Lemma zero_pad_printable (k : nat) (n : Z) :
  printable n -> zero_pad k n = Some (padded_digits k n).
Proof.
  unfold printable, zero_pad. intros H. apply Nat.leb_le in H. rewrite H.
  reflexivity.
Qed.

Lemma zero_pad_too_long (k : nat) (n : Z) :
  ~ printable n -> zero_pad k n = None.
Proof.
  unfold printable, zero_pad. intros H.
  destruct (Nat.leb_spec (String.length (str (PyInt n))) MAX_STR_DIGITS);
    [contradiction | reflexivity].
Qed.

Lemma length_padded_digits (k : nat) (n : Z) :
  String.length (padded_digits k n)
  = Nat.max k (String.length (str (PyInt n))).
Proof.
  unfold padded_digits. rewrite length_append, length_zeros. lia.
Qed.

Lemma int_of_padded_digits (k : nat) (n : Z) :
  0 <= n -> (k <= MAX_STR_DIGITS)%nat -> printable n ->
  int_of_string (padded_digits k n) = Some n.
Proof.
  intros Hn Hk Hp. apply int_of_padded_text; [exact Hn |].
  rewrite length_padded_digits. unfold printable in Hp. lia.
Qed.

Lemma five_below_limit : (5 <= MAX_STR_DIGITS)%nat.
Proof. unfold MAX_STR_DIGITS. lia. Qed.

Lemma sforall_weaken (p q : ascii -> bool) (s : string) :
  (forall c, p c = true -> q c = true) ->
  sforall p s = true -> sforall q s = true.
Proof.
  intros Hpq. induction s as [|c s IH]; cbn [sforall]; [reflexivity |].
  intros H. apply andb_prop in H as [Hc Hs].
  rewrite (Hpq c Hc), IH by exact Hs. reflexivity.
Qed.

Lemma decimal_isdigit (c : ascii) : isdecimal c = true -> isdigit c = true.
Proof. unfold isdigit. intros ->. reflexivity. Qed.

Lemma padded_digits_decimal (k : nat) (m : Z) :
  0 <= m -> sforall isdecimal (padded_digits k m) = true.
Proof.
  intros Hm. unfold padded_digits. rewrite sforall_append, sforall_zeros.
  rewrite str_nonneg by exact Hm. apply string_of_uint_decimal.
Qed.

Lemma decimal_code (c : ascii) :
  isdecimal c = true -> (48 <= code c <= 57)%N.
Proof.
  unfold isdecimal, between. intros H. apply andb_prop in H as [H1 H2].
  apply N.leb_le in H1, H2. lia.
Qed.

Lemma decimal_upper (c : ascii) : isdecimal c = true -> upper_char c = c.
Proof.
  intros H. apply decimal_code in H. unfold upper_char, between.
  assert (H1 : (97 <=? code c)%N = false) by (apply N.leb_gt; lia).
  rewrite H1. reflexivity.
Qed.

Lemma upper_decimal (s : string) :
  sforall isdecimal s = true -> upper s = s.
Proof.
  unfold upper. induction s as [|c s IH]; [reflexivity |].
  cbn [sforall smap]. intros H. apply andb_prop in H as [Hc Hs].
  rewrite decimal_upper, IH by assumption. reflexivity.
Qed.

Lemma sfilter_all (p : ascii -> bool) (s : string) :
  sforall p s = true -> sfilter p s = s.
Proof.
  induction s as [|c s IH]; [reflexivity |]. cbn [sforall sfilter].
  intros H. apply andb_prop in H as [Hc Hs]. rewrite Hc, IH by exact Hs.
  reflexivity.
Qed.

Lemma int_of_str (n : Z) :
  0 <= n -> printable n -> int_of_string (str (PyInt n)) = Some n.
Proof.
  intros Hn Hp. apply (int_of_padded_digits 0 n Hn); [| exact Hp].
  unfold MAX_STR_DIGITS. lia.
Qed.

Lemma str_decimal (n : Z) :
  0 <= n -> sforall isdecimal (str (PyInt n)) = true.
Proof. intros Hn. apply (padded_digits_decimal 0 n Hn). Qed.

Lemma nonempty_of_int (s : string) (n : Z) :
  int_of_string s = Some n -> s <> "".
Proof. intros H ->. discriminate H. Qed.

Lemma printable_below (n : Z) :
  0 <= n < Z.of_N (10 ^ N.of_nat MAX_STR_DIGITS) -> printable n.
Proof.
  intros Hn. unfold printable. rewrite str_nonneg by lia.
  rewrite length_string_of_uint. apply (to_uint_digits _ 4299).
  change (N.of_nat (S 4299)) with (N.of_nat MAX_STR_DIGITS).
  set (limit := (10 ^ N.of_nat MAX_STR_DIGITS)%N) in *. lia.
Qed.

Lemma not_printable_above (n : Z) :
  Z.of_N (10 ^ N.of_nat MAX_STR_DIGITS) <= n -> ~ printable n.
Proof.
  intros Hn Hp. unfold printable in Hp.
  rewrite str_nonneg, length_string_of_uint in Hp by lia.
  pose proof (of_uint_upper (N.to_uint (Z.to_N n))) as Hup.
  rewrite DecimalN.Unsigned.of_to in Hup.
  assert (Hle : (10 ^ N.of_nat (nb_digits (N.to_uint (Z.to_N n)))
                 <= 10 ^ N.of_nat MAX_STR_DIGITS)%N)
    by (apply N.pow_le_mono_r; lia).
  set (limit := (10 ^ N.of_nat MAX_STR_DIGITS)%N) in *. lia.
Qed.

(** A number from [10 ^ k] on has more than [k] digits. *)
Lemma digits_above (n : N) (k : nat) :
  (10 ^ N.of_nat k <= n)%N -> (k < nb_digits (N.to_uint n))%nat.
Proof.
  intros Hn. pose proof (of_uint_upper (N.to_uint n)) as Hup.
  rewrite DecimalN.Unsigned.of_to in Hup.
  destruct (Nat.le_gt_cases (nb_digits (N.to_uint n)) k) as [Hle | Hgt];
    [exfalso | exact Hgt].
  assert (10 ^ N.of_nat (nb_digits (N.to_uint n)) <= 10 ^ N.of_nat k)%N
    by (apply N.pow_le_mono_r; lia).
  lia.
Qed.

Lemma digits_of_largest (k : nat) :
  nb_digits (N.to_uint (10 ^ N.of_nat (S k) - 1)) = S k.
Proof.
  assert (Hpos : (0 < 10 ^ N.of_nat k)%N)
    by (apply N.neq_0_lt_0, N.pow_nonzero; discriminate).
  assert (Hstep : (10 ^ N.of_nat (S k) = 10 * 10 ^ N.of_nat k)%N)
    by (rewrite Nat2N.inj_succ, N.pow_succ_r'; reflexivity).
  pose proof (to_uint_digits (10 ^ N.of_nat (S k) - 1) k) as Hup.
  pose proof (digits_above (10 ^ N.of_nat (S k) - 1) k) as Hlow.
  set (limit := (10 ^ N.of_nat (S k))%N) in *.
  set (below := (10 ^ N.of_nat k)%N) in *.
  clearbody limit below.
  specialize (Hup ltac:(lia)). specialize (Hlow ltac:(lia)). lia.
Qed.

(** The largest number Python prints has 4300 digits, and the next number
    is not printed. *)
Lemma largest_printed :
  0 <= LARGEST_PRINTED
  /\ printable LARGEST_PRINTED
  /\ ~ printable (LARGEST_PRINTED + 1)
  /\ String.length (str (PyInt LARGEST_PRINTED)) = MAX_STR_DIGITS.
Proof.
  assert (Hpos : (0 < 10 ^ N.of_nat MAX_STR_DIGITS)%N)
    by (apply N.neq_0_lt_0, N.pow_nonzero; discriminate).
  pose proof (digits_of_largest 4299) as Hdigits.
  change (S 4299) with MAX_STR_DIGITS in Hdigits.
  unfold LARGEST_PRINTED.
  set (limit := (10 ^ N.of_nat MAX_STR_DIGITS)%N) in *.
  assert (Hn : 0 <= Z.of_N limit - 1) by lia.
  split; [exact Hn |]. split; [| split].
  - apply printable_below. fold limit. lia.
  - apply not_printable_above. fold limit. lia.
  - rewrite str_nonneg by exact Hn. rewrite length_string_of_uint.
    replace (Z.to_N (Z.of_N limit - 1)) with (limit - 1)%N by lia.
    exact Hdigits.
Qed.

(** *** The next resolution id *)



Lemma startswith_nonempty (s p : string) :
  p <> "" -> startswith s p = true -> s <> "".
Proof.
  intros Hp H ->. destruct p; [contradiction | discriminate].
Qed.

Lemma upper_nonempty (s : string) : upper s <> "" -> s <> "".
Proof. intros H ->. apply H. reflexivity. Qed.

(** The id, or the error, once the last id has given the number [n]. *)
Lemma generate_resolution_id_number (w : world) (r : row) (s : string) (n : Z) :
  next_ok w ->
  latest_report w = Some r ->
  get r "resolved_id" = PyStr s ->
  startswith (upper s) RSV = true ->
  suffix_digits s <> "" ->
  int_of_string (suffix_digits s) = Some n ->
  generate_resolution_id w
  = (match zero_pad 5 (n + 1) with
     | Some digits => Ok (RSV ++ digits)
     | None => Raise EXCEEDS_LIMIT
     end, advance w).
Proof.
  intros Hok Hlast Hid Hprefix Hdigits Hint.
  unfold generate_resolution_id, next_resolution_number.
  unfold bind, try_catch. rewrite select_newest_ok by exact Hok.
  unfold latest_report in Hlast. rewrite Hlast.
  change (option_list (Some r)) with [r].
  cbv beta iota zeta. rewrite Hid, Hprefix.
  assert (Hs : s <> "").
  { apply upper_nonempty. eapply startswith_nonempty; [| exact Hprefix].
    discriminate. }
  apply String.eqb_neq in Hs. cbn [truthy]. rewrite Hs. cbn [negb andb].
  fold (suffix_digits s). apply String.eqb_neq in Hdigits.
  rewrite Hdigits. cbn [negb]. rewrite Hint.
  unfold ret. destruct (zero_pad 5 (n + 1)); reflexivity.
Qed.


Lemma generate_resolution_id_overflow (w : world) (r : row) (s : string)
    (n : Z) :
  next_ok w ->
  latest_report w = Some r ->
  get r "resolved_id" = PyStr s ->
  startswith (upper s) RSV = true ->
  suffix_digits s <> "" ->
  int_of_string (suffix_digits s) = Some n ->
  ~ printable (n + 1) ->
  generate_resolution_id w = (Raise EXCEEDS_LIMIT, advance w).
Proof.
  intros Hok Hlast Hid Hprefix Hdigits Hint Hp.
  rewrite (generate_resolution_id_number w r s n Hok Hlast Hid Hprefix
             Hdigits Hint).
  rewrite zero_pad_too_long by exact Hp. reflexivity.
Qed.



Lemma startswith_rsv (s : string) :
  startswith (upper (RSV ++ s)) RSV = true.
Proof.
  change (upper (RSV ++ s))
    with (String "R" (String "S" (String "V" (upper s)))).
  unfold startswith. destruct (upper s); reflexivity.
Qed.

Lemma generate_resolution_id_raises_after (text : string) (n : Z) :
  int_of_string text = Some n ->
  sforall isdecimal text = true ->
  ~ printable (n + 1) ->
  fst (generate_resolution_id (one_report (RSV ++ text))) = Raise EXCEEDS_LIMIT.
Proof.
  intros Hread Hdec Hover.
  assert (Hsuffix : suffix_digits (RSV ++ text) = text).
  { unfold suffix_digits.
    change (upper (RSV ++ text))
      with (String "R" (String "S" (String "V" (upper text)))).
    cbn [String.length RSV drop_chars].
    rewrite (upper_decimal text Hdec).
    apply sfilter_all, (sforall_weaken isdecimal isdigit _ decimal_isdigit).
    exact Hdec. }
  assert (Hne : suffix_digits (RSV ++ text) <> "")
    by (rewrite Hsuffix; apply (nonempty_of_int _ n), Hread).
  rewrite <- Hsuffix in Hread.
  rewrite (generate_resolution_id_overflow
             (one_report (RSV ++ text))
             (mk_report (RSV ++ text) "2024-05-01T09:00:00+08:00")
             (RSV ++ text) n I eq_refl eq_refl (startswith_rsv text) Hne
             Hread Hover).
  reflexivity.
Qed.

(** The function does raise: after the id with 4300 nines the number is
    read, and the next one cannot be formatted. *)
Example generate_resolution_id_at_the_limit :
  fst (generate_resolution_id
         (one_report (RSV ++ str (PyInt LARGEST_PRINTED))))
  = Raise EXCEEDS_LIMIT.
Proof.
  destruct largest_printed as (Hn & Hp & Hover & _).
  apply (generate_resolution_id_raises_after _ LARGEST_PRINTED).
  - apply int_of_str; assumption.
  - apply str_decimal. exact Hn.
  - exact Hover.
Qed.

Example generate_resolution_id_examples :
  fst (generate_resolution_id two_reports_newest_first) = Ok "RSV00043"
  /\ fst (generate_resolution_id (one_report "rsv00042")) = Ok "RSV00043"
  /\ fst (generate_resolution_id (one_report "RSVABC")) = Ok "RSV00001"
  /\ fst (generate_resolution_id (one_report "ABC00042")) = Ok "RSV00001"
  /\ fst (generate_resolution_id
            (with_faults [Some "connection reset"] two_reports))
     = Ok "RSV00001".
Proof. repeat split; reflexivity. Qed.




(** *** Storing the resolution report *)



Lemma store_report_first_try (rr : row) (p : payload) (w : world) :
  next_ok w ->
  store_report rr p w
  = (Ok (set_stored true p, None),
     set_rows RESOLUTION_REPORTS_TABLE
       (rows_of w RESOLUTION_REPORTS_TABLE ++ [rr]) (advance w)).
Proof.
  intros Hok. unfold store_report, try_catch, bind.
  rewrite insert_ok by exact Hok. reflexivity.
Qed.

Lemma store_report_other_failure (rr : row) (p : payload) (w : world) e fs :
  faults w = Some e :: fs -> duplicate_error e = false ->
  store_report rr p w = (Ok (p, Some e), advance w).
Proof.
  intros Hf Hdup. unfold store_report, try_catch, bind.
  erewrite insert_raise by exact Hf. rewrite Hdup. reflexivity.
Qed.

Ltac table_rows :=
  repeat (rewrite rows_of_set_rows_eq
          || rewrite rows_of_set_rows_ne by discriminate).

Ltac settle_rows :=
  repeat (rewrite rows_of_advance
          || rewrite rows_of_set_rows_eq
          || rewrite rows_of_set_rows_ne by discriminate).

(** The schedule of a world reached after some calls, given the schedule of
    the world the request started in. *)
Ltac scheduled H :=
  unfold next_ok; cbn [faults advance set_rows tl]; rewrite H;
  cbn [tl]; first [exact I | reflexivity].

(** What the retry does, step by step. *)
Lemma store_report_retry (rr : row) (p : payload) (w : world) e fs :
  faults w = Some e :: fs -> duplicate_error e = true ->
  store_report rr p w
  = match generate_resolution_id (advance w) with
    | (Ok retry_id, w2) =>
        match insert RESOLUTION_REPORTS_TABLE
                (<["resolved_id" := PyStr retry_id]> rr) w2 with
        | (Ok _, w3) =>
            (Ok (set_stored true (set_resolved_id retry_id p), None), w3)
        | (Raise e', w3) => (Ok (set_resolved_id retry_id p, Some e'), w3)
        end
    | (Raise e', w2) => (Ok (p, Some e'), w2)
    end.
Proof.
  intros Hf Hdup. unfold store_report, try_catch, bind.
  erewrite insert_raise by exact Hf. rewrite Hdup.
  destruct (generate_resolution_id (advance w)) as [[retry_id | e'] w2];
    [| reflexivity].
  destruct (insert _ _ w2) as [[rows | e'] w3]; reflexivity.
Qed.

Lemma store_report_never_raises (rr : row) (p : payload) (w : world) :
  exists r, fst (store_report rr p w) = Ok r.
Proof.
  destruct (faults w) as [|[e|] fs] eqn:Hf.
  - rewrite store_report_first_try by (unfold next_ok; rewrite Hf; exact I).
    eauto.
  - destruct (duplicate_error e) eqn:Hdup.
    + rewrite (store_report_retry rr p w e fs Hf Hdup).
      destruct (generate_resolution_id (advance w)) as [[retry_id | e'] w2];
        [| eauto].
      destruct (insert _ _ w2) as [[rows | e'] w3]; eauto.
    + rewrite (store_report_other_failure rr p w e fs Hf Hdup). eauto.
  - rewrite store_report_first_try by (unfold next_ok; rewrite Hf; exact I).
    eauto.
Qed.







(** End to end: the four outcomes of [mark_resolved] around the insert of
    the report. *)
Example mark_resolved_retry_succeeds :
  let run := resolve_with_insert_failure resolved_id_violation [] in
  (exists r, fst run = Ok r /\ resolved_ok r = true /\ warning_of r = None)
  /\ report_ids (snd run) = [PyStr "RSV00001"]
  /\ status_of (snd run) (PyStr "ICD002") = Some (PyStr "Resolved").
Proof. split; [eexists |]; repeat split; reflexivity. Qed.

Example mark_resolved_other_failure_is_a_warning :
  let run := resolve_with_insert_failure "connection reset" [] in
  (exists r, fst run = Ok r /\ resolved_ok r = true
             /\ warning_of r = Some "connection reset")
  /\ report_ids (snd run) = []
  /\ status_of (snd run) (PyStr "ICD002") = Some (PyStr "Resolved").
Proof. split; [eexists |]; repeat split; reflexivity. Qed.

Example mark_resolved_failed_retry_is_a_warning :
  let run := resolve_with_insert_failure resolved_id_violation
               [None; Some "still taken"] in
  (exists r, fst run = Ok r /\ resolved_ok r = true
             /\ warning_of r = Some "still taken")
  /\ report_ids (snd run) = []
  /\ status_of (snd run) (PyStr "ICD002") = Some (PyStr "Resolved").
Proof. split; [eexists |]; repeat split; reflexivity. Qed.

Example mark_resolved_hard_failure :
  let run := mark_resolved sample_clock (Some admin_x) (PyStr "ICD002")
               (PyStr "Handled on site") true
               (with_faults [None; None; Some "update failed"] sample_world) in
  fst run = Ok (Json 500 (JFailure "update failed"))
  /\ status_of (snd run) (PyStr "ICD002") = Some (PyStr "Pending").
Proof. split; reflexivity. Qed.











(** * Further properties *)

(** ** The permission helpers on any incident *)

Lemma view_decision (w : world) (incident_id admin_id : pyval)
    (incident : row) :
  next_ok w ->
  incident_of w incident_id = Some incident ->
  text_status incident ->
  exists reason,
    can_admin_view_incident incident_id admin_id w
    = (Ok (negb (hidden_from admin_id incident), reason), advance w).
Proof.
  intros Hok Hinc Htext.
  destruct (incident_of_rows _ _ _ Hinc) as [rest Hrows].
  destruct (stripped_text_total _ Htext) as [s Hs].
  unfold can_admin_view_incident, try_catch, bind, lift_result, hidden_from,
    is_open, assigned_to_other.
  rewrite select_ok by exact Hok. rewrite Hrows, Hs.
  rewrite <- andb_assoc.
  destruct (in_strs (PyStr s) ["Active"; "Pending"]
            && (truthy (get incident "assigned_responder_id")
                && negb (String.eqb
                           (str (get incident "assigned_responder_id"))
                           (str admin_id))))%bool; simpl; eauto.
Qed.

(** X1: an incident appears in an admin's filtered listing exactly when
    [can_admin_view_incident] grants that admin the view. *)
Theorem view_check_agrees_with_filter
    (w : world) (incident_id admin_id : pyval) (incident : row) :
  next_ok w ->
  incident_of w incident_id = Some incident ->
  text_status incident ->
  truthy admin_id = true ->
  exists can_view reason,
    fst (can_admin_view_incident incident_id admin_id w) = Ok (can_view, reason)
    /\ filter_incidents_for_admin [incident] admin_id
       = Ok (if can_view then [incident] else []).
Proof.
  intros Hok Hinc Htext Hadmin.
  destruct (view_decision w incident_id admin_id incident Hok Hinc Htext)
    as [reason Hview].
  exists (negb (hidden_from admin_id incident)), reason.
  rewrite Hview. split; [reflexivity |].
  unfold filter_incidents_for_admin. rewrite Hadmin. cbn [negb].
  rewrite filter_loop_spec by (constructor; [exact Htext | constructor]).
  cbn [List.filter app].
  destruct (hidden_from admin_id incident); reflexivity.
Qed.

Lemma view_check_agrees_with_filter_witness :
  exists can_view reason,
    fst (can_admin_view_incident (PyStr "ICD002") (PyStr "ADM-Y") sample_world)
    = Ok (can_view, reason)
    /\ filter_incidents_for_admin [icd_pending_x] (PyStr "ADM-Y")
       = Ok (if can_view then [icd_pending_x] else []).
Proof.
  apply (view_check_agrees_with_filter sample_world (PyStr "ICD002")
           (PyStr "ADM-Y") icd_pending_x).
  - exact I.
  - reflexivity.
  - exact I.
  - reflexivity.
Defined.

(** X2: whoever may edit an incident may view it. *)
Theorem edit_permission_implies_view
    (w : world) (incident_id admin_id : pyval) (incident : row)
    (reason : string) :
  next_ok w ->
  incident_of w incident_id = Some incident ->
  text_status incident ->
  fst (can_admin_edit_incident incident_id admin_id w) = Ok (true, reason) ->
  exists reason',
    fst (can_admin_view_incident incident_id admin_id w) = Ok (true, reason').
Proof.
  intros Hok Hinc Htext Hedit.
  destruct (edit_decision w incident_id admin_id incident Hok Hinc)
    as [r He].
  destruct (view_decision w incident_id admin_id incident Hok Hinc Htext)
    as [r' Hv].
  rewrite He in Hedit. simpl in Hedit. injection Hedit as Hcan _.
  rewrite Hv. simpl. exists r'.
  unfold editable_by in Hcan. apply andb_prop in Hcan as [_ Hmine].
  apply negb_true_iff in Hmine.
  unfold hidden_from. rewrite Hmine, andb_false_r. reflexivity.
Qed.

Lemma edit_permission_implies_view_witness :
  exists reason',
    fst (can_admin_view_incident (PyStr "ICD002") (PyStr "ADM-X") sample_world)
    = Ok (true, reason').
Proof.
  apply (edit_permission_implies_view sample_world (PyStr "ICD002")
           (PyStr "ADM-X") icd_pending_x "You are the assigned responder").
  - exact I.
  - reflexivity.
  - exact I.
  - reflexivity.
Defined.

Lemma edit_check_total (w : world) (incident_id admin_id : pyval) :
  exists can reason,
    can_admin_edit_incident incident_id admin_id w
    = (Ok (can, reason), advance w).
Proof.
  unfold can_admin_edit_incident, try_catch, bind.
  destruct (next_ok_or_fault w) as [Hok | (e & fs & Hf)].
  - rewrite select_ok by exact Hok.
    destruct (List.filter _ _) as [|incident rest]; cbv beta iota zeta;
      [eexists _, _; reflexivity |].
    destruct (in_strs (get incident "icd_status") ["Resolved"; "Cancelled"]);
      [eexists _, _; reflexivity |].
    destruct (negb (truthy (get incident "assigned_responder_id")));
      [eexists _, _; reflexivity |].
    destruct (String.eqb (str (get incident "assigned_responder_id"))
                (str admin_id)); eexists _, _; reflexivity.
  - rewrite (select_raise _ _ _ _ _ Hf). eexists _, _; reflexivity.
Qed.

Lemma view_check_total (w : world) (incident_id admin_id : pyval) :
  exists can reason,
    can_admin_view_incident incident_id admin_id w
    = (Ok (can, reason), advance w).
Proof.
  unfold can_admin_view_incident, try_catch, bind, lift_result.
  destruct (next_ok_or_fault w) as [Hok | (e & fs & Hf)].
  - rewrite select_ok by exact Hok.
    destruct (List.filter _ _) as [|incident rest]; cbv beta iota zeta;
      [eexists _, _; reflexivity |].
    destruct (stripped_text (get incident "icd_status")) as [s | e];
      cbv beta iota zeta; [| eexists _, _; reflexivity].
    destruct (in_strs (PyStr s) ["Active"; "Pending"]
              && truthy (get incident "assigned_responder_id")
              && negb (String.eqb
                         (str (get incident "assigned_responder_id"))
                         (str admin_id)))%bool; eexists _, _; reflexivity.
  - rewrite (select_raise _ _ _ _ _ Hf). eexists _, _; reflexivity.
Qed.

Lemma incident_of_none_rows (w : world) (incident_id : pyval) :
  incident_of w incident_id = None ->
  List.filter (eq_filter "icd_id" incident_id) (rows_of w INCIDENTS) = [].
Proof.
  unfold incident_of. destruct (List.filter _ _); [reflexivity | discriminate].
Qed.

(** X3: the permission checks fail closed.  Neither check ever raises or
    writes to the store; each makes exactly one call.  When the incident does
    not exist both answer [(False, "Incident not found")], and when the
    store fails both answer [False] with the store's error in the reason. *)
Theorem permission_checks_fail_closed
    (w : world) (incident_id admin_id : pyval) :
  (exists can reason,
     can_admin_edit_incident incident_id admin_id w
     = (Ok (can, reason), advance w))
  /\ (exists can reason,
        can_admin_view_incident incident_id admin_id w
        = (Ok (can, reason), advance w))
  /\ (next_ok w -> incident_of w incident_id = None ->
      fst (can_admin_edit_incident incident_id admin_id w)
      = Ok (false, "Incident not found")
      /\ fst (can_admin_view_incident incident_id admin_id w)
         = Ok (false, "Incident not found"))
  /\ (forall e fs,
        faults w = Some e :: fs ->
        fst (can_admin_edit_incident incident_id admin_id w)
        = Ok (false, "Error checking permissions: " ++ e)
        /\ fst (can_admin_view_incident incident_id admin_id w)
           = Ok (false, "Error checking permissions: " ++ e)).
Proof.
  split; [apply edit_check_total |]. split; [apply view_check_total |]. split.
  - intros Hok Hnone. apply incident_of_none_rows in Hnone.
    unfold can_admin_edit_incident, can_admin_view_incident, try_catch, bind.
    rewrite select_ok by exact Hok. rewrite Hnone. split; reflexivity.
  - intros e fs Hf.
    unfold can_admin_edit_incident, can_admin_view_incident, try_catch, bind.
    rewrite (select_raise _ _ _ _ _ Hf). split; reflexivity.
Qed.

Lemma permission_checks_fail_closed_witness :
  fst (can_admin_edit_incident (PyStr "ICD001") (PyStr "ADM-X")
         (with_faults [Some "connection reset"] sample_world))
  = Ok (false, "Error checking permissions: " ++ "connection reset")
  /\ fst (can_admin_view_incident (PyStr "ICD001") (PyStr "ADM-X")
            (with_faults [Some "connection reset"] sample_world))
     = Ok (false, "Error checking permissions: " ++ "connection reset").
Proof.
  apply (proj2 (proj2 (proj2
           (permission_checks_fail_closed
              (with_faults [Some "connection reset"] sample_world)
              (PyStr "ICD001") (PyStr "ADM-X"))))
           "connection reset" []).
  reflexivity.
Defined.

(** ** Filtering *)

Lemma filter_sublist {A} (f : A -> bool) (l : list A) :
  sublist (List.filter f l) l.
Proof.
  induction l as [|x l IH]; simpl; [constructor |].
  destruct (f x); [apply sublist_skip | apply sublist_cons]; exact IH.
Qed.

Lemma filter_twice {A} (f : A -> bool) (l : list A) :
  List.filter f (List.filter f l) = List.filter f l.
Proof.
  induction l as [|x l IH]; simpl; [reflexivity |].
  destruct (f x) eqn:Hx; simpl; [rewrite Hx, IH; reflexivity | exact IH].
Qed.

Lemma Forall_filter_kept {A} (P : A -> Prop) (f : A -> bool) (l : list A) :
  Forall P l -> Forall P (List.filter f l).
Proof.
  induction 1 as [|x l Hx _ IH]; simpl; [constructor |].
  destruct (f x); [constructor; assumption | exact IH].
Qed.

Lemma closed_not_hidden (admin_id : pyval) (incident : row) :
  is_closed incident -> hidden_from admin_id incident = false.
Proof.
  unfold is_closed, hidden_from, is_open. intros [-> | ->]; reflexivity.
Qed.

(** X4: filtering a listing never adds or reorders incidents, never drops a
    Resolved or Cancelled incident, and filtering an already filtered
    listing changes nothing. *)
Theorem filter_incidents_for_admin_is_a_stable_selection
    (incidents : list row) (admin_id : pyval) :
  Forall text_status incidents ->
  exists kept,
    filter_incidents_for_admin incidents admin_id = Ok kept
    /\ sublist kept incidents
    /\ filter_incidents_for_admin kept admin_id = Ok kept
    /\ (forall incident,
          In incident incidents -> is_closed incident -> In incident kept).
Proof.
  intros Htext. unfold filter_incidents_for_admin.
  destruct (truthy admin_id); cbn [negb].
  - exists (List.filter (fun i => negb (hidden_from admin_id i)) incidents).
    rewrite !filter_loop_spec
      by (try apply Forall_filter_kept; exact Htext).
    cbn [app]. rewrite filter_twice.
    split; [reflexivity |]. split; [apply filter_sublist |].
    split; [reflexivity |].
    intros incident Hin Hclosed. apply filter_In. split; [exact Hin |].
    rewrite closed_not_hidden by exact Hclosed. reflexivity.
  - exists incidents. split; [reflexivity |]. split; [reflexivity |].
    split; [reflexivity | auto].
Qed.

Lemma filter_incidents_for_admin_is_a_stable_selection_witness :
  exists kept,
    filter_incidents_for_admin sample_incidents (PyStr "ADM-Y") = Ok kept
    /\ sublist kept sample_incidents
    /\ filter_incidents_for_admin kept (PyStr "ADM-Y") = Ok kept
    /\ (forall incident,
          In incident sample_incidents -> is_closed incident ->
          In incident kept).
Proof.
  apply (filter_incidents_for_admin_is_a_stable_selection sample_incidents
           (PyStr "ADM-Y")).
  repeat constructor.
Defined.

(** ** Refused requests write nothing *)

Lemma edit_refused_any_schedule (w : world) (incident_id admin_id : pyval) :
  (forall incident,
     incident_of w incident_id = Some incident ->
     editable_by admin_id incident = false) ->
  exists reason,
    can_admin_edit_incident incident_id admin_id w
    = (Ok (false, reason), advance w).
Proof.
  intros Hno.
  destruct (next_ok_or_fault w) as [Hok | (e & fs & Hf)].
  - destruct (incident_of w incident_id) as [incident |] eqn:Hinc.
    + destruct (edit_decision w incident_id admin_id incident Hok Hinc)
        as [reason He].
      rewrite (Hno incident eq_refl) in He. eauto.
    + apply incident_of_none_rows in Hinc.
      unfold can_admin_edit_incident, try_catch, bind.
      rewrite select_ok by exact Hok. rewrite Hinc. eauto.
  - unfold can_admin_edit_incident, try_catch, bind.
    rewrite (select_raise _ _ _ _ _ Hf). eauto.
Qed.

Lemma refresh_step (admin_id : pyval) (w : world) :
  try_catch (do _ <- select ADMINS (eq_filter "admin_id" admin_id) ; ret tt)
    (fun _ => ret tt) w
  = (Ok tt, advance w).
Proof.
  unfold try_catch, bind.
  destruct (next_ok_or_fault w) as [Hok | (e & fs & Hf)].
  - rewrite select_ok by exact Hok. reflexivity.
  - rewrite (select_raise _ _ _ _ _ Hf). reflexivity.
Qed.

(** X5: a request the edit check refuses writes nothing.  When the incident
    is missing, closed or assigned to another admin, none of the handlers
    that change or archive an incident touches any table, whatever calls to
    the store fail; the bulk update and the archive endpoint answer with the
    refusal. *)
Theorem refused_edit_writes_nothing
    (clk : clock) (s : session) (w : world) (incident_id : pyval) :
  (forall incident,
     incident_of w incident_id = Some incident ->
     editable_by (admin_id s) incident = false) ->
  tables (snd (mark_pending clk (Some s) incident_id w)) = tables w
  /\ tables (snd (mark_cancelled clk (Some s) incident_id w)) = tables w
  /\ (forall summary wants_json,
        tables (snd (mark_resolved clk (Some s) incident_id summary
                       wants_json w)) = tables w)
  /\ (forall new_status,
        tables (snd (incident_management_update clk (Some s) incident_id
                       new_status w)) = tables w)
  /\ (forall new_status,
        tables (snd (bulk_status_update_one clk s new_status incident_id w))
        = tables w
        /\ exists reason,
             fst (bulk_status_update_one clk s new_status incident_id w)
             = Ok (BulkResult incident_id false
                     ("Permission denied: " ++ reason)))
  /\ (forall reason,
        tables (snd (api_archive_incident clk (Some s) incident_id reason w))
        = tables w
        /\ exists why,
             fst (api_archive_incident clk (Some s) incident_id reason w)
             = Ok (ApiMessage 403 false ("Permission denied: " ++ why))).
Proof.
  intros Hno.
  destruct (edit_refused_any_schedule w incident_id (admin_id s) Hno)
    as [reason He].
  split; [| split; [| split; [| split; [| split]]]].
  - unfold mark_pending.
    destruct (truthy incident_id); simpl; [| reflexivity].
    unfold bind. rewrite He. reflexivity.
  - unfold mark_cancelled.
    destruct (truthy incident_id); simpl; [| reflexivity].
    unfold bind. rewrite He. reflexivity.
  - intros summary wants_json. unfold mark_resolved.
    destruct (stripped_text summary) as [text | e]; [| reflexivity].
    destruct (truthy incident_id); simpl;
      [| destruct wants_json; reflexivity].
    destruct (String.eqb text ""); [destruct wants_json; reflexivity |].
    unfold bind. rewrite He. simpl. destruct wants_json; reflexivity.
  - intros new_status. unfold incident_management_update.
    unfold bind at 1. rewrite refresh_step.
    destruct (edit_refused_any_schedule (advance w) incident_id (admin_id s)
                Hno) as [reason' He'].
    unfold bind. rewrite He'. reflexivity.
  - intros new_status. unfold bulk_status_update_one, try_catch, bind.
    rewrite He. split; [reflexivity | eauto].
  - intros why. unfold api_archive_incident, bind. rewrite He.
    split; [reflexivity | eauto].
Qed.

Lemma refused_edit_writes_nothing_witness :
  incident_of sample_world (PyStr "ICD002") = Some icd_pending_x
  /\ editable_by (admin_id admin_y) icd_pending_x = false
  /\ tables (snd (mark_cancelled sample_clock (Some admin_y) (PyStr "ICD002")
                    sample_world))
     = tables sample_world.
Proof.
  split; [reflexivity |]. split; [reflexivity |].
  refine (proj1 (proj2
            (refused_edit_writes_nothing sample_clock admin_y sample_world
               (PyStr "ICD002") _))).
  intros incident Hinc.
  change (Some icd_pending_x = Some incident) in Hinc.
  injection Hinc as <-. reflexivity.
Defined.

(** ** Assigning a responder *)

Lemma assigned_to_other_not_editable (admin_id : pyval) (incident : row) :
  assigned_to_other admin_id incident = true ->
  editable_by admin_id incident = false.
Proof.
  unfold editable_by. intros ->. apply andb_false_r.
Qed.

(** X6: an incident that has another admin as its responder cannot be handed
    to a third admin.  Both [dispatch_team] and [api_assign_incident] leave
    every table as it was, whatever calls fail; when the store answers,
    [dispatch_team] flashes the refusal. *)
Theorem assigned_incident_is_not_handed_to_a_third_admin
    (clk : clock) (s : session) (w : world)
    (incident_id responder_id : pyval) (incident : row) :
  incident_of w incident_id = Some incident ->
  assigned_to_other (admin_id s) incident = true ->
  String.eqb (str responder_id) (str (admin_id s)) = false ->
  tables (snd (dispatch_team clk (Some s) incident_id responder_id w))
  = tables w
  /\ (forall set_pending,
        tables (snd (api_assign_incident clk (Some s) incident_id
                       responder_id set_pending w)) = tables w)
  /\ (next_ok w -> truthy incident_id = true ->
      truthy responder_id = true ->
      exists why,
        fst (dispatch_team clk (Some s) incident_id responder_id w)
        = Ok (error_flash ("Permission denied: " ++ why))).
Proof.
  intros Hinc Hother Hthird.
  destruct (incident_of_rows _ _ _ Hinc) as [rest Hrows].
  assert (Hno : forall i, incident_of (advance w) incident_id = Some i ->
                          editable_by (admin_id s) i = false).
  { intros i Hi. change (incident_of w incident_id = Some i) in Hi.
    rewrite Hinc in Hi. injection Hi as <-.
    apply assigned_to_other_not_editable, Hother. }
  destruct (edit_refused_any_schedule (advance w) incident_id (admin_id s) Hno)
    as [reason He].
  unfold assigned_to_other in Hother.
  split; [| split].
  - unfold dispatch_team.
    destruct (negb (truthy incident_id) || negb (truthy responder_id))%bool;
      [reflexivity |].
    unfold bind at 1. unfold dispatch_check, try_catch. unfold bind at 1.
    destruct (next_ok_or_fault w) as [Hok | (e & fs & Hf)].
    + rewrite select_ok by exact Hok. rewrite Hrows.
      cbv beta iota zeta. rewrite Hother, Hthird. cbn [negb andb].
      unfold bind. rewrite He. reflexivity.
    + rewrite (select_raise _ _ _ _ _ Hf). reflexivity.
  - intros set_pending. unfold api_assign_incident, try_catch.
    destruct (truthy responder_id); cbn [negb]; [| reflexivity].
    unfold bind at 1.
    destruct (next_ok_or_fault w) as [Hok | (e & fs & Hf)].
    + rewrite select_ok by exact Hok. rewrite Hrows.
      cbv beta iota zeta.
      destruct (in_strs (get incident "icd_status") ["Resolved"; "Cancelled"]);
        [reflexivity |].
      rewrite Hother, Hthird. cbn [negb andb].
      unfold bind. rewrite He. reflexivity.
    + rewrite (select_raise _ _ _ _ _ Hf). reflexivity.
  - intros Hok Hid Hresp. unfold dispatch_team. rewrite Hid, Hresp.
    cbn [negb orb].
    unfold bind at 1. unfold dispatch_check, try_catch. unfold bind at 1.
    rewrite select_ok by exact Hok. rewrite Hrows.
    cbv beta iota zeta. rewrite Hother, Hthird. cbn [negb andb].
    unfold bind. rewrite He. eexists. reflexivity.
Qed.

Lemma assigned_incident_is_not_handed_to_a_third_admin_witness :
  incident_of sample_world (PyStr "ICD002") = Some icd_pending_x
  /\ tables (snd (dispatch_team sample_clock (Some admin_y) (PyStr "ICD002")
                    (PyStr "ADM-Z") sample_world))
     = tables sample_world.
Proof.
  split; [reflexivity |].
  apply (proj1
           (assigned_incident_is_not_handed_to_a_third_admin sample_clock
              admin_y sample_world (PyStr "ICD002") (PyStr "ADM-Z")
              icd_pending_x eq_refl eq_refl eq_refl)).
Defined.

(** X7: [api_assign_incident] never changes a Resolved or Cancelled
    incident: whoever asks, whoever is named and whatever calls fail, every
    table is as before; when the store answers, the reply is the 400 that
    names the status. *)
Theorem api_assign_incident_leaves_closed_incidents
    (clk : clock) (sess : option session) (w : world)
    (incident_id responder_id : pyval) (set_pending : bool) (incident : row) :
  incident_of w incident_id = Some incident ->
  is_closed incident ->
  tables (snd (api_assign_incident clk sess incident_id responder_id
                 set_pending w)) = tables w
  /\ (forall s, sess = Some s -> next_ok w -> truthy responder_id = true ->
      fst (api_assign_incident clk sess incident_id responder_id
             set_pending w)
      = Ok (ApiMessage 400 false
              ("Cannot assign " ++ str (get incident "icd_status")
               ++ " incidents"))).
Proof.
  intros Hinc Hclosed.
  destruct (incident_of_rows _ _ _ Hinc) as [rest Hrows].
  assert (Hst : in_strs (get incident "icd_status") ["Resolved"; "Cancelled"]
                = true)
    by (destruct Hclosed as [-> | ->]; reflexivity).
  split.
  - destruct sess as [s |]; [| reflexivity].
    unfold api_assign_incident, try_catch.
    destruct (truthy responder_id); cbn [negb]; [| reflexivity].
    unfold bind at 1.
    destruct (next_ok_or_fault w) as [Hok | (e & fs & Hf)].
    + rewrite select_ok by exact Hok. rewrite Hrows.
      cbv beta iota zeta. rewrite Hst. reflexivity.
    + rewrite (select_raise _ _ _ _ _ Hf). reflexivity.
  - intros s -> Hok Hresp. unfold api_assign_incident, try_catch.
    rewrite Hresp. cbn [negb]. unfold bind at 1.
    rewrite select_ok by exact Hok. rewrite Hrows.
    cbv beta iota zeta. rewrite Hst. reflexivity.
Qed.

Lemma api_assign_incident_leaves_closed_incidents_witness :
  status_of sample_world (PyStr "ICD003") = Some (PyStr "Resolved")
  /\ tables (snd (api_assign_incident sample_clock (Some admin_y)
                    (PyStr "ICD003") (PyStr "ADM-Y") true sample_world))
     = tables sample_world.
Proof.
  split; [reflexivity |].
  apply (proj1
           (api_assign_incident_leaves_closed_incidents sample_clock
              (Some admin_y) sample_world (PyStr "ICD003") (PyStr "ADM-Y")
              true icd_resolved_x eq_refl (or_introl eq_refl))).
Defined.

Lemma ret_bind {A B} (a : A) (k : A -> M B) (w : world) :
  bind (ret a) k w = k a w.
Proof. reflexivity. Qed.

Lemma activity_entries_logged (t : string) (rs : list row) (w : world)
    (r : row) :
  t <> ACTIVITY_LOGS ->
  activity_entries
    (set_rows ACTIVITY_LOGS
       (rows_of (set_rows t rs w) ACTIVITY_LOGS ++ [r]) (set_rows t rs w))
  = (activity_entries w
     ++ [(get r "old_status", get r "new_status", get r "admin_id")])%list.
Proof.
  intros Hne. unfold activity_entries.
  rewrite rows_of_set_rows_eq, rows_of_set_rows_ne by exact Hne.
  rewrite List.map_app. reflexivity.
Qed.

Lemma assign_update_data_keeps_id (clk : clock) (status responder : pyval)
    (set_pending : bool) :
  assign_update_data clk status responder set_pending !! "icd_id" = None.
Proof.
  unfold assign_update_data.
  destruct (pyval_eqb status (PyStr "Active") && set_pending)%bool;
    reflexivity.
Qed.

(** X8: what [api_assign_incident] does when it goes through.  For an
    incident that is not closed, and that has no other admin as responder or
    is being taken over by the caller, the named responder is recorded; the
    status becomes Pending only if it was Active and [set_pending] was asked
    for, and is kept otherwise; the activity log gains one row with the
    previous responder (or [Unassigned]) and the new one. *)
Theorem api_assign_incident_assigns
    (clk : clock) (s : session) (w : world)
    (incident_id responder_id : pyval) (set_pending : bool) (incident : row) :
  faults w = [] ->
  truthy responder_id = true ->
  incident_of w incident_id = Some incident ->
  closed_status incident = false ->
  assigned_to_other (admin_id s) incident = false
  \/ str responder_id = str (admin_id s) ->
  let run := api_assign_incident clk (Some s) incident_id responder_id
               set_pending w in
  (exists name,
     fst run = Ok (ApiAssigned "Incident assigned successfully"
                     responder_id name))
  /\ (exists after,
        incident_of (snd run) incident_id = Some after
        /\ get after "assigned_responder_id" = responder_id
        /\ get after "icd_status"
           = (if (pyval_eqb (get incident "icd_status") (PyStr "Active")
                  && set_pending)%bool
              then PyStr "Pending" else get incident "icd_status")
        /\ forall c,
             c <> "assigned_responder_id" -> c <> "icd_status" ->
             c <> "pending_timestamp" -> get after c = get incident c)
  /\ activity_entries (snd run)
     = (activity_entries w
        ++ [(or_else (get incident "assigned_responder_id")
               (PyStr "Unassigned"), responder_id, admin_id s)])%list.
Proof.
  intros Hc Hresp Hinc Hopen Hmay.
  destruct (incident_of_rows _ _ _ Hinc) as [rest Hrows].
  unfold closed_status in Hopen.
  assert (Hcond :
    (truthy (get incident "assigned_responder_id")
     && negb (String.eqb (str (get incident "assigned_responder_id"))
                (str (admin_id s)))
     && negb (String.eqb (str responder_id) (str (admin_id s))))%bool = false).
  { destruct Hmay as [Hmine | Hself].
    - unfold assigned_to_other in Hmine. rewrite Hmine. reflexivity.
    - rewrite Hself, String.eqb_refl. apply andb_false_r. }
  set (patch := assign_update_data clk (get incident "icd_status") responder_id
                  set_pending).
  set (w1 := set_rows INCIDENTS
               (List.map
                  (fun r => if eq_filter "icd_id" incident_id r
                            then patch ∪ r else r)
                  (rows_of w INCIDENTS)) w).
  assert (Hc1 : faults w1 = []) by exact Hc.
  set (entry := mk_row [
         ("admin_id", admin_id s);
         ("admin_name", admin_name s);
         ("action_type", PyStr "assign_incident");
         ("incident_id", incident_id);
         ("old_status", or_else (get incident "assigned_responder_id")
                          (PyStr "Unassigned"));
         ("new_status", responder_id);
         ("action_timestamp", PyStr (server_now_iso clk))]).
  assert (Hrun : exists name,
    api_assign_incident clk (Some s) incident_id responder_id set_pending w
    = (Ok (ApiAssigned "Incident assigned successfully" responder_id name),
       set_rows ACTIVITY_LOGS (rows_of w1 ACTIVITY_LOGS ++ [entry]) w1)).
  { unfold api_assign_incident. rewrite Hresp. cbn [negb].
    rewrite (try_bind_ok _ _ _ _ _ _ (select_calm _ _ _ Hc)).
    rewrite Hrows. cbv beta iota zeta. rewrite Hopen, Hcond.
    rewrite (try_bind_ok _ _ _ w w (true, "") eq_refl). cbn [negb].
    rewrite (try_bind_ok _ _ _ _ _ _ (update_calm _ _ _ _ Hc)).
    fold patch. fold w1. rewrite Hrows. cbn [List.map].
    unfold try_catch at 1. unfold bind at 1. unfold try_catch at 1.
    unfold bind at 1. rewrite (select_calm _ _ _ Hc1).
    unfold log_admin_activity.
    destruct (List.filter (eq_filter "admin_id" responder_id)
                (rows_of w1 ADMINS));
      cbv [ret bind try_catch]; rewrite (insert_calm _ _ _ Hc1);
      eexists; reflexivity. }
  destruct Hrun as [name Hrun]. cbv zeta. rewrite Hrun. cbn [fst snd].
  split; [eauto |]. split.
  - exists (patch ∪ incident).
    rewrite incident_of_logged by discriminate.
    split; [apply incident_of_updated;
            [apply assign_update_data_keeps_id | exact Hinc] |].
    rewrite !get_patched. unfold patch, assign_update_data.
    destruct (pyval_eqb (get incident "icd_status") (PyStr "Active")
              && set_pending)%bool.
    + split; [reflexivity |]. split; [reflexivity |].
      intros c H1 H2 H3. rewrite get_patched.
      rewrite !lookup_insert_ne by congruence.
      unfold mk_row. cbn [list_to_map foldr uncurry fst snd].
      rewrite lookup_insert_ne by congruence. reflexivity.
    + split; [reflexivity |]. split; [reflexivity |].
      intros c H1 H2 H3. rewrite get_patched.
      unfold mk_row. cbn [list_to_map foldr uncurry fst snd].
      rewrite lookup_insert_ne by congruence. reflexivity.
  - unfold w1. rewrite activity_entries_logged by discriminate. reflexivity.
Qed.

Lemma api_assign_incident_assigns_witness :
  let run := api_assign_incident sample_clock (Some admin_y) (PyStr "ICD002")
               (PyStr "ADM-Y") true sample_world in
  status_of sample_world (PyStr "ICD002") = Some (PyStr "Pending")
  /\ activity_entries (snd run)
     = [(PyStr "ADM-X", PyStr "ADM-Y", PyStr "ADM-Y")].
Proof.
  split; [reflexivity |].
  apply (proj2 (proj2
           (api_assign_incident_assigns sample_clock admin_y sample_world
              (PyStr "ICD002") (PyStr "ADM-Y") true icd_pending_x
              eq_refl eq_refl eq_refl eq_refl (or_intror eq_refl)))).
Defined.

(** X9: what [dispatch_team] does when it goes through.  For an incident
    that has no other admin as responder, or that the caller takes over by
    naming themselves, the incident is set to Pending with the named
    responder, whatever its status was, and the activity log gains one row
    with the status found and the caller. *)
Theorem dispatch_team_assigns
    (clk : clock) (s : session) (w : world)
    (incident_id responder_id : pyval) (incident : row) :
  faults w = [] ->
  truthy incident_id = true ->
  truthy responder_id = true ->
  incident_of w incident_id = Some incident ->
  assigned_to_other (admin_id s) incident = false
  \/ str responder_id = str (admin_id s) ->
  let run := dispatch_team clk (Some s) incident_id responder_id w in
  fst run
  = Ok (RedirectDashboard
          [Flash "Responder assigned and incident set to pending successfully!"
             "success"])
  /\ incident_of (snd run) incident_id
     = Some (dispatch_update_data clk responder_id ∪ incident)
  /\ activity_entries (snd run)
     = (activity_entries w
        ++ [(get incident "icd_status", PyStr "Pending", admin_id s)])%list.
Proof.
  intros Hc Hid Hresp Hinc Hmay.
  destruct (incident_of_rows _ _ _ Hinc) as [rest Hrows].
  assert (Hcond :
    (truthy (get incident "assigned_responder_id")
     && negb (String.eqb (str (get incident "assigned_responder_id"))
                (str (admin_id s)))
     && negb (String.eqb (str responder_id) (str (admin_id s))))%bool = false).
  { destruct Hmay as [Hmine | Hself].
    - unfold assigned_to_other in Hmine. rewrite Hmine. reflexivity.
    - rewrite Hself, String.eqb_refl. apply andb_false_r. }
  set (patch := dispatch_update_data clk responder_id).
  set (w1 := set_rows INCIDENTS
               (List.map
                  (fun r => if eq_filter "icd_id" incident_id r
                            then patch ∪ r else r)
                  (rows_of w INCIDENTS)) w).
  assert (Hc1 : faults w1 = []) by exact Hc.
  set (entry := mk_row [
         ("admin_id", admin_id s);
         ("admin_name", admin_name s);
         ("action_type", PyStr "dispatch_team");
         ("incident_id", incident_id);
         ("old_status", get incident "icd_status");
         ("new_status", PyStr "Pending");
         ("action_timestamp", PyStr (server_now_iso clk))]).
  assert (Hcheck : dispatch_check s incident_id responder_id w
                   = (Ok (inr incident), w)).
  { unfold dispatch_check.
    rewrite (try_bind_ok _ _ _ _ _ _ (select_calm _ _ _ Hc)).
    rewrite Hrows. cbv beta iota zeta. rewrite Hcond. reflexivity. }
  assert (Hrun :
    dispatch_team clk (Some s) incident_id responder_id w
    = (Ok (RedirectDashboard
             [Flash "Responder assigned and incident set to pending successfully!"
                "success"]),
       set_rows ACTIVITY_LOGS (rows_of w1 ACTIVITY_LOGS ++ [entry]) w1)).
  { unfold dispatch_team. rewrite Hid, Hresp. cbn [negb orb].
    rewrite (bind_ok _ _ _ _ _ Hcheck).
    rewrite (try_bind_ok _ _ _ _ _ _ (update_calm _ _ _ _ Hc)).
    fold (dispatch_update_data clk responder_id). fold patch. fold w1.
    rewrite Hrows. cbn [List.map].
    unfold log_admin_activity. cbv [ret bind try_catch].
    rewrite (insert_calm _ _ _ Hc1). reflexivity. }
  cbv zeta. rewrite Hrun. cbn [fst snd].
  split; [reflexivity |]. split.
  - rewrite incident_of_logged by discriminate.
    apply incident_of_updated; [reflexivity | exact Hinc].
  - unfold w1. rewrite activity_entries_logged by discriminate. reflexivity.
Qed.

Lemma dispatch_team_assigns_witness :
  let run := dispatch_team sample_clock (Some admin_y) (PyStr "ICD002")
               (PyStr "ADM-Y") sample_world in
  assigned_to_other (admin_id admin_y) icd_pending_x = true
  /\ incident_of (snd run) (PyStr "ICD002")
     = Some (dispatch_update_data sample_clock (PyStr "ADM-Y")
             ∪ icd_pending_x).
Proof.
  split; [reflexivity |].
  apply (proj1 (proj2
           (dispatch_team_assigns sample_clock admin_y sample_world
              (PyStr "ICD002") (PyStr "ADM-Y") icd_pending_x
              eq_refl eq_refl eq_refl eq_refl (or_intror eq_refl)))).
Defined.

(** ** The status form *)

Lemma audit_entries_logged (t : string) (rs : list row) (w : world)
    (r : row) :
  t <> AUDIT_TRAIL ->
  audit_entries
    (set_rows AUDIT_TRAIL
       (rows_of (set_rows t rs w) AUDIT_TRAIL ++ [r]) (set_rows t rs w))
  = (audit_entries w
     ++ [(get r "old_status", get r "new_status", get r "changed_by")])%list.
Proof.
  intros Hne. unfold audit_entries.
  rewrite rows_of_set_rows_eq, rows_of_set_rows_ne by exact Hne.
  rewrite List.map_app. reflexivity.
Qed.

(** X10: the status form of the incident-management page, for an incident
    the admin may edit: the incident gets the status that was submitted,
    whatever it is, and the audit trail gains one row that carries the status
    found, the new status and the admin. *)
Theorem status_form_updates_and_audits
    (clk : clock) (s : session) (w : world)
    (incident_id new_status : pyval) (incident : row) :
  faults w = [] ->
  incident_of w incident_id = Some incident ->
  editable_by (admin_id s) incident = true ->
  let run := incident_management_update clk (Some s) incident_id new_status
               w in
  fst run
  = Ok (PageIncidentManagement
          [Flash ("Incident " ++ str incident_id
                  ++ " status has been successfully updated to "
                  ++ str new_status ++ "!") "success"])
  /\ incident_of (snd run) incident_id
     = Some (bulk_update_data clk s new_status ∪ incident)
  /\ get (bulk_update_data clk s new_status ∪ incident) "icd_status"
     = new_status
  /\ audit_entries (snd run)
     = (audit_entries w
        ++ [(get incident "icd_status", new_status, admin_id s)])%list.
Proof.
  intros Hc Hinc Hedit.
  destruct (incident_of_rows _ _ _ Hinc) as [rest Hrows].
  destruct (edit_decision w incident_id (admin_id s) incident
              (calm_next_ok _ Hc) Hinc) as [reason He].
  rewrite Hedit, advance_calm in He by exact Hc.
  set (patch := bulk_update_data clk s new_status).
  set (w1 := set_rows INCIDENTS
               (List.map
                  (fun r => if eq_filter "icd_id" incident_id r
                            then patch ∪ r else r)
                  (rows_of w INCIDENTS)) w).
  assert (Hc1 : faults w1 = []) by exact Hc.
  set (entry := mk_row [
         ("icd_id", incident_id);
         ("action_type", PyStr "status_updated");
         ("old_status", get incident "icd_status");
         ("new_status", new_status);
         ("changed_by", admin_id s);
         ("change_reason",
          PyStr ("Status changed from " ++ str (get incident "icd_status")
                 ++ " to " ++ str new_status))]).
  assert (Hrun :
    incident_management_update clk (Some s) incident_id new_status w
    = (Ok (PageIncidentManagement
             [Flash ("Incident " ++ str incident_id
                     ++ " status has been successfully updated to "
                     ++ str new_status ++ "!") "success"]),
       set_rows AUDIT_TRAIL (rows_of w1 AUDIT_TRAIL ++ [entry]) w1)).
  { unfold incident_management_update.
    unfold bind at 1. rewrite refresh_step, advance_calm by exact Hc.
    rewrite (bind_ok _ _ _ _ _ He). cbn [negb].
    rewrite (try_bind_ok _ _ _ _ _ _ (select_calm _ _ _ Hc)).
    rewrite Hrows.
    rewrite (try_bind_ok _ _ _ _ _ _ (update_calm _ _ _ _ Hc)).
    fold patch. fold w1.
    unfold log_incident_change. cbv [ret bind try_catch].
    rewrite (insert_calm _ _ _ Hc1). reflexivity. }
  cbv zeta. rewrite Hrun. cbn [fst snd].
  split; [reflexivity |]. split; [| split].
  - rewrite incident_of_logged by discriminate.
    apply incident_of_updated;
      [apply bulk_update_data_keeps_id | exact Hinc].
  - apply bulk_update_data_resets.
  - unfold w1. rewrite audit_entries_logged by discriminate. reflexivity.
Qed.

Lemma status_form_updates_and_audits_witness :
  let run := incident_management_update sample_clock (Some admin_x)
               (PyStr "ICD001") (PyStr "Pending") sample_world in
  status_of (snd run) (PyStr "ICD001") = Some (PyStr "Pending")
  /\ audit_entries (snd run)
     = [(PyStr "Active", PyStr "Pending", PyStr "ADM-X")].
Proof.
  pose proof (status_form_updates_and_audits sample_clock admin_x sample_world
                (PyStr "ICD001") (PyStr "Pending") icd_active_free
                eq_refl eq_refl eq_refl) as (_ & Hrow & Hst & Haudit).
  split; [| exact Haudit].
  unfold status_of. rewrite Hrow. cbn [option_map]. rewrite Hst. reflexivity.
Defined.

(** ** Archiving and restoring *)

Section SameTable.

Variable t : string.

Lemma same_table_refl (w : world) : same_table t w w.
Proof. reflexivity. Qed.

Lemma same_table_trans (a b c : world) :
  same_table t a b -> same_table t b c -> same_table t a c.
Proof. unfold same_table. congruence. Qed.

Lemma select_keeps_table (t' : string) (p : row -> bool) :
  keeps (same_table t) (select t' p).
Proof.
  apply keeps_execute; try exact same_table_trans; intros w; reflexivity.
Qed.

Lemma insert_keeps_table (t' : string) (r : row) :
  t' <> t -> keeps (same_table t) (insert t' r).
Proof.
  intros Hne. apply keeps_execute; try exact same_table_trans; intros w.
  - reflexivity.
  - apply rows_of_set_rows_ne. exact Hne.
Qed.

Lemma delete_keeps_table (t' : string) (p : row -> bool) :
  t' <> t -> keeps (same_table t) (delete t' p).
Proof.
  intros Hne. apply keeps_execute; try exact same_table_trans; intros w.
  - reflexivity.
  - apply rows_of_set_rows_ne. exact Hne.
Qed.

Lemma log_incident_change_keeps_table
    (i : pyval) (action : string) (o s a r : pyval) :
  AUDIT_TRAIL <> t -> keeps (same_table t) (log_incident_change i action o s a r).
Proof.
  intros Hne. unfold log_incident_change.
  apply keeps_try_catch; [exact same_table_trans | | intros e].
  - apply keeps_bind; [exact same_table_trans | | intros x].
    + apply insert_keeps_table. exact Hne.
    + apply keeps_ret. exact same_table_refl.
  - apply keeps_ret. exact same_table_refl.
Qed.

End SameTable.

Lemma try_bind_raise {A B} (m : M A) (k : A -> M B) (h : string -> M B)
    (w w' : world) (e : string) :
  m w = (Raise e, w') -> try_catch (bind m k) h w = h e w'.
Proof. unfold try_catch, bind. intros ->. reflexivity. Qed.

Lemma archive_data_carries (clk : clock) (id admin_id reason : pyval)
    (incident : row) :
  carries_columns incident (archive_data clk id admin_id reason incident).
Proof.
  intros c Hin. unfold ARCHIVED_COLUMNS in Hin. cbn [In] in Hin.
  repeat (destruct Hin as [<- | Hin]; [reflexivity |]). contradiction.
Qed.

Lemma incident_data_carries (id : pyval) (archive_record : row) :
  carries_columns archive_record (incident_data id archive_record).
Proof.
  intros c Hin. unfold ARCHIVED_COLUMNS in Hin. cbn [In] in Hin.
  repeat (destruct Hin as [<- | Hin]; [reflexivity |]). contradiction.
Qed.

Lemma archive_incident_tail_keeps_archive (clk : clock)
    (incident_id admin_id reason : pyval) (incident : row) :
  keeps (same_table ARCHIVE)
    (try_catch
       (do _ <- try_catch
                  (do _ <- delete RESOLUTION_REPORTS_TABLE
                             (eq_filter "icd_id" incident_id) ;
                   ret tt)
                  (fun _ => ret tt) ;
        do _ <- delete INCIDENTS (eq_filter "icd_id" incident_id) ;
        do _ <- log_incident_change incident_id "archived"
                  (get incident "icd_status") PyNone admin_id reason ;
        ret (true, "Incident archived successfully"))
       (fun e => ret (false, e))).
Proof.
  pose proof (same_table_trans ARCHIVE) as Htrans.
  pose proof (same_table_refl ARCHIVE) as Hrefl.
  apply keeps_try_catch; [exact Htrans | | intros e; apply keeps_ret, Hrefl].
  apply keeps_bind; [exact Htrans | | intros _].
  { apply keeps_try_catch; [exact Htrans | | intros e; apply keeps_ret, Hrefl].
    apply keeps_bind; [exact Htrans | | intros x; apply keeps_ret, Hrefl].
    apply delete_keeps_table. discriminate. }
  apply keeps_bind; [exact Htrans | | intros x].
  { apply delete_keeps_table. discriminate. }
  apply keeps_bind; [exact Htrans | | intros y; apply keeps_ret, Hrefl].
  apply log_incident_change_keeps_table. discriminate.
Qed.

(** X11: archiving never loses an incident.  Whatever calls to the store
    fail, after [archive_incident] the incidents table is as it was, or the
    archive holds a row with every archived column of the incident. *)
Theorem archive_incident_never_loses_the_incident
    (clk : clock) (w : world) (incident_id admin_id reason : pyval)
    (incident : row) :
  incident_of w incident_id = Some incident ->
  let w' := snd (archive_incident clk incident_id admin_id reason w) in
  rows_of w' INCIDENTS = rows_of w INCIDENTS
  \/ exists archived,
       In archived (rows_of w' ARCHIVE) /\ carries_columns incident archived.
Proof.
  intros Hinc. cbv zeta.
  destruct (incident_of_rows _ _ _ Hinc) as [rest Hrows].
  unfold archive_incident.
  destruct (next_ok_or_fault w) as [Hok | (e & fs & Hf)];
    [| rewrite (try_bind_raise _ _ _ _ _ _ (select_raise _ _ _ _ _ Hf));
       left; reflexivity].
  rewrite (try_bind_ok _ _ _ _ _ _ (select_ok _ _ _ Hok)).
  rewrite Hrows.
  destruct (next_ok_or_fault (advance w)) as [Hok1 | (e & fs & Hf)];
    [| rewrite (try_bind_raise _ _ _ _ _ _ (select_raise _ _ _ _ _ Hf));
       left; reflexivity].
  rewrite (try_bind_ok _ _ _ _ _ _ (select_ok _ _ _ Hok1)).
  cbv zeta.
  match goal with
  | |- context [insert ARCHIVE ?d] => set (data := d)
  end.
  destruct (next_ok_or_fault (advance (advance w))) as [Hok2 | (e & fs & Hf)];
    [| rewrite (try_bind_raise _ _ _ _ _ _ (insert_raise _ _ _ _ _ Hf));
       left; reflexivity].
  rewrite (try_bind_ok _ _ _ _ _ _ (insert_ok _ _ _ Hok2)).
  right. exists data. split.
  - rewrite (archive_incident_tail_keeps_archive clk incident_id admin_id
               reason incident _).
    rewrite rows_of_set_rows_eq. apply in_or_app. right. left. reflexivity.
  - apply archive_data_carries.
Qed.

Lemma archive_incident_never_loses_the_incident_witness :
  let w' := snd (archive_incident sample_clock (PyStr "ICD001") (PyStr "ADM-X")
                   (PyStr "duplicate")
                   (with_faults [None; None; None; None; Some "timeout"]
                      sample_world)) in
  rows_of w' INCIDENTS = rows_of sample_world INCIDENTS
  \/ exists archived,
       In archived (rows_of w' ARCHIVE)
       /\ carries_columns icd_active_free archived.
Proof.
  apply (archive_incident_never_loses_the_incident sample_clock
           (with_faults [None; None; None; None; Some "timeout"] sample_world)
           (PyStr "ICD001") (PyStr "ADM-X") (PyStr "duplicate")
           icd_active_free).
  reflexivity.
Defined.

Lemma delete_calm (t : string) (p : row -> bool) (w : world) :
  faults w = [] ->
  delete t p w
  = (Ok (List.filter p (rows_of w t)),
     set_rows t (List.filter (fun r => negb (p r)) (rows_of w t)) w).
Proof.
  intros Hc. unfold delete.
  rewrite execute_ok by (apply calm_next_ok; exact Hc).
  rewrite advance_calm by exact Hc. reflexivity.
Qed.

(** X12: what [archive_incident] does when the store answers every call,
    for an incident whose id is not yet in the archive.  The incident leaves
    the incidents table, the archive gains one row under the same id with
    every archived column, the incident's resolution reports are deleted,
    and the audit trail gains one row with the status the incident had. *)
Theorem archive_incident_moves_the_incident
    (clk : clock) (w : world) (incident_id admin_id reason : pyval)
    (incident : row) :
  faults w = [] ->
  incident_of w incident_id = Some incident ->
  List.filter (eq_filter "icd_id" (get incident "icd_id")) (rows_of w ARCHIVE)
  = [] ->
  let run := archive_incident clk incident_id admin_id reason w in
  let archived :=
    archive_data clk (get incident "icd_id") admin_id reason incident in
  fst run = Ok (true, "Incident archived successfully")
  /\ rows_of (snd run) INCIDENTS
     = without "icd_id" incident_id (rows_of w INCIDENTS)
  /\ incident_of (snd run) incident_id = None
  /\ rows_of (snd run) ARCHIVE = (rows_of w ARCHIVE ++ [archived])%list
  /\ carries_columns incident archived
  /\ rows_of (snd run) RESOLUTION_REPORTS_TABLE
     = without "icd_id" incident_id (rows_of w RESOLUTION_REPORTS_TABLE)
  /\ audit_entries (snd run)
     = (audit_entries w ++ [(get incident "icd_status", PyNone, admin_id)])%list.
Proof.
  intros Hc Hinc Hfree.
  destruct (incident_of_rows _ _ _ Hinc) as [rest Hrows].
  set (archived :=
         archive_data clk (get incident "icd_id") admin_id reason incident).
  set (w1 := set_rows ARCHIVE (rows_of w ARCHIVE ++ [archived]) w).
  set (w2 := set_rows RESOLUTION_REPORTS_TABLE
               (without "icd_id" incident_id
                  (rows_of w1 RESOLUTION_REPORTS_TABLE)) w1).
  set (w3 := set_rows INCIDENTS
               (without "icd_id" incident_id (rows_of w2 INCIDENTS)) w2).
  set (entry := mk_row [
         ("icd_id", incident_id);
         ("action_type", PyStr "archived");
         ("old_status", get incident "icd_status");
         ("new_status", PyNone);
         ("changed_by", admin_id);
         ("change_reason", reason)]).
  assert (Hc1 : faults w1 = []) by exact Hc.
  assert (Hc2 : faults w2 = []) by exact Hc.
  assert (Hc3 : faults w3 = []) by exact Hc.
  assert (Hrun :
    archive_incident clk incident_id admin_id reason w
    = (Ok (true, "Incident archived successfully"),
       set_rows AUDIT_TRAIL (rows_of w3 AUDIT_TRAIL ++ [entry]) w3)).
  { unfold archive_incident.
    rewrite (try_bind_ok _ _ _ _ _ _ (select_calm _ _ _ Hc)). rewrite Hrows.
    rewrite (try_bind_ok _ _ _ _ _ _ (select_calm _ _ _ Hc)). rewrite Hfree.
    cbv zeta. fold (archive_data clk (get incident "icd_id") admin_id reason
                      incident). fold archived.
    rewrite (try_bind_ok _ _ _ _ _ _ (insert_calm _ _ _ Hc)). fold w1.
    unfold log_incident_change. cbv [ret bind try_catch].
    rewrite (delete_calm _ _ _ Hc1).
    fold (without "icd_id" incident_id (rows_of w1 RESOLUTION_REPORTS_TABLE)).
    fold w2. rewrite (delete_calm _ _ _ Hc2).
    fold (without "icd_id" incident_id (rows_of w2 INCIDENTS)). fold w3.
    rewrite (insert_calm _ _ _ Hc3). reflexivity. }
  cbv zeta. rewrite Hrun. cbn [fst snd].
  assert (Hlive : rows_of (set_rows AUDIT_TRAIL
                             (rows_of w3 AUDIT_TRAIL ++ [entry]) w3) INCIDENTS
                  = without "icd_id" incident_id (rows_of w INCIDENTS)).
  { unfold w3, w2, w1. table_rows. reflexivity. }
  split; [reflexivity |]. split; [exact Hlive |]. split.
  { unfold incident_of. rewrite Hlive. unfold without.
    destruct (List.filter (eq_filter "icd_id" incident_id)
                (List.filter (fun r => negb (eq_filter "icd_id" incident_id r))
                   (rows_of w INCIDENTS))) as [|r rs] eqn:Hf;
      [reflexivity |].
    assert (Hin : In r (r :: rs)) by (left; reflexivity).
    rewrite <- Hf in Hin. apply filter_In in Hin as [Hin Hyes].
    apply filter_In in Hin as [_ Hnot]. rewrite Hyes in Hnot. discriminate. }
  split; [unfold w3, w2, w1; table_rows; reflexivity |].
  split; [apply archive_data_carries |].
  split; [unfold w3, w2, w1; table_rows; reflexivity |].
  unfold audit_entries, w3, w2, w1. table_rows.
  rewrite List.map_app. reflexivity.
Qed.

Lemma archive_incident_moves_the_incident_witness :
  let run := archive_incident sample_clock (PyStr "ICD003") (PyStr "ADM-X")
               (PyStr "closed long ago") sample_world in
  fst run = Ok (true, "Incident archived successfully")
  /\ incident_of (snd run) (PyStr "ICD003") = None.
Proof.
  pose proof (archive_incident_moves_the_incident sample_clock sample_world
                (PyStr "ICD003") (PyStr "ADM-X") (PyStr "closed long ago")
                icd_resolved_x eq_refl eq_refl eq_refl)
    as (Hmsg & _ & Hgone & _).
  split; [exact Hmsg | exact Hgone].
Defined.

Lemma delete_ok (t : string) (p : row -> bool) (w : world) :
  next_ok w ->
  delete t p w
  = (Ok (List.filter p (rows_of w t)),
     set_rows t (List.filter (fun r => negb (p r)) (rows_of w t)) (advance w)).
Proof. intros H. unfold delete. rewrite execute_ok by exact H. reflexivity. Qed.

Lemma delete_raise (t : string) (p : row -> bool) (w : world) e fs :
  faults w = Some e :: fs -> delete t p w = (Raise e, advance w).
Proof. intros H. unfold delete. erewrite execute_raise by eauto. reflexivity. Qed.

(** X13: how [archive_incident] fails.  It never raises.  An id that is not
    in the incidents table is answered with [Incident not found] after one
    call.  When the delete from the incidents table fails, the call reports
    the store's error although the copy is already in the archive: the
    incident is then in both tables, and no audit row is written. *)
Theorem archive_incident_failures
    (clk : clock) (w : world) (incident_id admin_id reason : pyval) :
  (exists success message,
     fst (archive_incident clk incident_id admin_id reason w)
     = Ok (success, message))
  /\ (next_ok w -> incident_of w incident_id = None ->
      archive_incident clk incident_id admin_id reason w
      = (Ok (false, "Incident not found"), advance w))
  /\ (forall incident o e fs,
        incident_of w incident_id = Some incident ->
        faults w = None :: None :: None :: o :: Some e :: fs ->
        let run := archive_incident clk incident_id admin_id reason w in
        fst run = Ok (false, e)
        /\ rows_of (snd run) INCIDENTS = rows_of w INCIDENTS
        /\ (exists archived,
              rows_of (snd run) ARCHIVE = (rows_of w ARCHIVE ++ [archived])%list
              /\ carries_columns incident archived)
        /\ audit_entries (snd run) = audit_entries w).
Proof.
  split; [| split].
  - destruct (guarded_never_raises
                (do incident_result <-
                   select INCIDENTS (eq_filter "icd_id" incident_id) ;
                 match incident_result with
                 | [] => ret (false, "Incident not found")
                 | incident :: _ =>
                     let original_icd_id := get incident "icd_id" in
                     do existing_archive <-
                       select ARCHIVE (eq_filter "icd_id" original_icd_id) ;
                     let archive_icd_id :=
                       match existing_archive with
                       | [] => original_icd_id
                       | _ :: _ =>
                           PyStr (str original_icd_id ++ "_ARCHIVED_"
                                  ++ now_stamp clk)
                       end in
                     let archive_data :=
                       mk_row ([("icd_id", archive_icd_id)]
                               ++ copy_columns ARCHIVED_COLUMNS incident
                               ++ [("archived_by", admin_id);
                                   ("archive_reason",
                                    or_else reason
                                      (PyStr "Archived by administrator"));
                                   ("archived_at", PyStr (now_iso clk))]) in
                     do _ <- insert ARCHIVE archive_data ;
                     do _ <- try_catch
                               (do _ <- delete RESOLUTION_REPORTS_TABLE
                                          (eq_filter "icd_id" incident_id) ;
                                ret tt)
                               (fun _ => ret tt) ;
                     do _ <- delete INCIDENTS (eq_filter "icd_id" incident_id) ;
                     do _ <- log_incident_change incident_id "archived"
                               (get incident "icd_status") PyNone admin_id
                               reason ;
                     ret (true, "Incident archived successfully")
                 end)
                (fun e => (false, e)) w) as [[success message] H].
    exists success, message. exact H.
  - intros Hok Hnone. apply incident_of_none_rows in Hnone.
    unfold archive_incident.
    rewrite (try_bind_ok _ _ _ _ _ _ (select_ok _ _ _ Hok)).
    rewrite Hnone. reflexivity.
  - intros incident o e fs Hinc Hf.
    destruct (incident_of_rows _ _ _ Hinc) as [rest Hrows].
    cbv zeta. unfold archive_incident.
    rewrite (try_bind_ok _ _ _ _ _ _ (select_ok _ _ w ltac:(scheduled Hf))).
    rewrite Hrows.
    rewrite (try_bind_ok _ _ _ _ _ _
               (select_ok _ _ (advance w) ltac:(scheduled Hf))).
    cbv zeta.
    match goal with
    | |- context [insert ARCHIVE ?d] => set (data := d)
    end.
    rewrite (try_bind_ok _ _ _ _ _ _
               (insert_ok _ _ (advance (advance w)) ltac:(scheduled Hf))).
    set (w3 := set_rows ARCHIVE _ _).
    assert (H3 : faults w3 = o :: Some e :: fs) by (unfold w3; scheduled Hf).
    cbv [ret bind try_catch].
    destruct o as [e' |].
    + rewrite (delete_raise _ _ w3 e' (Some e :: fs) H3).
      rewrite (delete_raise _ _ (advance w3) e fs ltac:(scheduled H3)).
      cbn [fst snd]. unfold audit_entries, w3.
      split; [reflexivity |]. split; [settle_rows; reflexivity |].
      split; [| settle_rows; reflexivity].
      exists data. split; [| apply archive_data_carries].
      settle_rows. reflexivity.
    + rewrite (delete_ok _ _ w3 ltac:(scheduled H3)).
      set (w4 := set_rows RESOLUTION_REPORTS_TABLE _ _).
      rewrite (delete_raise _ _ w4 e fs ltac:(unfold w4; scheduled H3)).
      cbn [fst snd]. unfold audit_entries, w4, w3.
      split; [reflexivity |]. split; [settle_rows; reflexivity |].
      split; [| settle_rows; reflexivity].
      exists data. split; [| apply archive_data_carries].
      settle_rows. reflexivity.
Qed.

Lemma archive_incident_failures_witness :
  let run := archive_incident sample_clock (PyStr "ICD001") (PyStr "ADM-X")
               (PyStr "duplicate")
               (with_faults [None; None; None; None; Some "timeout"]
                  sample_world) in
  fst run = Ok (false, "timeout")
  /\ rows_of (snd run) INCIDENTS = sample_incidents.
Proof.
  pose proof (proj2 (proj2
                (archive_incident_failures sample_clock
                   (with_faults [None; None; None; None; Some "timeout"]
                      sample_world)
                   (PyStr "ICD001") (PyStr "ADM-X") (PyStr "duplicate")))
                icd_active_free None "timeout" [] eq_refl eq_refl)
    as (Hmsg & Hlive & _).
  split; [exact Hmsg | exact Hlive].
Defined.

Lemma try_bind_assoc {A B C} (m : M A) (f : A -> M B) (k : B -> M C)
    (h : string -> M C) (w : world) :
  try_catch (bind (bind m f) k) h w
  = try_catch (bind m (fun a => bind (f a) k)) h w.
Proof.
  unfold try_catch, bind. destruct (m w) as [[a | e] w']; reflexivity.
Qed.

Lemma archived_record_rows (w : world) (archive_id : pyval) (record : row) :
  archived_record w archive_id = Some record ->
  exists rest,
    List.filter (eq_filter "archive_id" archive_id) (rows_of w ARCHIVE)
    = record :: rest.
Proof.
  unfold archived_record. destruct (List.filter _ _) as [|r rest]; simpl.
  - discriminate.
  - intros [= ->]. eauto.
Qed.

Lemma restore_incident_tail_keeps_incidents
    (archive_id admin_id restored original status : pyval) :
  keeps same_incidents
    (try_catch
       (do _ <- delete ARCHIVE (eq_filter "archive_id" archive_id) ;
        do _ <- log_incident_change restored "restored" PyNone status admin_id
                  (PyStr ("Restored from archive (original ID: "
                          ++ str original ++ ")")) ;
        if negb (pyval_eqb restored original) then
          ret (true,
               "Incident restored successfully with new ID: "
               ++ str restored ++ " (original ID "
               ++ str original ++ " was already in use)")
        else ret (true, "Incident restored successfully"))
       (fun e => ret (false, e))).
Proof.
  pose proof (log_incident_change_same restored).
  destruct (negb (pyval_eqb restored original)); repeat same_step.
Qed.

(** X14: restoring never loses an archived incident.  Whatever calls to the
    store fail, after [restore_incident] the archive is as it was, or the
    incidents table holds a row with every archived column of the record. *)
Theorem restore_incident_never_loses_the_record
    (clk : clock) (w : world) (archive_id admin_id : pyval) (record : row) :
  archived_record w archive_id = Some record ->
  let w' := snd (restore_incident clk archive_id admin_id w) in
  rows_of w' ARCHIVE = rows_of w ARCHIVE
  \/ exists restored,
       In restored (rows_of w' INCIDENTS) /\ carries_columns record restored.
Proof.
  intros Hrec. cbv zeta.
  destruct (archived_record_rows _ _ _ Hrec) as [rest Hrows].
  unfold restore_incident.
  destruct (next_ok_or_fault w) as [Hok | (e & fs & Hf)];
    [| rewrite (try_bind_raise _ _ _ _ _ _ (select_raise _ _ _ _ _ Hf));
       left; reflexivity].
  rewrite (try_bind_ok _ _ _ _ _ _ (select_ok _ _ _ Hok)).
  rewrite Hrows. cbv zeta.
  destruct (next_ok_or_fault (advance w)) as [Hok1 | (e & fs & Hf)];
    [| rewrite (try_bind_raise _ _ _ _ _ _ (select_raise _ _ _ _ _ Hf));
       left; reflexivity].
  rewrite (try_bind_ok _ _ _ _ _ _ (select_ok _ _ _ Hok1)).
  assert (Hins : forall (restored : pyval) (w2 : world),
            rows_of w2 ARCHIVE = rows_of w ARCHIVE ->
            let w' :=
              snd (try_catch
                     (do _ <- insert INCIDENTS
                                (mk_row ([("icd_id", restored)]
                                         ++ copy_columns ARCHIVED_COLUMNS
                                              record)) ;
                      do _ <- delete ARCHIVE
                                (eq_filter "archive_id" archive_id) ;
                      do _ <- log_incident_change restored "restored" PyNone
                                (get record "icd_status") admin_id
                                (PyStr ("Restored from archive (original ID: "
                                        ++ str (get record "icd_id") ++ ")")) ;
                      if negb (pyval_eqb restored (get record "icd_id")) then
                        ret (true,
                             "Incident restored successfully with new ID: "
                             ++ str restored ++ " (original ID "
                             ++ str (get record "icd_id")
                             ++ " was already in use)")
                      else ret (true, "Incident restored successfully"))
                     (fun e => ret (false, e)) w2) in
            rows_of w' ARCHIVE = rows_of w ARCHIVE
            \/ exists row,
                 In row (rows_of w' INCIDENTS) /\ carries_columns record row).
  { intros restored w2 Hsame. cbv zeta.
    destruct (next_ok_or_fault w2) as [Hok2 | (e & fs & Hf)];
      [| rewrite (try_bind_raise _ _ _ _ _ _ (insert_raise _ _ _ _ _ Hf));
         left; exact Hsame].
    rewrite (try_bind_ok _ _ _ _ _ _ (insert_ok _ _ _ Hok2)).
    right. exists (incident_data restored record). split.
    - rewrite (restore_incident_tail_keeps_incidents archive_id admin_id
                 restored (get record "icd_id") (get record "icd_status") _).
      rewrite rows_of_set_rows_eq. apply in_or_app. right. left. reflexivity.
    - apply incident_data_carries. }
  destruct (List.filter (eq_filter "icd_id" (get record "icd_id"))
              (rows_of (advance w) INCIDENTS)) as [|live others].
  - rewrite (try_bind_ok (ret (get record "icd_id")) _ _ _ _ _ eq_refl).
    apply Hins. reflexivity.
  - rewrite try_bind_assoc.
    destruct (next_ok_or_fault (advance (advance w)))
      as [Hok2 | (e & fs & Hf)];
      [| rewrite (try_bind_raise _ _ _ _ _ _ (select_raise _ _ _ _ _ Hf));
         left; reflexivity].
    rewrite (try_bind_ok _ _ _ _ _ _ (select_ok _ _ _ Hok2)).
    destruct (List.filter _ (rows_of (advance (advance w)) INCIDENTS)).
    + rewrite (try_bind_ok (ret _) _ _ _ _ _ eq_refl).
      apply Hins. reflexivity.
    + rewrite (try_bind_ok (ret _) _ _ _ _ _ eq_refl).
      apply Hins. reflexivity.
Qed.

Lemma restore_incident_never_loses_the_record_witness :
  let w' := snd (restore_incident sample_clock (PyStr "8") (PyStr "ADM-X")
                   (with_faults [None; None; None; Some "timeout"]
                      archive_world)) in
  rows_of w' ARCHIVE = rows_of archive_world ARCHIVE
  \/ exists restored,
       In restored (rows_of w' INCIDENTS)
       /\ carries_columns archive_record_8 restored.
Proof.
  apply (restore_incident_never_loses_the_record sample_clock
           (with_faults [None; None; None; Some "timeout"] archive_world)
           (PyStr "8") (PyStr "ADM-X") archive_record_8).
  reflexivity.
Defined.

Lemma pyval_eqb_refl (v : pyval) : pyval_eqb v v = true.
Proof.
  destruct v; simpl; [reflexivity | apply String.eqb_refl | apply Z.eqb_refl].
Qed.

Lemma append_longer (s t : string) :
  t <> "" -> String.eqb (s ++ t) s = false.
Proof.
  intros Ht. apply String.eqb_neq. intros Heq.
  assert (Hlen : String.length (s ++ t) = String.length s) by (rewrite Heq; reflexivity).
  rewrite length_append in Hlen.
  destruct t as [|c t]; [contradiction |]. simpl in Hlen. lia.
Qed.

Lemma archived_suffix_id_is_new (original_icd_id archive_id : pyval) :
  pyval_eqb (archived_suffix_id original_icd_id archive_id) original_icd_id
  = false.
Proof.
  unfold archived_suffix_id.
  destruct original_icd_id as [| s | n]; [reflexivity | | reflexivity].
  cbn [pyval_eqb str]. apply append_longer.
  change ("_ARCHIVED_" ++ str archive_id)
    with (String "_" ("ARCHIVED_" ++ str archive_id)).
  discriminate.
Qed.

Lemma restore_incident_calm (clk : clock) (w : world)
    (archive_id admin_id restored : pyval) (record : row) (message : string) :
  faults w = [] ->
  (if negb (pyval_eqb restored (get record "icd_id")) then
     "Incident restored successfully with new ID: "
     ++ str restored ++ " (original ID "
     ++ str (get record "icd_id") ++ " was already in use)"
   else "Incident restored successfully") = message ->
  let w1 := set_rows INCIDENTS
              (rows_of w INCIDENTS ++ [incident_data restored record]) w in
  let w2 := set_rows ARCHIVE
              (without "archive_id" archive_id (rows_of w1 ARCHIVE)) w1 in
  let entry := mk_row [
         ("icd_id", restored);
         ("action_type", PyStr "restored");
         ("old_status", PyNone);
         ("new_status", get record "icd_status");
         ("changed_by", admin_id);
         ("change_reason",
          PyStr ("Restored from archive (original ID: "
                 ++ str (get record "icd_id") ++ ")"))] in
  try_catch
    (do _ <- insert INCIDENTS (incident_data restored record) ;
     do _ <- delete ARCHIVE (eq_filter "archive_id" archive_id) ;
     do _ <- log_incident_change restored "restored" PyNone
               (get record "icd_status") admin_id
               (PyStr ("Restored from archive (original ID: "
                       ++ str (get record "icd_id") ++ ")")) ;
     if negb (pyval_eqb restored (get record "icd_id")) then
       ret (true,
            "Incident restored successfully with new ID: "
            ++ str restored ++ " (original ID "
            ++ str (get record "icd_id") ++ " was already in use)")
     else ret (true, "Incident restored successfully"))
    (fun e => ret (false, e)) w
  = (Ok (true, message),
     set_rows AUDIT_TRAIL (rows_of w2 AUDIT_TRAIL ++ [entry]) w2).
Proof.
  intros Hc Hmsg w1 w2 entry.
  assert (Hc1 : faults w1 = []) by exact Hc.
  assert (Hc2 : faults w2 = []) by exact Hc.
  rewrite (try_bind_ok _ _ _ _ _ _ (insert_calm _ _ _ Hc)). fold w1.
  rewrite (try_bind_ok _ _ _ _ _ _ (delete_calm _ _ _ Hc1)).
  fold (without "archive_id" archive_id (rows_of w1 ARCHIVE)). fold w2.
  unfold log_incident_change. cbv [bind try_catch].
  rewrite (insert_calm _ _ _ Hc2). fold entry. cbv [ret].
  destruct (negb (pyval_eqb restored (get record "icd_id")));
    rewrite <- Hmsg; reflexivity.
Qed.

(** X15: what [restore_incident] does when the store answers every call.
    The record leaves the archive and the incidents table gains one row
    with every archived column, under the original id when that id is free,
    and otherwise under the original id followed by [_ARCHIVED_] and the
    archive id, if that one is free; in the second case the message names
    both ids.  The rows already in the incidents table are kept, and the
    audit trail gains one row with the status restored. *)
Theorem restore_incident_restores_the_record
    (clk : clock) (w : world) (archive_id admin_id : pyval) (record : row) :
  faults w = [] ->
  archived_record w archive_id = Some record ->
  let original := get record "icd_id" in
  let fresh := archived_suffix_id original archive_id in
  let run := restore_incident clk archive_id admin_id w in
  let restored_as restored :=
    rows_of (snd run) INCIDENTS
    = (rows_of w INCIDENTS ++ [incident_data restored record])%list
    /\ get (incident_data restored record) "icd_id" = restored
    /\ carries_columns record (incident_data restored record)
    /\ rows_of (snd run) ARCHIVE
       = without "archive_id" archive_id (rows_of w ARCHIVE)
    /\ audit_entries (snd run)
       = (audit_entries w
          ++ [(PyNone, get record "icd_status", admin_id)])%list in
  (incident_of w original = None ->
   fst run = Ok (true, "Incident restored successfully")
   /\ restored_as original)
  /\ (incident_of w original <> None -> incident_of w fresh = None ->
      fst run
      = Ok (true,
            "Incident restored successfully with new ID: " ++ str fresh
            ++ " (original ID " ++ str original ++ " was already in use)")
      /\ restored_as fresh).
Proof.
  intros Hc Hrec. cbv zeta.
  destruct (archived_record_rows _ _ _ Hrec) as [rest Hrows].
  assert (Hrestored : forall restored message,
    restore_incident clk archive_id admin_id w
    = try_catch
        (do _ <- insert INCIDENTS (incident_data restored record) ;
         do _ <- delete ARCHIVE (eq_filter "archive_id" archive_id) ;
         do _ <- log_incident_change restored "restored" PyNone
                   (get record "icd_status") admin_id
                   (PyStr ("Restored from archive (original ID: "
                           ++ str (get record "icd_id") ++ ")")) ;
         if negb (pyval_eqb restored (get record "icd_id")) then
           ret (true,
                "Incident restored successfully with new ID: "
                ++ str restored ++ " (original ID "
                ++ str (get record "icd_id") ++ " was already in use)")
         else ret (true, "Incident restored successfully"))
        (fun e => ret (false, e)) w ->
    (if negb (pyval_eqb restored (get record "icd_id")) then
       "Incident restored successfully with new ID: "
       ++ str restored ++ " (original ID "
       ++ str (get record "icd_id") ++ " was already in use)"
     else "Incident restored successfully") = message ->
    fst (restore_incident clk archive_id admin_id w) = Ok (true, message)
    /\ rows_of (snd (restore_incident clk archive_id admin_id w)) INCIDENTS
       = (rows_of w INCIDENTS ++ [incident_data restored record])%list
    /\ get (incident_data restored record) "icd_id" = restored
    /\ carries_columns record (incident_data restored record)
    /\ rows_of (snd (restore_incident clk archive_id admin_id w)) ARCHIVE
       = without "archive_id" archive_id (rows_of w ARCHIVE)
    /\ audit_entries (snd (restore_incident clk archive_id admin_id w))
       = (audit_entries w
          ++ [(PyNone, get record "icd_status", admin_id)])%list).
  { intros restored message Hstep Hmsg.
    rewrite Hstep, (restore_incident_calm clk w archive_id admin_id restored
                      record message Hc Hmsg).
    cbn [fst snd]. unfold audit_entries.
    split; [reflexivity |]. split; [table_rows; reflexivity |].
    split; [reflexivity |]. split; [apply incident_data_carries |].
    split; [table_rows; reflexivity |].
    table_rows. rewrite List.map_app. reflexivity. }
  split.
  - intros Hfree. apply incident_of_none_rows in Hfree.
    assert (H := Hrestored (get record "icd_id")
                   "Incident restored successfully").
    rewrite pyval_eqb_refl in H. apply H; [| reflexivity].
    unfold restore_incident.
    rewrite (try_bind_ok _ _ _ _ _ _ (select_calm _ _ _ Hc)). rewrite Hrows.
    cbv zeta.
    rewrite (try_bind_ok _ _ _ _ _ _ (select_calm _ _ _ Hc)). rewrite Hfree.
    rewrite (try_bind_ok (ret _) _ _ _ _ _ eq_refl).
    rewrite pyval_eqb_refl. reflexivity.
  - intros Htaken Hfree. apply incident_of_none_rows in Hfree.
    assert (H := Hrestored
                   (archived_suffix_id (get record "icd_id") archive_id)).
    rewrite archived_suffix_id_is_new in H. apply H; [| reflexivity].
    unfold restore_incident.
    rewrite (try_bind_ok _ _ _ _ _ _ (select_calm _ _ _ Hc)). rewrite Hrows.
    cbv zeta.
    rewrite (try_bind_ok _ _ _ _ _ _ (select_calm _ _ _ Hc)).
    unfold incident_of in Htaken.
    destruct (List.filter (eq_filter "icd_id" (get record "icd_id"))
                (rows_of w INCIDENTS)) as [|live others];
      [contradiction Htaken; reflexivity |].
    rewrite try_bind_assoc.
    rewrite (try_bind_ok _ _ _ _ _ _ (select_calm _ _ _ Hc)).
    fold (archived_suffix_id (get record "icd_id") archive_id).
    rewrite Hfree.
    rewrite (try_bind_ok (ret _) _ _ _ _ _ eq_refl).
    rewrite archived_suffix_id_is_new. reflexivity.
Qed.

Lemma restore_incident_restores_the_record_witness :
  let run := restore_incident sample_clock (PyStr "7") (PyStr "ADM-X")
               archive_world in
  fst run
  = Ok (true,
        "Incident restored successfully with new ID: ICD001_ARCHIVED_7 (original ID ICD001 was already in use)")
  /\ rows_of (snd run) INCIDENTS
     = (sample_incidents
        ++ [incident_data (PyStr "ICD001_ARCHIVED_7") archive_record_7])%list.
Proof.
  pose proof (proj2
                (restore_incident_restores_the_record sample_clock
                   archive_world (PyStr "7") (PyStr "ADM-X") archive_record_7
                   eq_refl eq_refl)
                ltac:(discriminate) eq_refl)
    as (Hmsg & Hrows & _).
  split; [exact Hmsg | exact Hrows].
Defined.

(** ** Bulk actions *)

Lemma bulk_status_update_one_result (clk : clock) (s : session)
    (new_status incident_id : pyval) (w : world) :
  exists r,
    fst (bulk_status_update_one clk s new_status incident_id w) = Ok r
    /\ b_incident_id r = incident_id.
Proof.
  unfold bulk_status_update_one, try_catch.
  destruct (bind _ _ w) as [[r | e] w'] eqn:H.
  - exists r. split; [reflexivity |].
    assert (H' : fst (bind (can_admin_edit_incident incident_id (admin_id s))
                   (fun permission =>
                      let '(can_edit, edit_message) := permission in
                      if negb can_edit then
                        ret (BulkResult incident_id false
                               ("Permission denied: " ++ edit_message))
                      else
                        do _ <- update INCIDENTS
                                  (bulk_update_data clk s new_status)
                                  (eq_filter "icd_id" incident_id) ;
                        do _ <- log_incident_change incident_id
                                  "status_updated" PyNone new_status
                                  (admin_id s) PyNone ;
                        ret (BulkResult incident_id true
                               "Status updated successfully")) w) = Ok r)
      by (rewrite H; reflexivity).
    apply bind_returns in H' as ([can reason] & w1 & _ & H').
    destruct can; cbn [negb] in H'.
    + apply bind_returns in H' as (u & w2 & _ & H').
      apply bind_returns in H' as (l & w3 & _ & H').
      inversion H'. reflexivity.
    + inversion H'. reflexivity.
  - exists (BulkResult incident_id false e). split; reflexivity.
Qed.

Lemma bulk_status_update_results (clk : clock) (s : session)
    (new_status : pyval) (incident_ids : list pyval) (w : world) :
  exists results,
    fst (bulk_status_update clk s new_status incident_ids w) = Ok results
    /\ List.map b_incident_id results = incident_ids.
Proof.
  revert w. induction incident_ids as [|incident_id rest IH]; intros w.
  - exists []. split; reflexivity.
  - cbn [bulk_status_update]. unfold bind at 1.
    destruct (bulk_status_update_one_result clk s new_status incident_id w)
      as (r & Hr & Hid).
    destruct (bulk_status_update_one clk s new_status incident_id w)
      as [[r' | e] w1]; cbn [fst] in Hr; [| discriminate].
    injection Hr as ->. unfold bind at 1.
    destruct (IH w1) as (results & Hrest & Hids).
    destruct (bulk_status_update clk s new_status rest w1)
      as [[results' | e] w2]; cbn [fst] in Hrest; [| discriminate].
    injection Hrest as ->.
    exists (r :: results). split; [reflexivity |].
    cbn [List.map]. rewrite Hid, Hids. reflexivity.
Qed.

Lemma archive_incident_never_raises (clk : clock)
    (incident_id admin_id reason : pyval) (w : world) :
  exists r, fst (archive_incident clk incident_id admin_id reason w) = Ok r.
Proof. unfold archive_incident. apply guarded_never_raises. Qed.

Lemma bulk_archive_incidents_results (clk : clock)
    (incident_ids : list pyval) (admin_id reason : pyval) (w : world) :
  exists results,
    fst (bulk_archive_incidents clk incident_ids admin_id reason w)
    = Ok results
    /\ List.map b_incident_id results = incident_ids.
Proof.
  revert w. induction incident_ids as [|incident_id rest IH]; intros w.
  - exists []. split; reflexivity.
  - cbn [bulk_archive_incidents]. unfold bind at 1.
    destruct (archive_incident_never_raises clk incident_id admin_id reason w)
      as (r & Hr).
    destruct (archive_incident clk incident_id admin_id reason w)
      as [[r' | e] w1]; cbn [fst] in Hr; [| discriminate].
    injection Hr as ->. unfold bind at 1.
    destruct (IH w1) as (results & Hrest & Hids).
    destruct (bulk_archive_incidents clk rest admin_id reason w1)
      as [[results' | e] w2]; cbn [fst] in Hrest; [| discriminate].
    injection Hrest as ->.
    exists (BulkResult incident_id (fst r) (snd r) :: results).
    split; [reflexivity |].
    cbn [List.map b_incident_id]. rewrite Hids. reflexivity.
Qed.

Lemma count_text_map {A B} (f : A -> B) (l : list A) :
  count_text (List.map f l) = count_text l.
Proof. unfold count_text. rewrite List.length_map. reflexivity. Qed.

(** X16: a bulk action answers for every id it was given.  Whatever calls
    to the store fail and whichever incidents are refused, the bulk status
    update and the bulk archive reply with status 200 and one result per id,
    in the order submitted; the number in the message is the number of ids
    submitted, not the number of incidents changed. *)
Theorem bulk_action_answers_for_every_id
    (clk : clock) (s : session) (w : world)
    (incident_ids : list pyval) (reason new_status : pyval) :
  incident_ids <> [] ->
  (truthy new_status = true ->
   exists results,
     fst (api_bulk_action clk (Some s) (PyStr "status_update") incident_ids
            reason new_status w)
     = Ok (Json 200 (JResults results
                       ("Updated " ++ count_text incident_ids ++ " incidents")))
     /\ List.map b_incident_id results = incident_ids)
  /\ exists results,
       fst (api_bulk_action clk (Some s) (PyStr "archive") incident_ids
              reason new_status w)
       = Ok (Json 200 (JResults results
                         ("Processed " ++ count_text incident_ids
                          ++ " incidents")))
       /\ List.map b_incident_id results = incident_ids.
Proof.
  intros Hsome.
  destruct incident_ids as [|first rest]; [contradiction |].
  split.
  - intros Hstatus. unfold api_bulk_action.
    destruct (bulk_status_update_results clk s new_status (first :: rest) w)
      as (results & Hres & Hids).
    exists results. split; [| exact Hids].
    assert (Href : pyval_eqb (PyStr "status_update") (PyStr "archive") = false)
      by reflexivity.
    assert (Href' : pyval_eqb (PyStr "status_update") (PyStr "status_update")
                    = true) by reflexivity.
    rewrite Href, Href', Hstatus. cbn [negb].
    unfold try_catch, bind.
    destruct (bulk_status_update clk s new_status (first :: rest) w)
      as [[results' | e] w1]; cbn [fst] in Hres; [| discriminate].
    injection Hres as ->. cbn [fst ret].
    rewrite <- Hids, count_text_map. reflexivity.
  - unfold api_bulk_action.
    destruct (bulk_archive_incidents_results clk (first :: rest) (admin_id s)
                reason w) as (results & Hres & Hids).
    exists results. split; [| exact Hids].
    assert (Href : pyval_eqb (PyStr "archive") (PyStr "archive") = true)
      by reflexivity.
    rewrite Href. unfold try_catch, bind.
    destruct (bulk_archive_incidents clk (first :: rest) (admin_id s) reason w)
      as [[results' | e] w1]; cbn [fst] in Hres; [| discriminate].
    injection Hres as ->. cbn [fst ret].
    rewrite <- Hids, count_text_map. reflexivity.
Qed.

Lemma bulk_action_answers_for_every_id_witness :
  exists results,
    fst (api_bulk_action sample_clock (Some admin_y) (PyStr "status_update")
           [PyStr "ICD002"; PyStr "ICD404"] PyNone (PyStr "Resolved")
           (with_faults [None; Some "timeout"] sample_world))
    = Ok (Json 200 (JResults results
                      ("Updated "
                       ++ count_text [PyStr "ICD002"; PyStr "ICD404"]
                       ++ " incidents")))
    /\ List.map b_incident_id results = [PyStr "ICD002"; PyStr "ICD404"].
Proof.
  apply (proj1
           (bulk_action_answers_for_every_id sample_clock admin_y
              (with_faults [None; Some "timeout"] sample_world)
              [PyStr "ICD002"; PyStr "ICD404"] PyNone (PyStr "Resolved")
              ltac:(discriminate))).
  reflexivity.
Defined.

(** ** The two timestamp parsers *)

Section ParserAgreement.

Variable fromisoformat : string -> option datetime.
Variable strptime : string -> option datetime.
Variable early_offset : Z -> Z.
Variable edge_localize : datetime -> result datetime.

Lemma replace_Z_no_Z (s : string) : no_Z s = true -> replace_Z s = s.
Proof.
  unfold no_Z. induction s as [|c s IH]; cbn [sforall replace_Z];
    [reflexivity |].
  intros H. apply andb_prop in H as [Hc Hs].
  destruct (Ascii.eqb c "Z"); [discriminate |]. rewrite IH by exact Hs.
  reflexivity.
Qed.

Lemma endswith_char_no_Z (s : string) :
  no_Z s = true -> endswith_char "Z" s = false.
Proof.
  unfold no_Z. induction s as [|c s IH]; cbn [sforall]; [reflexivity |].
  intros H. apply andb_prop in H as [Hc Hs].
  destruct s as [|c' s'].
  - cbn [endswith_char]. destruct (Ascii.eqb c "Z"); [discriminate | reflexivity].
  - change (endswith_char "Z" (String c (String c' s')))
      with (endswith_char "Z" (String c' s')).
    apply IH. exact Hs.
Qed.

Lemma aware_datetime_parsed (d : datetime) (off : Z) :
  tzinfo d = Some off ->
  let utc := wall d - off in
  let tz := manila_offset early_offset utc in
  let converted := Datetime (utc + tz) (Some tz) in
  (in_range utc && in_range (utc + tz) = true ->
   _parse_datetime fromisoformat early_offset (TsDatetime d)
   = Ok (Some converted)
   /\ parse_timestamp fromisoformat strptime early_offset edge_localize
        (TsDatetime d)
      = Ok (Some converted))
  /\ (in_range utc && in_range (utc + tz) = false ->
      _parse_datetime fromisoformat early_offset (TsDatetime d) = Ok (Some d)
      /\ parse_timestamp fromisoformat strptime early_offset edge_localize
           (TsDatetime d)
         = Ok None).
Proof.
  intros Haware. cbv zeta.
  unfold _parse_datetime, parse_timestamp.
  cbn [ts_truthy negb rbind rtry]. rewrite Haware.
  unfold astimezone. rewrite Haware. cbv zeta.
  split; intros ->; split; reflexivity.
Qed.

(** X17: the two parsers agree on values that carry a zone.  For an aware
    [datetime], and for text with a [T] that ends in [Z] or has no [Z] and
    that [fromisoformat] reads as an aware value, [_parse_datetime] and the
    feed's [parse_timestamp] return the same value: the same instant, on the
    Manila clock at the offset Asia/Manila has at that instant, which is
    +08:00 for every instant from 1991 on.  Only when the conversion leaves
    the range of [datetime] do they differ: the first returns the value
    unconverted, the second [None]. *)
Theorem parsers_agree_on_aware_values (d : datetime) (off : Z) :
  tzinfo d = Some off ->
  let utc := wall d - off in
  let tz := manila_offset early_offset utc in
  let converted := Datetime (utc + tz) (Some tz) in
  (MANILA_SETTLED <= utc -> tz = PHILIPPINES_TZ)
  /\ (in_range utc && in_range (utc + tz) = true ->
      instant converted = instant d
      /\ _parse_datetime fromisoformat early_offset (TsDatetime d)
         = Ok (Some converted)
      /\ parse_timestamp fromisoformat strptime early_offset edge_localize
           (TsDatetime d)
         = Ok (Some converted)
      /\ forall s,
           s <> "" -> contains "T" s = true ->
           endswith_char "Z" s = true \/ no_Z s = true ->
           fromisoformat (replace_Z s) = Some d ->
           _parse_datetime fromisoformat early_offset (TsVal (PyStr s))
           = Ok (Some converted)
           /\ parse_timestamp fromisoformat strptime early_offset
                edge_localize (TsVal (PyStr s))
              = Ok (Some converted))
  /\ (in_range utc && in_range (utc + tz) = false ->
      _parse_datetime fromisoformat early_offset (TsDatetime d) = Ok (Some d)
      /\ parse_timestamp fromisoformat strptime early_offset edge_localize
           (TsDatetime d)
         = Ok None).
Proof.
  intros Haware.
  destruct (aware_datetime_parsed d off Haware) as [Hin Hout].
  cbv zeta in *. split; [| split; [| exact Hout]].
  { intros Hsettled. unfold manila_offset.
    apply Z.leb_le in Hsettled. rewrite Hsettled. reflexivity. }
  intros Hrange. destruct (Hin Hrange) as [Hshared Hfeed].
  split; [| split; [exact Hshared | split; [exact Hfeed |]]].
  - unfold instant. cbn [tzinfo wall option_map]. rewrite Haware.
    cbn [option_map]. f_equal. lia.
  - intros s Hne Htee Hz Hparse.
    assert (Htruthy : negb (ts_truthy (TsVal (PyStr s))) = false).
    { cbn [ts_truthy truthy]. apply String.eqb_neq in Hne. rewrite Hne.
      reflexivity. }
    assert (Htext : (if endswith_char "Z" s then replace_Z s else s)
                    = replace_Z s).
    { destruct Hz as [-> | Hno]; [reflexivity |].
      rewrite endswith_char_no_Z, replace_Z_no_Z by exact Hno. reflexivity. }
    unfold _parse_datetime, parse_timestamp in *. rewrite Htruthy.
    cbn [ts_truthy negb rbind rtry str] in *. rewrite Htee, Htext.
    unfold parse_with. rewrite Hparse. cbn [rbind rtry].
    split; [exact Hshared | exact Hfeed].
Qed.

(** X18: neither parser ever raises.  An absent value gives [None]; so does
    text that Python's parsers reject; and the feed's parser gives [None]
    for a number. *)
Theorem parsers_never_raise (value : tsval) :
  (exists r, _parse_datetime fromisoformat early_offset value = Ok r)
  /\ (exists r, parse_timestamp fromisoformat strptime early_offset edge_localize
                  value = Ok r)
  /\ (ts_truthy value = false ->
      _parse_datetime fromisoformat early_offset value = Ok None
      /\ parse_timestamp fromisoformat strptime early_offset edge_localize
           value = Ok None)
  /\ (forall s,
        value = TsVal (PyStr s) ->
        fromisoformat s = None -> fromisoformat (replace_Z s) = None ->
        strptime (take_chars 19 s) = None ->
        _parse_datetime fromisoformat early_offset value = Ok None
        /\ parse_timestamp fromisoformat strptime early_offset edge_localize
             value = Ok None)
  /\ (forall n,
        value = TsVal (PyInt n) ->
        parse_timestamp fromisoformat strptime early_offset edge_localize
          value = Ok None).
Proof.
  split; [apply _parse_datetime_never_raises |].
  split; [apply parse_timestamp_never_raises |].
  split; [apply parsers_absent_value |]. split.
  - intros s -> Hplain Hreplaced Hstrp. split.
    + apply _parse_datetime_unparseable. cbn [str].
      destruct (endswith_char "Z" s); assumption.
    + apply parse_timestamp_unparseable; assumption.
  - intros n ->. unfold parse_timestamp.
    destruct (negb (ts_truthy (TsVal (PyInt n)))); reflexivity.
Qed.

End ParserAgreement.

Lemma parsers_agree_on_aware_values_witness :
  _parse_datetime zoned_fromisoformat sample_early_offset
    (TsVal (PyStr utc_text))
  = Ok (Some (Datetime (739006 * DAY + 18 * HOUR) (Some PHILIPPINES_TZ)))
  /\ parse_timestamp zoned_fromisoformat no_parser sample_early_offset
       sample_edge_localize (TsVal (PyStr utc_text))
     = Ok (Some (Datetime (739006 * DAY + 18 * HOUR) (Some PHILIPPINES_TZ))).
Proof.
  apply (proj2 (proj2 (proj2
           (proj1 (proj2
              (parsers_agree_on_aware_values zoned_fromisoformat no_parser
                 sample_early_offset sample_edge_localize utc_10am UTC
                 eq_refl))
              eq_refl)))
           utc_text ltac:(discriminate) eq_refl (or_introl eq_refl) eq_refl).
Defined.

Lemma parsers_never_raise_witness :
  _parse_datetime no_parser sample_early_offset (TsVal (PyStr "yesterday"))
  = Ok None
  /\ parse_timestamp no_parser no_parser sample_early_offset
       sample_edge_localize (TsVal (PyStr "yesterday"))
     = Ok None.
Proof.
  apply (proj1 (proj2 (proj2 (proj2
           (parsers_never_raise no_parser no_parser sample_early_offset
              sample_edge_localize (TsVal (PyStr "yesterday"))))))
           "yesterday" eq_refl eq_refl eq_refl eq_refl).
Defined.

(** ** Admin ids *)

Lemma filter_all {A} (l : list A) : List.filter (fun _ => true) l = l.
Proof. induction l as [|a l IH]; simpl; [reflexivity | rewrite IH; reflexivity]. Qed.

Lemma length_take_chars (n : nat) (s : string) :
  (n <= String.length s)%nat -> String.length (take_chars n s) = n.
Proof.
  revert s. induction n as [|n IH]; intros s Hn; [reflexivity |].
  destruct s as [|c s]; simpl in *; [lia |]. rewrite IH by lia. reflexivity.
Qed.

Lemma max_admin_number_step_number (max_number : Z) (admin : row) :
  max_admin_number_step max_number admin
  = match admin_number admin with
    | Some n => Z.max max_number n
    | None => max_number
    end.
Proof.
  unfold max_admin_number_step, admin_number.
  destruct (get admin "admin_id") as [|s|n]; try reflexivity.
  destruct (startswith (upper s) "ADM-") eqn:Hp.
  - assert (Hne : truthy (PyStr s) = true).
    { cbn [truthy]. destruct s; [discriminate Hp | reflexivity]. }
    rewrite Hne. cbn [andb].
    destruct (all_digits (drop_chars 4 s)); reflexivity.
  - rewrite andb_false_r. reflexivity.
Qed.

Lemma fold_max_ge (admins : list row) (acc : Z) :
  acc <= fold_left max_admin_number_step admins acc.
Proof.
  revert acc. induction admins as [|a admins IH]; intros acc; cbn [fold_left];
    [lia |].
  specialize (IH (max_admin_number_step acc a)).
  rewrite max_admin_number_step_number in *.
  destruct (admin_number a); lia.
Qed.

Lemma fold_max_bounds (admins : list row) (acc : Z) (admin : row) (n : Z) :
  In admin admins -> admin_number admin = Some n ->
  n <= fold_left max_admin_number_step admins acc.
Proof.
  revert acc. induction admins as [|a admins IH]; intros acc Hin Hn;
    [contradiction |].
  cbn [fold_left]. destruct Hin as [-> | Hin].
  - pose proof (fold_max_ge admins (max_admin_number_step acc admin)) as H.
    assert (Hstep : n <= max_admin_number_step acc admin)
      by (rewrite max_admin_number_step_number, Hn; lia).
    lia.
  - apply IH; assumption.
Qed.

Lemma startswith_adm (s : string) :
  startswith (String "A" (String "D" (String "M" (String "-" s)))) "ADM-"
  = true.
Proof. destruct s; reflexivity. Qed.

Lemma printable_small (n : Z) : 0 <= n < 100000 -> printable n.
Proof.
  intros Hn. unfold printable. rewrite str_nonneg by lia.
  rewrite length_string_of_uint.
  assert (Hd : (nb_digits (N.to_uint (Z.to_N n)) <= 5)%nat).
  { apply to_uint_digits. change (10 ^ N.of_nat 5)%N with 100000%N. lia. }
  unfold MAX_STR_DIGITS. lia.
Qed.

Lemma admin_number_of_generated (admin : row) (n : Z) :
  0 <= n -> printable n ->
  get admin "admin_id" = PyStr ("ADM-" ++ padded_digits 4 n) ->
  admin_number admin = Some n.
Proof.
  intros Hn Hp Hid. unfold admin_number. rewrite Hid.
  change ("ADM-" ++ padded_digits 4 n)
    with (String "A" (String "D" (String "M" (String "-" (padded_digits 4 n))))).
  assert (Hprefix : startswith
            (upper (String "A" (String "D" (String "M"
                      (String "-" (padded_digits 4 n)))))) "ADM-" = true)
    by apply startswith_adm.
  rewrite Hprefix. cbn [drop_chars andb].
  assert (Hdigits : all_digits (padded_digits 4 n) = true).
  { unfold all_digits.
    rewrite (sforall_weaken isdecimal isdigit _ decimal_isdigit
               (padded_digits_decimal 4 n Hn)).
    pose proof (padded_digits_at_least 4 n) as Hlen.
    destruct (padded_digits 4 n); [simpl in Hlen; lia | reflexivity]. }
  rewrite Hdigits. apply int_of_padded_digits; [exact Hn | | exact Hp].
  unfold MAX_STR_DIGITS. lia.
Qed.

Lemma max_admin_number_nonneg (admins : list row) :
  0 <= max_admin_number admins.
Proof. apply fold_max_ge. Qed.

Lemma generate_next_admin_id_run (w : world) :
  next_ok w ->
  generate_next_admin_id w
  = (Ok (match zero_pad 4 (max_admin_number (rows_of w ADMINS) + 1) with
         | Some digits => take_chars 8 ("ADM-" ++ digits)
         | None => "ADM-0001"
         end),
     advance w).
Proof.
  intros Hok. unfold generate_next_admin_id.
  rewrite (try_bind_ok _ _ _ _ _ _ (select_ok _ _ _ Hok)).
  rewrite filter_all. cbv zeta.
  unfold zero_pad.
  destruct (String.length _ <=? MAX_STR_DIGITS)%nat; [| reflexivity].
  set (padded := padded_digits 4 (max_admin_number (rows_of w ADMINS) + 1)).
  pose proof (padded_digits_at_least 4 (max_admin_number (rows_of w ADMINS) + 1))
    as Hlen. fold padded in Hlen.
  change ("ADM-" ++ padded)
    with (String "A" (String "D" (String "M" (String "-" padded)))).
  cbn [String.length].
  destruct (Nat.eqb (S (S (S (S (String.length padded))))) 8) eqn:Heq;
    cbn [negb].
  - apply Nat.eqb_eq in Heq.
    assert (H4 : String.length padded = 4%nat) by lia.
    cbn [take_chars].
    destruct padded as [|a [|b [|c [|d [|e p]]]]]; simpl in H4; try lia.
    reflexivity.
  - apply Nat.eqb_neq in Heq.
    destruct (Nat.ltb_spec (S (S (S (S (String.length padded))))) 8);
      [lia | reflexivity].
Qed.

Lemma generate_next_admin_id_printable (w : world) :
  next_ok w ->
  printable (max_admin_number (rows_of w ADMINS) + 1) ->
  generate_next_admin_id w
  = (Ok (take_chars 8
           ("ADM-"
            ++ padded_digits 4 (max_admin_number (rows_of w ADMINS) + 1))),
     advance w).
Proof.
  intros Hok Hp. rewrite (generate_next_admin_id_run w Hok).
  rewrite zero_pad_printable by exact Hp. reflexivity.
Qed.

(** X19: [generate_next_admin_id] always answers with an id of exactly
    eight characters that starts with [ADM-]; it never raises, makes one
    call and writes nothing, and when that call fails the id is
    [ADM-0001] whatever accounts exist. *)
Theorem generate_next_admin_id_is_well_formed (w : world) :
  (exists id,
     generate_next_admin_id w = (Ok id, advance w)
     /\ String.length id = 8%nat
     /\ startswith id "ADM-" = true)
  /\ (forall e fs,
        faults w = Some e :: fs ->
        fst (generate_next_admin_id w) = Ok "ADM-0001").
Proof.
  split.
  - destruct (next_ok_or_fault w) as [Hok | (e & fs & Hf)].
    + rewrite (generate_next_admin_id_run w Hok). eexists.
      split; [reflexivity |]. unfold zero_pad.
      destruct (String.length _ <=? MAX_STR_DIGITS)%nat;
        [| split; reflexivity].
      pose proof (padded_digits_at_least 4 (max_admin_number (rows_of w ADMINS) + 1))
        as Hlen.
      split.
      * apply length_take_chars. rewrite length_append. simpl. lia.
      * change ("ADM-" ++ padded_digits 4 (max_admin_number (rows_of w ADMINS) + 1))
          with (String "A" (String "D" (String "M" (String "-"
                  (padded_digits 4 (max_admin_number (rows_of w ADMINS) + 1)))))).
        apply startswith_adm.
    + unfold generate_next_admin_id.
      rewrite (try_bind_raise _ _ _ _ _ _ (select_raise _ _ _ _ _ Hf)).
      eexists. split; [reflexivity |]. split; reflexivity.
  - intros e fs Hf. unfold generate_next_admin_id.
    rewrite (try_bind_raise _ _ _ _ _ _ (select_raise _ _ _ _ _ Hf)).
    reflexivity.
Qed.

Lemma generate_next_admin_id_is_well_formed_witness :
  fst (generate_next_admin_id
         (with_faults [Some "connection reset"] admins_world))
  = Ok "ADM-0001".
Proof.
  apply (proj2
           (generate_next_admin_id_is_well_formed
              (with_faults [Some "connection reset"] admins_world))
           "connection reset" []).
  reflexivity.
Defined.

Lemma length_padded_digits_four (m : Z) :
  0 <= m < 10000 -> String.length (padded_digits 4 m) = 4%nat.
Proof.
  intros Hm. unfold padded_digits. rewrite length_append, length_zeros.
  rewrite str_nonneg by lia. rewrite length_string_of_uint.
  assert (Hd : (nb_digits (N.to_uint (Z.to_N m)) <= 4)%nat).
  { apply to_uint_digits. change (10 ^ N.of_nat 4)%N with 10000%N. lia. }
  lia.
Qed.

Lemma take_chars_all (n : nat) (s : string) :
  String.length s = n -> take_chars n s = s.
Proof.
  revert s. induction n as [|n IH]; intros s Hlen.
  - destruct s; [reflexivity | discriminate].
  - destruct s as [|c s]; [discriminate |]. simpl in *.
    rewrite IH by lia. reflexivity.
Qed.

Lemma long_admin_id_does_not_count (max_number : Z) (admin : row)
    (digits : string) :
  get admin "admin_id" = PyStr ("ADM-" ++ digits) ->
  (MAX_STR_DIGITS < String.length digits)%nat ->
  max_admin_number_step max_number admin = max_number.
Proof.
  intros Hid Hlong. unfold max_admin_number_step. rewrite Hid.
  change ("ADM-" ++ digits)
    with (String "A" (String "D" (String "M" (String "-" digits)))).
  cbn [drop_chars]. rewrite (int_of_long_text digits Hlong).
  destruct (_ && _)%bool; [| reflexivity].
  destruct (all_digits digits); reflexivity.
Qed.

(** X20: the id [generate_next_admin_id] returns is new as long as the
    highest number in use is below 9999: it is [ADM-] followed by the next
    number on four digits, and no account has it.  At 9999 the id is cut to
    eight characters and comes out as [ADM-1000].  The highest number is
    taken over the ids that are [ADM-] followed by digits Python reads: an
    id with more than 4300 digits does not count. *)
Theorem generate_next_admin_id_is_fresh (w : world) :
  next_ok w ->
  let highest := max_admin_number (rows_of w ADMINS) in
  (highest < 9999 ->
   fst (generate_next_admin_id w) = Ok ("ADM-" ++ padded_digits 4 (highest + 1))
   /\ forall admin,
        In admin (rows_of w ADMINS) ->
        get admin "admin_id" <> PyStr ("ADM-" ++ padded_digits 4 (highest + 1)))
  /\ (highest = 9999 -> fst (generate_next_admin_id w) = Ok "ADM-1000")
  /\ (forall admin digits max_number,
        get admin "admin_id" = PyStr ("ADM-" ++ digits) ->
        (MAX_STR_DIGITS < String.length digits)%nat ->
        max_admin_number_step max_number admin = max_number).
Proof.
  intros Hok. cbv zeta.
  pose proof (max_admin_number_nonneg (rows_of w ADMINS)) as Hnn.
  split; [| split;
            [| intros admin digits max_number;
               apply long_admin_id_does_not_count]].
  - intros Hlow.
    assert (Hp : printable (max_admin_number (rows_of w ADMINS) + 1))
      by (apply printable_small; lia).
    rewrite (generate_next_admin_id_printable w Hok Hp). cbn [fst]. split.
    + rewrite take_chars_all; [reflexivity |].
      rewrite length_append, length_padded_digits_four by lia. reflexivity.
    + intros admin Hin Hid.
      pose proof (admin_number_of_generated admin
                    (max_admin_number (rows_of w ADMINS) + 1) ltac:(lia) Hp
                    Hid)
        as Hnum.
      pose proof (fold_max_bounds _ 0 admin _ Hin Hnum) as Hle.
      fold (max_admin_number (rows_of w ADMINS)) in Hle. lia.
  - intros Hmax. rewrite (generate_next_admin_id_run w Hok), Hmax.
    reflexivity.
Qed.

Lemma generate_next_admin_id_is_fresh_witness :
  fst (generate_next_admin_id admins_world) = Ok "ADM-0042".
Proof.
  apply (proj1
           (proj1 (generate_next_admin_id_is_fresh admins_world I)
              ltac:(reflexivity))).
Defined.

Lemma decimal_not_space (c : ascii) : isdecimal c = true -> isspace c = false.
Proof.
  intros H. apply decimal_code in H. unfold isspace, between.
  assert (H1 : (9 <=? code c)%N && (code c <=? 13)%N = false)
    by (apply andb_false_iff; right; apply N.leb_gt; lia).
  assert (H2 : (28 <=? code c)%N && (code c <=? 32)%N = false)
    by (apply andb_false_iff; right; apply N.leb_gt; lia).
  assert (H3 : (code c =? 133)%N = false) by (apply N.eqb_neq; lia).
  assert (H4 : (code c =? 160)%N = false) by (apply N.eqb_neq; lia).
  rewrite H1, H2, H3, H4. reflexivity.
Qed.

Lemma lstrip_nonspace (s : string) :
  sforall (fun c => negb (isspace c)) s = true -> lstrip s = s.
Proof.
  destruct s as [|c s]; [reflexivity |]. cbn [sforall lstrip].
  intros H. apply andb_prop in H as [Hc _].
  destruct (isspace c); [discriminate | reflexivity].
Qed.

Lemma rstrip_nonspace (s : string) :
  sforall (fun c => negb (isspace c)) s = true -> rstrip s = s.
Proof.
  induction s as [|c s IH]; [reflexivity |]. cbn [sforall rstrip].
  intros H. apply andb_prop in H as [Hc Hs]. rewrite IH by exact Hs.
  destruct s; [| reflexivity].
  destruct (isspace c); [discriminate | reflexivity].
Qed.

Lemma strip_nonspace (s : string) :
  sforall (fun c => negb (isspace c)) s = true -> strip s = s.
Proof.
  intros H. unfold strip. rewrite lstrip_nonspace by exact H.
  apply rstrip_nonspace. exact H.
Qed.

Lemma decimal_nonspace (s : string) :
  sforall isdecimal s = true ->
  sforall (fun c => negb (isspace c)) s = true.
Proof.
  apply sforall_weaken. intros c H. rewrite decimal_not_space by exact H.
  reflexivity.
Qed.

Lemma prefix_head_differs (a c : ascii) (p s : string) :
  a <> c -> String.prefix (String a p) (String c s) = false.
Proof.
  intros Hne. cbn [String.prefix].
  destruct (ascii_dec a c); [contradiction | reflexivity].
Qed.

Lemma decimal_differs (a c : ascii) :
  isdecimal a = false -> isdecimal c = true -> a <> c.
Proof. intros Ha Hc ->. rewrite Ha in Hc. discriminate. Qed.

(** The filter on a value whose text is, after an optional prefix the code
    drops, a run of decimal digits. *)
Lemma format_admin_id_digits (admin_id : pyval) (digits : string) (n : Z) :
  truthy admin_id = true ->
  strip (str admin_id) = str admin_id ->
  (if startswith (upper (str admin_id)) "ADM-" then drop_chars 4 (str admin_id)
   else if startswith (upper (str admin_id)) "ADM"
        then drop_chars 3 (str admin_id)
        else str admin_id) = digits ->
  digits <> "" ->
  sforall isdecimal digits = true ->
  int_of_string digits = Some n ->
  format_admin_id_filter admin_id = "ADM-" ++ padded_digits 5 n.
Proof.
  intros Hs Hstrip Hrest Hne Hdec Hint. unfold format_admin_id_filter.
  rewrite Hs. cbn [negb]. rewrite Hstrip. cbv zeta. rewrite Hrest.
  rewrite (sfilter_all isdigit digits
             (sforall_weaken _ _ _ decimal_isdigit Hdec)).
  apply String.eqb_neq in Hne. rewrite Hne. cbn [negb]. rewrite Hint.
  rewrite zero_pad_printable by (apply (printable_of_int digits), Hint).
  reflexivity.
Qed.

Lemma decimal_is_no_prefix (digits : string) :
  digits <> "" -> sforall isdecimal digits = true ->
  (if startswith (upper digits) "ADM-" then drop_chars 4 digits
   else if startswith (upper digits) "ADM" then drop_chars 3 digits
        else digits) = digits.
Proof.
  intros Hne Hdec. rewrite (upper_decimal digits Hdec).
  destruct digits as [|c d]; [contradiction |].
  cbn [sforall] in Hdec. apply andb_prop in Hdec as [Hc _].
  unfold startswith.
  rewrite !prefix_head_differs
    by (apply decimal_differs; [reflexivity | exact Hc]).
  reflexivity.
Qed.

Lemma format_admin_id_spellings (digits : string) (n : Z) :
  digits <> "" ->
  sforall isdecimal digits = true ->
  int_of_string digits = Some n ->
  format_admin_id_filter (PyStr digits) = "ADM-" ++ padded_digits 5 n
  /\ format_admin_id_filter (PyStr ("ADM" ++ digits)) = "ADM-" ++ padded_digits 5 n
  /\ format_admin_id_filter (PyStr ("ADM-" ++ digits)) = "ADM-" ++ padded_digits 5 n
  /\ format_admin_id_filter (PyStr ("adm-" ++ digits)) = "ADM-" ++ padded_digits 5 n.
Proof.
  intros Hne Hdec Hint.
  pose proof (decimal_nonspace digits Hdec) as Hns.
  pose proof (upper_decimal digits Hdec) as Hup.
  assert (Hprefixed : forall a b m : ascii,
            upper_char a = "A"%char -> upper_char b = "D"%char ->
            upper_char m = "M"%char ->
            isspace a = false -> isspace b = false -> isspace m = false ->
            format_admin_id_filter
              (PyStr (String a (String b (String m (String "-" digits)))))
            = "ADM-" ++ padded_digits 5 n).
  { intros a b m Ha Hb Hm Hsa Hsb Hsm.
    apply (format_admin_id_digits _ digits n); try assumption.
    - reflexivity.
    - apply strip_nonspace. cbn [str sforall]. rewrite Hsa, Hsb, Hsm, Hns.
      reflexivity.
    - cbn [str]. unfold upper. cbn [smap]. rewrite Ha, Hb, Hm.
      change (upper_char "-") with "-"%char.
      rewrite startswith_adm. reflexivity. }
  split; [| split; [| split]].
  - apply (format_admin_id_digits _ digits n); try assumption.
    + cbn [truthy]. apply String.eqb_neq in Hne. rewrite Hne. reflexivity.
    + apply strip_nonspace. exact Hns.
    + apply decimal_is_no_prefix; assumption.
  - apply (format_admin_id_digits _ digits n); try assumption.
    + reflexivity.
    + apply strip_nonspace.
      change (str (PyStr ("ADM" ++ digits)))
        with (String "A" (String "D" (String "M" digits))).
      cbn [sforall]. rewrite Hns. reflexivity.
    + change (str (PyStr ("ADM" ++ digits)))
        with (String "A" (String "D" (String "M" digits))).
      unfold upper. cbn [smap]. fold (upper digits). rewrite Hup.
      change (upper_char "A") with "A"%char.
      change (upper_char "D") with "D"%char.
      change (upper_char "M") with "M"%char.
      destruct digits as [|c d]; [contradiction |].
      cbn [sforall] in Hdec. apply andb_prop in Hdec as [Hc _].
      unfold startswith. cbn [String.prefix].
      destruct (ascii_dec "A" "A"); [| contradiction].
      destruct (ascii_dec "D" "D"); [| contradiction].
      destruct (ascii_dec "M" "M"); [| contradiction].
      destruct (ascii_dec "-" c) as [<- | _]; [discriminate Hc |].
      destruct d; reflexivity.
  - apply (Hprefixed "A" "D" "M")%char; reflexivity.
  - apply (Hprefixed "a" "d" "m")%char; reflexivity.
Qed.

(** The filter on digits that [int] does not read. *)
Lemma format_admin_id_unread (admin_id : pyval) (digits : string) :
  truthy admin_id = true ->
  strip (str admin_id) = str admin_id ->
  (if startswith (upper (str admin_id)) "ADM-" then drop_chars 4 (str admin_id)
   else if startswith (upper (str admin_id)) "ADM"
        then drop_chars 3 (str admin_id)
        else str admin_id) = digits ->
  digits <> "" ->
  sforall isdecimal digits = true ->
  int_of_string digits = None ->
  format_admin_id_filter admin_id = "ADM-" ++ str admin_id.
Proof.
  intros Hs Hstrip Hrest Hne Hdec Hint. unfold format_admin_id_filter.
  rewrite Hs. cbn [negb]. rewrite Hstrip. cbv zeta. rewrite Hrest.
  rewrite (sfilter_all isdigit digits
             (sforall_weaken _ _ _ decimal_isdigit Hdec)).
  apply String.eqb_neq in Hne. rewrite Hne. cbn [negb]. rewrite Hint.
  reflexivity.
Qed.

(** X21: [format_admin_id_filter] brings the spellings of an admin id to one
    form.  A run of at most 4300 decimal digits spells a number; the run,
    bare or after [ADM], [ADM-] or [adm-], and the number itself when it is
    positive, all come out as [ADM-] followed by the number on five digits;
    formatting a formatted id changes nothing.  A run of more than 4300
    digits is not read: the value comes back as it was, after [ADM-]. *)
Theorem format_admin_id_filter_normalises (digits : string) :
  digits <> "" ->
  sforall isdecimal digits = true ->
  (forall n,
     int_of_string digits = Some n ->
     let formatted := "ADM-" ++ padded_digits 5 n in
     format_admin_id_filter (PyStr digits) = formatted
     /\ format_admin_id_filter (PyStr ("ADM" ++ digits)) = formatted
     /\ format_admin_id_filter (PyStr ("ADM-" ++ digits)) = formatted
     /\ format_admin_id_filter (PyStr ("adm-" ++ digits)) = formatted
     /\ (0 < n -> format_admin_id_filter (PyInt n) = formatted)
     /\ format_admin_id_filter (PyStr formatted) = formatted)
  /\ ((String.length digits <= MAX_STR_DIGITS)%nat ->
      exists n, int_of_string digits = Some n /\ 0 <= n)
  /\ ((MAX_STR_DIGITS < String.length digits)%nat ->
      format_admin_id_filter (PyStr digits) = "ADM-" ++ digits
      /\ format_admin_id_filter (PyStr ("ADM-" ++ digits))
         = "ADM-" ++ "ADM-" ++ digits).
Proof.
  intros Hne Hdec.
  split; [| split; [apply int_of_decimal; assumption |]].
  2: { intros Hlong.
       pose proof (int_of_long_text digits Hlong) as Hnone.
       pose proof (decimal_nonspace digits Hdec) as Hns.
       split.
       - apply (format_admin_id_unread (PyStr digits) digits);
           try assumption.
         + cbn [truthy]. apply String.eqb_neq in Hne. rewrite Hne.
           reflexivity.
         + apply strip_nonspace. exact Hns.
         + apply decimal_is_no_prefix; assumption.
       - apply (format_admin_id_unread (PyStr ("ADM-" ++ digits)) digits);
           try assumption.
         + reflexivity.
         + apply strip_nonspace.
           change (str (PyStr ("ADM-" ++ digits)))
             with (String "A" (String "D" (String "M" (String "-" digits)))).
           cbn [sforall]. rewrite Hns. reflexivity.
         + change (str (PyStr ("ADM-" ++ digits)))
             with (String "A" (String "D" (String "M" (String "-" digits)))).
           unfold upper. cbn [smap].
           change (upper_char "A") with "A"%char.
           change (upper_char "D") with "D"%char.
           change (upper_char "M") with "M"%char.
           change (upper_char "-") with "-"%char.
           rewrite startswith_adm. reflexivity. }
  intros n Hint. cbv zeta.
  destruct (digits_of_int digits n Hint) as [Hnn _].
  pose proof (printable_of_int digits n Hint) as Hp.
  assert (Hread : int_of_string (str (PyInt n)) = Some n)
    by (apply int_of_str; assumption).
  assert (Hagain : int_of_string (padded_digits 5 n) = Some n)
    by (apply int_of_padded_digits;
        [exact Hnn | apply five_below_limit | exact Hp]).
  destruct (format_admin_id_spellings digits n Hne Hdec Hint)
    as (H1 & H2 & H3 & H4).
  split; [exact H1 |]. split; [exact H2 |]. split; [exact H3 |].
  split; [exact H4 |]. split.
  - intros Hpos.
    apply (format_admin_id_digits _ (str (PyInt n)) n).
    + cbn [truthy]. destruct (Z.eqb_spec n 0); [lia | reflexivity].
    + apply strip_nonspace, decimal_nonspace, str_decimal. exact Hnn.
    + apply decimal_is_no_prefix;
        [apply (nonempty_of_int _ n), Hread | apply str_decimal; exact Hnn].
    + apply (nonempty_of_int _ n), Hread.
    + apply str_decimal. exact Hnn.
    + exact Hread.
  - apply (format_admin_id_spellings (padded_digits 5 n) n).
    + apply (nonempty_of_int _ n), Hagain.
    + apply padded_digits_decimal. exact Hnn.
    + exact Hagain.
Qed.

Lemma format_admin_id_filter_normalises_witness :
  format_admin_id_filter (PyStr "7") = "ADM-00007"
  /\ format_admin_id_filter (PyStr "adm-007") = "ADM-00007"
  /\ format_admin_id_filter (PyStr "ADM-00007") = "ADM-00007".
Proof.
  pose proof (proj1 (format_admin_id_filter_normalises "7"
                       ltac:(discriminate) eq_refl) 7 eq_refl)
    as (Hbare & _ & _ & _ & _ & Hagain).
  pose proof (proj1 (format_admin_id_filter_normalises "007"
                       ltac:(discriminate) eq_refl) 7 eq_refl)
    as (_ & _ & _ & Hlower & _).
  split; [exact Hbare |]. split; [exact Hlower | exact Hagain].
Defined.

(** ** Passwords and uploads *)

Section VerifyPasswordFacts.

Variable checkpw : string -> string -> result bool.
Variable check_password_hash : string -> string -> result bool.

(** X22: [verify_password] compares the two texts before it looks at the
    format of the stored one.  Equal, non-empty texts verify whatever the
    stored value is, a hash included, and no hash library is consulted; an
    absent or empty value on either side never verifies; a stored value
    that is not in a hash format verifies exactly the equal text; and a
    failing [bcrypt] gives [False], not an exception. *)
Theorem verify_password_compares_text_first :
  (forall password,
     password <> "" ->
     verify_password checkpw check_password_hash (Some password)
       (Some password) = Ok true)
  /\ (forall stored provided,
        stored = None \/ provided = None \/ stored = Some ""
        \/ provided = Some "" ->
        verify_password checkpw check_password_hash stored provided
        = Ok false)
  /\ (forall stored provided,
        stored <> "" -> provided <> "" ->
        startswith stored "$2" = false ->
        startswith stored "pbkdf2:" = false ->
        verify_password checkpw check_password_hash (Some stored)
          (Some provided) = Ok (String.eqb stored provided))
  /\ (forall stored provided,
        startswith stored "$2" = true ->
        exists verified,
          verify_password checkpw check_password_hash (Some stored)
            (Some provided) = Ok verified).
Proof.
  split; [| split; [| split]].
  - intros password Hne. unfold verify_password.
    apply String.eqb_neq in Hne. rewrite Hne, String.eqb_refl. reflexivity.
  - intros stored provided H. unfold verify_password.
    destruct H as [-> | [-> | [-> | ->]]]; try reflexivity.
    + destruct stored; reflexivity.
    + destruct provided; reflexivity.
    + destruct stored as [stored |]; [| reflexivity].
      rewrite orb_true_r. reflexivity.
  - intros stored provided Hs Hp Hbcrypt Hpbkdf2. unfold verify_password.
    apply String.eqb_neq in Hs, Hp. rewrite Hs, Hp, Hbcrypt, Hpbkdf2.
    cbn [orb]. destruct (String.eqb stored provided); reflexivity.
  - intros stored provided Hbcrypt. unfold verify_password.
    rewrite Hbcrypt.
    destruct (String.eqb stored "" || String.eqb provided "")%bool; [eauto |].
    destruct (String.eqb stored provided); [eauto |].
    destruct (checkpw stored provided); cbn [rtry]; eauto.
Qed.

End VerifyPasswordFacts.

Lemma verify_password_compares_text_first_witness :
  verify_password broken_checkpw strict_check_password_hash
    (Some "$2b$12$abcdefghijklmnopqrstuv") (Some "$2b$12$abcdefghijklmnopqrstuv")
  = Ok true.
Proof.
  apply (proj1 (verify_password_compares_text_first broken_checkpw
                  strict_check_password_hash)).
  discriminate.
Defined.

Lemma after_last_dot_none (s : string) :
  no_dot s = true -> after_last_dot s = None.
Proof.
  unfold no_dot. induction s as [|c s IH]; [reflexivity |].
  cbn [sforall after_last_dot]. intros H. apply andb_prop in H as [Hc Hs].
  rewrite IH by exact Hs. destruct (Ascii.eqb c "."); [discriminate | reflexivity].
Qed.

Lemma after_last_dot_extension (name extension : string) :
  no_dot extension = true ->
  after_last_dot (name ++ String "." extension) = Some extension.
Proof.
  intros Hext. induction name as [|c name IH].
  - change ("" ++ String "." extension) with (String "." extension).
    cbn [after_last_dot]. rewrite after_last_dot_none by exact Hext.
    reflexivity.
  - change (String c name ++ String "." extension)
      with (String c (name ++ String "." extension)).
    cbn [after_last_dot]. rewrite IH. reflexivity.
Qed.

(** X23: [allowed_file] looks only at what follows the last dot of the name,
    without regard to case: a name is accepted exactly when that part is
    png, jpg, jpeg or gif, whatever comes before, other extensions included.
    A name without a dot, an empty name and a missing name are refused. *)
Theorem allowed_file_checks_the_last_extension (name extension : string) :
  no_dot extension = true ->
  allowed_file (Some (name ++ String "." extension))
  = existsb (String.eqb (lower extension)) ALLOWED_EXTENSIONS
  /\ allowed_file (Some extension) = false
  /\ allowed_file None = false.
Proof.
  intros Hext. split; [| split; [| reflexivity]].
  - unfold allowed_file. rewrite after_last_dot_extension by exact Hext.
    destruct name; reflexivity.
  - unfold allowed_file. rewrite after_last_dot_none by exact Hext.
    destruct (String.eqb extension ""); reflexivity.
Qed.

Lemma allowed_file_checks_the_last_extension_witness :
  allowed_file (Some "shell.php.PNG") = true
  /\ allowed_file (Some "photo.png.php") = false.
Proof.
  split.
  - apply (proj1 (allowed_file_checks_the_last_extension "shell.php" "PNG"
                    eq_refl)).
  - apply (proj1 (allowed_file_checks_the_last_extension "photo.png" "php"
                    eq_refl)).
Defined.

(** X24: the two password validators differ only in the special characters
    they count.  Each accepts exactly the passwords of eight or more
    characters that have an uppercase letter, a lowercase letter, a digit
    and a character of its own class; so a password one of them accepts is
    accepted by the other as soon as it has a character of the other's
    class. *)
Theorem password_validators_differ_only_in_special_characters
    (password : string) :
  fst (validate_password password)
  = (basic_strength password
     && search (one_of SPECIAL_CHARACTERS) password)%bool
  /\ fst (validate_password_for_request (Some password))
     = (basic_strength password
        && search (one_of REQUEST_SPECIAL_CHARACTERS) password)%bool
  /\ (fst (validate_password password) = true ->
      search (one_of REQUEST_SPECIAL_CHARACTERS) password = true ->
      validate_password_for_request (Some password)
      = (true, "Password is valid"))
  /\ (fst (validate_password_for_request (Some password)) = true ->
      search (one_of SPECIAL_CHARACTERS) password = true ->
      validate_password password = (true, "Password is valid")).
Proof.
  assert (Hempty : (String.length password <? 8)%nat = false ->
                   String.eqb password "" = false).
  { intros H. destruct password; [discriminate H | reflexivity]. }
  assert (H1 : fst (validate_password password)
               = (basic_strength password
                  && search (one_of SPECIAL_CHARACTERS) password)%bool).
  { unfold validate_password, basic_strength.
    destruct (String.length password <? 8)%nat; [reflexivity |].
    destruct (search (between 65 90) password); [| reflexivity].
    destruct (search (between 97 122) password); [| reflexivity].
    destruct (search isdecimal password); [| reflexivity].
    destruct (search (one_of SPECIAL_CHARACTERS) password); reflexivity. }
  assert (H2 : fst (validate_password_for_request (Some password))
               = (basic_strength password
                  && search (one_of REQUEST_SPECIAL_CHARACTERS) password)%bool).
  { unfold validate_password_for_request, basic_strength.
    destruct (String.length password <? 8)%nat eqn:Hlen;
      [rewrite orb_true_r; reflexivity |].
    rewrite (Hempty eq_refl). cbn [orb negb andb].
    destruct (search (between 97 122) password);
      [| rewrite andb_false_r; reflexivity].
    destruct (search (between 65 90) password); [| reflexivity].
    destruct (search isdecimal password); [| reflexivity].
    destruct (search (one_of REQUEST_SPECIAL_CHARACTERS) password);
      reflexivity. }
  split; [exact H1 |]. split; [exact H2 |]. split.
  - intros Hok Hspecial. rewrite H1 in Hok.
    apply andb_prop in Hok as [Hbasic _].
    unfold basic_strength in Hbasic.
    apply andb_prop in Hbasic as [Hbasic Hdigit].
    apply andb_prop in Hbasic as [Hbasic Hlower].
    apply andb_prop in Hbasic as [Hlen Hupper].
    apply negb_true_iff in Hlen.
    unfold validate_password_for_request.
    rewrite Hlen, (Hempty Hlen), Hlower, Hupper, Hdigit, Hspecial.
    reflexivity.
  - intros Hok Hspecial. rewrite H2 in Hok.
    apply andb_prop in Hok as [Hbasic _].
    unfold basic_strength in Hbasic.
    apply andb_prop in Hbasic as [Hbasic Hdigit].
    apply andb_prop in Hbasic as [Hbasic Hlower].
    apply andb_prop in Hbasic as [Hlen Hupper].
    apply negb_true_iff in Hlen.
    unfold validate_password.
    rewrite Hlen, Hlower, Hupper, Hdigit, Hspecial. reflexivity.
Qed.

Lemma password_validators_differ_only_in_special_characters_witness :
  fst (validate_password "Sunny_day1!") = true
  /\ validate_password_for_request (Some "Sunny_day1!")
     = (true, "Password is valid").
Proof.
  split; [reflexivity |].
  apply (proj1 (proj2 (proj2
           (password_validators_differ_only_in_special_characters
              "Sunny_day1!")))); reflexivity.
Defined.

(** ** The column check *)

Lemma probe_step (w : world) :
  try_catch (do _ <- select STUDENTS (fun _ => true) ; ret true)
    (fun _ => ret false) w
  = (Ok (match faults w with Some _ :: _ => false | _ => true end),
     advance w).
Proof.
  unfold try_catch, bind, select, execute.
  destruct (faults w) as [|[e|] fs]; reflexivity.
Qed.

Lemma probe_columns_missing (columns existing missing : list string)
    (w : world) :
  exists found,
    probe_columns columns existing missing w
    = (Ok (found, (missing ++ scheduled_missing columns (faults w))%list),
       World (tables w) (skipn (List.length columns) (faults w))).
Proof.
  revert existing missing w.
  induction columns as [|c columns IH]; intros existing missing w.
  - exists existing. cbn [probe_columns scheduled_missing List.length skipn].
    rewrite app_nil_r. destruct w. reflexivity.
  - cbn [probe_columns]. unfold bind at 1. rewrite probe_step.
    destruct (faults w) as [|[e|] fs] eqn:Hf.
    + destruct (IH (existing ++ [c])%list missing (advance w))
        as (found & Hrun).
      exists found. rewrite Hrun.
      assert (Hadv : faults (advance w) = []) by (simpl; rewrite Hf; reflexivity).
      rewrite Hadv. destruct columns; reflexivity.
    + destruct (IH existing (missing ++ [c])%list (advance w))
        as (found & Hrun).
      exists found. rewrite Hrun.
      assert (Hadv : faults (advance w) = fs) by (simpl; rewrite Hf; reflexivity).
      rewrite Hadv. cbn [scheduled_missing skipn List.length].
      rewrite <- app_assoc. reflexivity.
    + destruct (IH (existing ++ [c])%list missing (advance w))
        as (found & Hrun).
      exists found. rewrite Hrun.
      assert (Hadv : faults (advance w) = fs) by (simpl; rewrite Hf; reflexivity).
      rewrite Hadv. reflexivity.
Qed.

Lemma scheduled_missing_none (columns : list string)
    (outcomes : list (option string)) :
  scheduled_missing columns outcomes = []
  <-> forallb (fun outcome => match outcome with
                              | Some _ => false
                              | None => true
                              end)
        (firstn (List.length columns) outcomes) = true.
Proof.
  revert outcomes. induction columns as [|c columns IH]; intros outcomes.
  - simpl. tauto.
  - destruct outcomes as [|[e|] later]; cbn [scheduled_missing List.length
      firstn forallb andb].
    + tauto.
    + split; discriminate.
    + apply IH.
Qed.

(** X25: [verify_accounts_student_columns] never raises and reports success
    exactly when none of its sixteen calls fails: the first select of the
    table and one probe for each of the fifteen required columns.  A failure
    of the first select ends the check at once; after it every column is
    probed, whichever probes fail, and nothing is written. *)
Theorem verify_accounts_student_columns_reports_every_failure (w : world) :
  exists verified,
    fst (verify_accounts_student_columns w) = Ok verified
    /\ (verified = true <-> calls_succeed 16 w = true)
    /\ tables (snd (verify_accounts_student_columns w)) = tables w
    /\ (next_ok w ->
        faults (snd (verify_accounts_student_columns w))
        = skipn 16 (faults w))
    /\ (forall e fs,
        faults w = Some e :: fs ->
        faults (snd (verify_accounts_student_columns w)) = fs).
Proof.
  unfold verify_accounts_student_columns, calls_succeed.
  destruct (next_ok_or_fault w) as [Hok | (e & fs & Hf)].
  - rewrite (try_bind_ok _ _ _ _ _ _ (select_ok _ _ _ Hok)).
    destruct (probe_columns_missing REQUIRED_COLUMNS [] [] (advance w))
      as (found & Hrun).
    unfold try_catch, bind. rewrite Hrun. cbn [fst snd ret app].
    eexists. split; [reflexivity |].
    assert (Htail : faults (advance w) = tl (faults w)) by reflexivity.
    rewrite Htail.
    split; [| split; [reflexivity | split]].
    + rewrite Nat.eqb_eq, length_zero_iff_nil, scheduled_missing_none.
      unfold next_ok in Hok.
      destruct (faults w) as [|[e|] fs]; try contradiction.
      * reflexivity.
      * reflexivity.
    + intros _. cbn [faults]. destruct (faults w); reflexivity.
    + intros e fs Hf. unfold next_ok in Hok. rewrite Hf in Hok.
      contradiction.
  - rewrite (try_bind_raise _ _ _ _ _ _ (select_raise _ _ _ _ _ Hf)).
    cbn [fst snd ret]. exists false.
    split; [reflexivity |]. rewrite Hf.
    split; [split; discriminate |]. split; [reflexivity |]. split.
    + intros Hok. unfold next_ok in Hok. rewrite Hf in Hok. contradiction.
    + intros e' fs' [= _ <-]. simpl. rewrite Hf. reflexivity.
Qed.

Lemma verify_accounts_student_columns_reports_every_failure_witness :
  faults (snd (verify_accounts_student_columns
                 (with_faults [Some "permission denied"; None] sample_world)))
  = [None].
Proof.
  destruct (verify_accounts_student_columns_reports_every_failure
              (with_faults [Some "permission denied"; None] sample_world))
    as (verified & _ & _ & _ & _ & Hstop).
  apply (Hstop "permission denied" [None]). reflexivity.
Defined.

(** ** Incident details and the resolution report *)

Lemma same_tables_refl (w : world) : same_tables w w.
Proof. reflexivity. Qed.

Lemma same_tables_trans (a b c : world) :
  same_tables a b -> same_tables b c -> same_tables a c.
Proof. unfold same_tables. congruence. Qed.

Lemma select_keeps_tables (t : string) (p : row -> bool) :
  keeps same_tables (select t p).
Proof.
  apply keeps_execute; try exact same_tables_trans; intros w; reflexivity.
Qed.

Lemma get_incident_details_keeps_tables (incident_id : pyval) :
  keeps same_tables (get_incident_details incident_id).
Proof.
  pose proof same_tables_trans as Htrans.
  pose proof same_tables_refl as Hrefl.
  unfold get_incident_details.
  apply keeps_try_catch; [exact Htrans | | intros e; apply keeps_ret, Hrefl].
  apply keeps_bind; [exact Htrans | apply select_keeps_tables |].
  intros [|incident rest]; [apply keeps_ret, Hrefl |].
  apply keeps_bind; [exact Htrans | | intros student].
  { destruct (truthy (get incident "user_id")); [| apply keeps_ret, Hrefl].
    apply keeps_bind; [exact Htrans | apply select_keeps_tables |].
    intros rows. apply keeps_ret, Hrefl. }
  apply keeps_bind; [exact Htrans | | intros admin; apply keeps_ret, Hrefl].
  destruct (truthy (get incident "admin_id")); [| apply keeps_ret, Hrefl].
  apply keeps_bind; [exact Htrans | apply select_keeps_tables |].
  intros rows. apply keeps_ret, Hrefl.
Qed.

Lemma get_incident_details_never_raises (incident_id : pyval) (w : world) :
  exists details, fst (get_incident_details incident_id w) = Ok details.
Proof.
  unfold get_incident_details, try_catch.
  destruct (bind _ _ w) as [[d | e] w']; eauto.
Qed.

(** X26: a resolution report needs the details of its incident, and the
    details are all or nothing.  [get_incident_details] never raises and
    writes nothing; it answers [None] when the incident is missing, when the
    lookup of the incident fails, and also when the incident is found but
    the lookup of its reporter fails.  Whenever it answers [None],
    [create_incident_resolution_report] writes nothing and hands back the
    message that the details could not be retrieved. *)
Theorem report_needs_incident_details
    (clk : clock) (w : world)
    (incident_id admin_id admin_name previous_status summary_text : pyval) :
  (exists details,
     fst (get_incident_details incident_id w) = Ok details
     /\ tables (snd (get_incident_details incident_id w)) = tables w)
  /\ (next_ok w -> incident_of w incident_id = None ->
      fst (get_incident_details incident_id w) = Ok None)
  /\ (forall e fs,
        faults w = Some e :: fs ->
        fst (get_incident_details incident_id w) = Ok None)
  /\ (forall incident e fs,
        incident_of w incident_id = Some incident ->
        truthy (get incident "user_id") = true ->
        faults w = None :: Some e :: fs ->
        fst (get_incident_details incident_id w) = Ok None)
  /\ (fst (get_incident_details incident_id w) = Ok None ->
      fst (create_incident_resolution_report clk incident_id admin_id
             admin_name previous_status summary_text w)
      = Ok (None, Some "Incident details could not be retrieved.")
      /\ tables (snd (create_incident_resolution_report clk incident_id
                        admin_id admin_name previous_status summary_text w))
         = tables w).
Proof.
  pose proof (get_incident_details_keeps_tables incident_id w) as Hsame.
  unfold same_tables in Hsame.
  split; [| split; [| split; [| split]]].
  - destruct (get_incident_details_never_raises incident_id w) as [d Hd].
    exists d. split; [exact Hd | exact Hsame].
  - intros Hok Hnone. apply incident_of_none_rows in Hnone.
    unfold get_incident_details.
    rewrite (try_bind_ok _ _ _ _ _ _ (select_ok _ _ _ Hok)). rewrite Hnone.
    reflexivity.
  - intros e fs Hf. unfold get_incident_details.
    rewrite (try_bind_raise _ _ _ _ _ _ (select_raise _ _ _ _ _ Hf)).
    reflexivity.
  - intros incident e fs Hinc Huser Hf.
    destruct (incident_of_rows _ _ _ Hinc) as [rest Hrows].
    unfold get_incident_details.
    rewrite (try_bind_ok _ _ _ _ _ _ (select_ok _ _ w ltac:(scheduled Hf))).
    rewrite Hrows, Huser. rewrite try_bind_assoc.
    rewrite (try_bind_raise _ _ _ _ _ _
               (select_raise _ _ (advance w) e fs ltac:(scheduled Hf))).
    reflexivity.
  - intros Hnone. unfold create_incident_resolution_report, bind.
    destruct (get_incident_details incident_id w) as [[[d |] | e] w'];
      cbn [fst snd] in *; try discriminate.
    split; [reflexivity | exact Hsame].
Qed.

Lemma report_needs_incident_details_witness :
  fst (create_incident_resolution_report sample_clock (PyStr "ICD404")
         (PyStr "ADM-X") (PyStr "Xavier") (PyStr "Active") (PyStr "all clear")
         sample_world)
  = Ok (None, Some "Incident details could not be retrieved.").
Proof.
  pose proof (report_needs_incident_details sample_clock sample_world
                (PyStr "ICD404") (PyStr "ADM-X") (PyStr "Xavier")
                (PyStr "Active") (PyStr "all clear"))
    as (_ & Hmissing & _ & _ & Hreport).
  apply Hreport. apply Hmissing; [exact I | reflexivity].
Defined.

(** ** The permissions endpoint *)

Lemma select_returns (t : string) (p : row -> bool) (w w' : world)
    (rows : list row) :
  select t p w = (Ok rows, w') ->
  next_ok w /\ rows = List.filter p (rows_of w t) /\ w' = advance w.
Proof.
  intros H. destruct (next_ok_or_fault w) as [Hok | (e & fs & Hf)].
  - rewrite select_ok in H by exact Hok. injection H as <- <-. auto.
  - rewrite (select_raise _ _ _ _ _ Hf) in H. discriminate.
Qed.

Lemma edit_granted (w : world) (incident_id admin_id : pyval)
    (incident : row) (reason : string) (w' : world) :
  incident_of w incident_id = Some incident ->
  can_admin_edit_incident incident_id admin_id w = (Ok (true, reason), w') ->
  editable_by admin_id incident = true.
Proof.
  intros Hinc He.
  destruct (next_ok_or_fault w) as [Hok | (e & fs & Hf)].
  - destruct (edit_decision w incident_id admin_id incident Hok Hinc)
      as [reason' He'].
    rewrite He' in He. injection He as -> _ _. reflexivity.
  - unfold can_admin_edit_incident, try_catch, bind in He.
    rewrite (select_raise _ _ _ _ _ Hf) in He. discriminate.
Qed.

(** X27: what the permissions endpoint reports is consistent.  When the
    store answers, an existing incident gets the fields below, with
    [can_edit] as the edit check decides; and in any reply with these
    fields, whatever calls failed, [can_edit] is never reported together
    with [is_resolved_or_cancelled], nor for an incident that has a
    responder other than the caller. *)
Theorem permissions_reply_is_consistent
    (s : session) (w : world) (incident_id : pyval) :
  (forall incident,
     faults w = [] -> incident_of w incident_id = Some incident ->
     exists edit_message name,
       fst (api_get_incident_permissions (Some s) incident_id w)
       = Ok (ApiPermissions (editable_by (admin_id s) incident) edit_message
               (get incident "icd_status")
               (get incident "assigned_responder_id") name
               (if truthy (get incident "assigned_responder_id")
                then String.eqb (str (get incident "assigned_responder_id"))
                       (str (admin_id s))
                else false)
               (closed_status incident)))
  /\ (forall can_edit edit_message status assigned name mine closed,
        fst (api_get_incident_permissions (Some s) incident_id w)
        = Ok (ApiPermissions can_edit edit_message status assigned name mine
                closed) ->
        (closed = true -> can_edit = false)
        /\ (can_edit = true -> truthy assigned = true -> mine = true)).
Proof.
  split.
  - intros incident Hc Hinc.
    destruct (incident_of_rows _ _ _ Hinc) as [rest Hrows].
    destruct (edit_decision w incident_id (admin_id s) incident
                (calm_next_ok _ Hc) Hinc) as [reason He].
    rewrite advance_calm in He by exact Hc.
    unfold api_get_incident_permissions.
    rewrite (try_bind_ok _ _ _ _ _ _ (select_calm _ _ _ Hc)). rewrite Hrows.
    cbv zeta. rewrite (try_bind_ok _ _ _ _ _ _ He).
    unfold closed_status.
    destruct (truthy (get incident "assigned_responder_id")).
    + unfold try_catch at 1. unfold bind at 1. unfold try_catch at 1.
      unfold bind at 1. rewrite (select_calm _ _ _ Hc).
      destruct (List.filter _ (rows_of w ADMINS)); eexists _, _; reflexivity.
    + eexists _, _. reflexivity.
  - intros can_edit edit_message status assigned name mine closed Hreply.
    unfold api_get_incident_permissions in Hreply.
    apply try_catch_returns in Hreply as [Hreply | (e & w' & _ & Hreply)];
      [| discriminate Hreply].
    apply bind_returns in Hreply as (rows & w1 & Hsel & Hreply).
    apply select_returns in Hsel as (Hok & -> & ->).
    destruct (List.filter (eq_filter "icd_id" incident_id)
                (rows_of w INCIDENTS)) as [|incident rest] eqn:Hrows;
      [discriminate Hreply |].
    assert (Hinc : incident_of (advance w) incident_id = Some incident).
    { unfold incident_of. rewrite rows_of_advance, Hrows. reflexivity. }
    cbv zeta in Hreply.
    apply bind_returns in Hreply as ([can reason] & w2 & He & Hreply).
    apply bind_returns in Hreply as (name' & w3 & _ & Hreply).
    injection Hreply as -> _ _ <- _ <- <-.
    split.
    + intros Hclosed. destruct can_edit; [| reflexivity].
      pose proof (edit_granted _ _ _ _ _ _ Hinc He) as Hedit.
      unfold editable_by, closed_status in Hedit.
      apply andb_prop in Hedit as [Hopen _]. apply negb_true_iff in Hopen.
      assert (Habsurd : true = false) by (rewrite <- Hclosed; exact Hopen).
      discriminate Habsurd.
    + intros -> Hassigned.
      pose proof (edit_granted _ _ _ _ _ _ Hinc He) as Hedit.
      unfold editable_by, assigned_to_other in Hedit.
      apply andb_prop in Hedit as [_ Hmine].
      destruct (truthy (get incident "assigned_responder_id"));
        [| discriminate Hassigned].
      cbn [andb] in Hmine. apply negb_true_iff, negb_false_iff in Hmine.
      exact Hmine.
Qed.

Lemma permissions_reply_is_consistent_witness :
  exists edit_message name,
    fst (api_get_incident_permissions (Some admin_y) (PyStr "ICD002")
           sample_world)
    = Ok (ApiPermissions false edit_message (PyStr "Pending") (PyStr "ADM-X")
            name false false).
Proof.
  apply (proj1 (permissions_reply_is_consistent admin_y sample_world
                  (PyStr "ICD002")) icd_pending_x eq_refl eq_refl).
Defined.

(** ** The delete and archive forms *)

Lemma incident_of_without (w : world) (incident_id : pyval) (rs : list row) :
  rows_of w INCIDENTS = without "icd_id" incident_id rs ->
  incident_of w incident_id = None.
Proof.
  intros Hrows. unfold incident_of. rewrite Hrows. unfold without.
  destruct (List.filter (eq_filter "icd_id" incident_id)
              (List.filter (fun r => negb (eq_filter "icd_id" incident_id r))
                 rs)) as [|r rest] eqn:Hf; [reflexivity |].
  assert (Hin : In r (r :: rest)) by (left; reflexivity).
  rewrite <- Hf in Hin. apply filter_In in Hin as [Hin Hyes].
  apply filter_In in Hin as [_ Hnot]. rewrite Hyes in Hnot. discriminate.
Qed.

Lemma archive_incident_calm (clk : clock) (w : world)
    (incident_id admin_id reason : pyval) (incident : row) :
  faults w = [] ->
  incident_of w incident_id = Some incident ->
  List.filter (eq_filter "icd_id" (get incident "icd_id")) (rows_of w ARCHIVE)
  = [] ->
  let run := archive_incident clk incident_id admin_id reason w in
  fst run = Ok (true, "Incident archived successfully")
  /\ rows_of (snd run) INCIDENTS
     = without "icd_id" incident_id (rows_of w INCIDENTS)
  /\ rows_of (snd run) ARCHIVE
     = (rows_of w ARCHIVE
        ++ [archive_data clk (get incident "icd_id") admin_id reason
              incident])%list.
Proof.
  intros Hc Hinc Hfree.
  destruct (incident_of_rows _ _ _ Hinc) as [rest Hrows].
  set (archived :=
         archive_data clk (get incident "icd_id") admin_id reason incident).
  set (w1 := set_rows ARCHIVE (rows_of w ARCHIVE ++ [archived]) w).
  set (w2 := set_rows RESOLUTION_REPORTS_TABLE
               (without "icd_id" incident_id
                  (rows_of w1 RESOLUTION_REPORTS_TABLE)) w1).
  set (w3 := set_rows INCIDENTS
               (without "icd_id" incident_id (rows_of w2 INCIDENTS)) w2).
  assert (Hc1 : faults w1 = []) by exact Hc.
  assert (Hc2 : faults w2 = []) by exact Hc.
  assert (Hc3 : faults w3 = []) by exact Hc.
  cbv zeta. unfold archive_incident.
  rewrite (try_bind_ok _ _ _ _ _ _ (select_calm _ _ _ Hc)). rewrite Hrows.
  rewrite (try_bind_ok _ _ _ _ _ _ (select_calm _ _ _ Hc)). rewrite Hfree.
  cbv zeta. fold (archive_data clk (get incident "icd_id") admin_id reason
                    incident). fold archived.
  rewrite (try_bind_ok _ _ _ _ _ _ (insert_calm _ _ _ Hc)). fold w1.
  unfold log_incident_change. cbv [ret bind try_catch].
  rewrite (delete_calm _ _ _ Hc1).
  fold (without "icd_id" incident_id (rows_of w1 RESOLUTION_REPORTS_TABLE)).
  fold w2. rewrite (delete_calm _ _ _ Hc2).
  fold (without "icd_id" incident_id (rows_of w2 INCIDENTS)). fold w3.
  rewrite (insert_calm _ _ _ Hc3). cbn [fst snd].
  split; [reflexivity |].
  split; unfold w3, w2, w1; table_rows; reflexivity.
Qed.

(** X28: the archive form of the page does not ask the edit check.  An
    incident the caller may not edit, because it is closed or has another
    admin as responder, is refused by [api_archive_incident] with a 403 and
    is archived by the form: after the form's request the incident is out
    of the incidents table and its copy is in the archive. *)
Theorem archive_form_skips_the_edit_check
    (clk : clock) (s : session) (w : world) (incident_id : pyval)
    (reason : option pyval) (incident : row) :
  faults w = [] ->
  incident_of w incident_id = Some incident ->
  List.filter (eq_filter "icd_id" (get incident "icd_id")) (rows_of w ARCHIVE)
  = [] ->
  editable_by (admin_id s) incident = false ->
  let api := api_archive_incident clk (Some s) incident_id reason w in
  let form := incident_management_archive clk (Some s) incident_id reason w in
  (exists why,
     fst api = Ok (ApiMessage 403 false ("Permission denied: " ++ why)))
  /\ tables (snd api) = tables w
  /\ fst form
     = Ok (Some [Flash ("Incident " ++ str incident_id
                        ++ " has been successfully archived. "
                        ++ "Incident archived successfully") "success"])
  /\ incident_of (snd form) incident_id = None
  /\ exists archived,
       In archived (rows_of (snd form) ARCHIVE)
       /\ carries_columns incident archived
       /\ get archived "archived_by" = admin_id s.
Proof.
  intros Hc Hinc Hfree Hdenied. cbv zeta.
  assert (Hno : forall i, incident_of w incident_id = Some i ->
                          editable_by (admin_id s) i = false).
  { intros i Hi. rewrite Hinc in Hi. injection Hi as <-. exact Hdenied. }
  destruct (edit_refused_any_schedule w incident_id (admin_id s) Hno)
    as [why He].
  split; [| split].
  - exists why. unfold api_archive_incident, bind. rewrite He. reflexivity.
  - unfold api_archive_incident, bind. rewrite He. reflexivity.
  - destruct (archive_incident_calm clk w incident_id (admin_id s)
                (default (PyStr "Archived by administrator") reason)
                incident Hc Hinc Hfree) as (Hmsg & Hlive & Harchive).
    assert (Hform :
      incident_management_archive clk (Some s) incident_id reason w
      = (Ok (Some [Flash ("Incident " ++ str incident_id
                          ++ " has been successfully archived. "
                          ++ "Incident archived successfully") "success"]),
         snd (archive_incident clk incident_id (admin_id s)
                (default (PyStr "Archived by administrator") reason) w))).
    { unfold incident_management_archive. unfold bind at 1.
      rewrite refresh_step, advance_calm by exact Hc. cbv zeta.
      unfold try_catch, bind.
      destruct (archive_incident clk incident_id (admin_id s)
                  (default (PyStr "Archived by administrator") reason) w)
        as [[[success message] | e] w'] eqn:Hrun; cbn [fst snd] in *;
        [| discriminate Hmsg].
      injection Hmsg as -> ->. reflexivity. }
    rewrite Hform. cbn [fst snd].
    split; [reflexivity |]. split.
    + apply (incident_of_without _ _ _ Hlive).
    + exists (archive_data clk (get incident "icd_id") (admin_id s)
                (default (PyStr "Archived by administrator") reason)
                incident).
      split; [rewrite Harchive; apply in_or_app; right; left; reflexivity |].
      split; [apply archive_data_carries | reflexivity].
Qed.

Lemma archive_form_skips_the_edit_check_witness :
  let form := incident_management_archive sample_clock (Some admin_y)
                (PyStr "ICD002") None sample_world in
  editable_by (admin_id admin_y) icd_pending_x = false
  /\ incident_of (snd form) (PyStr "ICD002") = None.
Proof.
  split; [reflexivity |].
  apply (proj1 (proj2 (proj2 (proj2
           (archive_form_skips_the_edit_check sample_clock admin_y
              sample_world (PyStr "ICD002") None icd_pending_x
              eq_refl eq_refl eq_refl eq_refl))))).
Defined.

(** X29: the delete form of the page asks no permission and writes its
    audit row first.  When the store answers, any existing incident,
    whatever its status and responder, is removed together with its
    activity log, after a [deleted] row has gone to the audit trail.  When
    the delete of the activity log fails, the request reports the error and
    the incident stays, but the [deleted] row is already in the audit
    trail. *)
Theorem delete_form_asks_no_permission
    (s : session) (w : world) (incident_id : pyval) (incident : row) :
  incident_of w incident_id = Some incident ->
  (faults w = [] ->
   let run := incident_management_delete (Some s) incident_id w in
   fst run
   = Ok (Some [Flash ("Incident " ++ str incident_id
                      ++ " has been successfully deleted.") "success"])
   /\ incident_of (snd run) incident_id = None
   /\ rows_of (snd run) ACTIVITY_LOGS
      = without "incident_id" incident_id (rows_of w ACTIVITY_LOGS)
   /\ exists entry,
        rows_of (snd run) AUDIT_TRAIL
        = (rows_of w AUDIT_TRAIL ++ [entry])%list
        /\ get entry "action_type" = PyStr "deleted"
        /\ get entry "icd_id" = incident_id
        /\ get entry "changed_by" = admin_id s)
  /\ (forall e fs,
        faults w = None :: None :: None :: Some e :: fs ->
        let run := incident_management_delete (Some s) incident_id w in
        fst run
        = Ok (Some [Flash ("Error deleting incident: " ++ e) "error"])
        /\ rows_of (snd run) INCIDENTS = rows_of w INCIDENTS
        /\ exists entry,
             rows_of (snd run) AUDIT_TRAIL
             = (rows_of w AUDIT_TRAIL ++ [entry])%list
             /\ get entry "action_type" = PyStr "deleted"
             /\ get entry "icd_id" = incident_id).
Proof.
  intros Hinc. destruct (incident_of_rows _ _ _ Hinc) as [rest Hrows].
  set (entry := mk_row [
         ("icd_id", incident_id);
         ("action_type", PyStr "deleted");
         ("old_status", PyNone);
         ("new_status", PyNone);
         ("changed_by", admin_id s);
         ("change_reason", PyStr "Deleted by administrator")]).
  split.
  - intros Hc.
    set (w1 := set_rows AUDIT_TRAIL (rows_of w AUDIT_TRAIL ++ [entry]) w).
    set (w2 := set_rows ACTIVITY_LOGS
                 (without "incident_id" incident_id (rows_of w1 ACTIVITY_LOGS))
                 w1).
    assert (Hc1 : faults w1 = []) by exact Hc.
    assert (Hc2 : faults w2 = []) by exact Hc.
    assert (Hrun :
      incident_management_delete (Some s) incident_id w
      = (Ok (Some [Flash ("Incident " ++ str incident_id
                          ++ " has been successfully deleted.") "success"]),
         set_rows INCIDENTS
           (without "icd_id" incident_id (rows_of w2 INCIDENTS)) w2)).
    { unfold incident_management_delete. unfold bind at 1.
      rewrite refresh_step, advance_calm by exact Hc.
      rewrite (try_bind_ok _ _ _ _ _ _ (select_calm _ _ _ Hc)). rewrite Hrows.
      unfold log_incident_change. cbv [ret bind try_catch].
      rewrite (insert_calm _ _ _ Hc). fold entry. fold w1.
      rewrite (delete_calm _ _ _ Hc1).
      fold (without "incident_id" incident_id (rows_of w1 ACTIVITY_LOGS)).
      fold w2. rewrite (delete_calm _ _ _ Hc2). reflexivity. }
    cbv zeta. rewrite Hrun. cbn [fst snd].
    split; [reflexivity |]. split; [| split].
    + apply (incident_of_without _ _ (rows_of w2 INCIDENTS)).
      table_rows. reflexivity.
    + unfold w2, w1. table_rows. reflexivity.
    + exists entry. unfold w2, w1. table_rows.
      split; [reflexivity |]. split; [reflexivity |].
      split; reflexivity.
  - intros e fs Hf.
    set (w3 := set_rows AUDIT_TRAIL
                 (rows_of (advance (advance w)) AUDIT_TRAIL ++ [entry])
                 (advance (advance (advance w)))).
    assert (H3 : faults w3 = Some e :: fs) by (unfold w3; scheduled Hf).
    assert (Hrun :
      incident_management_delete (Some s) incident_id w
      = (Ok (Some [Flash ("Error deleting incident: " ++ e) "error"]),
         advance w3)).
    { unfold incident_management_delete. unfold bind at 1.
      rewrite refresh_step.
      rewrite (try_bind_ok _ _ _ _ _ _
                 (select_ok _ _ (advance w) ltac:(scheduled Hf))).
      rewrite rows_of_advance, Hrows.
      unfold log_incident_change. cbv [ret bind try_catch].
      rewrite (insert_ok _ _ (advance (advance w)) ltac:(scheduled Hf)).
      fold entry. fold w3.
      rewrite (delete_raise _ _ w3 e fs H3). reflexivity. }
    cbv zeta. rewrite Hrun. cbn [fst snd]. unfold w3.
    split; [reflexivity |]. split; [settle_rows; reflexivity |].
    exists entry. settle_rows.
    split; [reflexivity |]. split; reflexivity.
Qed.

Lemma delete_form_asks_no_permission_witness :
  let run := incident_management_delete (Some admin_y) (PyStr "ICD003")
               sample_world in
  editable_by (admin_id admin_y) icd_resolved_x = false
  /\ incident_of (snd run) (PyStr "ICD003") = None.
Proof.
  split; [reflexivity |].
  apply (proj1 (proj2
           (proj1 (delete_form_asks_no_permission admin_y sample_world
                     (PyStr "ICD003") icd_resolved_x eq_refl)
              eq_refl))).
Defined.
